(** * DataLayer singleton wallet: a shallow embedding of
      [chia/data_layer/data_layer_wallet.py]

    The wallet tracks, for every launcher identifier, the chain of singleton
    coins that publish a data root.  The Python methods are asynchronous
    methods of one object that talk to several stores; here they are
    functions in a state-and-exception monad over an explicit wallet state.
    Hashing, the script evaluator, the signer and the standard wallet are
    collaborators and appear as parameters. *)

From stdpp Require Import gmap strings list fin_maps sorting.
From Stdlib Require Import ZArith Lia.
From Stdlib Require DecimalString DecimalPos DecimalZ.

Set Default Proof Using "Type".

(** ** Python values *)

(** A Python [bytes] object is a string of 8-bit characters. [bytes32] is the
    subclass whose constructor checks the length. *)
Abbreviation bytes := string (only parsing).
Abbreviation bytes32 := string (only parsing).

(** The exceptions the modelled methods raise.  Every [raise ValueError(...)]
    of the source carries a message; the message is kept as a kind. *)
Inductive error_kind : Type :=
  | NotTracked            (* "... is not tracked by DL Wallet" *)
  | Pending               (* "... is currently pending" *)
  | InsufficientLineage   (* "... has insufficient information to spend" *)
  | ParentNotFound        (* "Have not found the parent of singleton ..." *)
  | NoLauncherInfo        (* "DL Wallet does not have launcher info ..." *)
  | NotOwned              (* "DL Wallet does not have permission to update ..." *)
  | UnknownDLCoin         (* "Not enough info to know which DL coin to send" *)
  | OneCoinAtATime        (* "The wallet can only send one DL coin at a time" *)
  | CoinNotTracked        (* "The specified coin is not a tracked DL" *)
  | OnePlaceAtATime       (* "... one DL coin to one place at a time" *)
  | NotEnoughCoins        (* "Not enough coins to create new data layer singleton" *)
  | BadSizedBytes         (* bytes32(...) on a value that is not 32 bytes long *)
  | IntOutOfRange         (* uint32(...) / uint64(...) out of range *)
  | Collaborator (detail : string). (* raised inside a collaborator *)

Inductive exn : Type :=
  | ValueError (k : error_kind)
  | AssertionError
  | AttributeError
  | IndexError
  | TypeError.

#[global] Instance error_kind_eq_dec : EqDecision error_kind.
Proof. solve_decision. Defined.
#[global] Instance exn_eq_dec : EqDecision exn.
Proof. solve_decision. Defined.

(** [uint32(z)] and [uint64(z)] raise when [z] is out of range. *)
Definition uint (bits : Z) (z : Z) : exn + Z :=
  if bool_decide (0 ≤ z < 2 ^ bits)%Z then inr z else inl (ValueError IntOutOfRange).
Definition uint32 : Z → exn + Z := uint 32.
Definition uint64 : Z → exn + Z := uint 64.

(** [bytes32(b)] for a [bytes] value [b]. *)
Definition to_bytes32 (b : bytes) : exn + bytes32 :=
  if bool_decide (String.length b = 32%nat) then inr b else inl (ValueError BadSizedBytes).

(** [int.from_bytes(b, "big")]. *)
Definition int_from_bytes (b : bytes) : Z :=
  fold_left (λ acc c, acc * 256 + Z.of_nat (Ascii.nat_of_ascii c))%Z (String.list_ascii_of_string b) 0%Z.

(** What [Program.as_python()] returns for a nil-terminated structure: atoms
    become [bytes], lists become Python lists.  Indexing a [bytes] object
    yields an [int], hence [PInt]. *)
Inductive pyval : Type :=
  | PInt (n : Z)
  | PBytes (b : bytes)
  | PList (l : list pyval).

(** [v[i]] *)
Definition py_index (v : pyval) (i : nat) : exn + pyval :=
  match v with
  | PList l => match l !! i with Some x => inr x | None => inl IndexError end
  | PBytes b =>
      match String.list_ascii_of_string b !! i with
      | Some c => inr (PInt (Z.of_nat (Ascii.nat_of_ascii c)))
      | None => inl IndexError
      end
  | PInt _ => inl TypeError
  end.

(** [bytes(v)], the conversion [bytes32(v)] starts with: an [int] [n] gives
    [n] zero bytes, an empty list gives the empty byte string, a list holding anything but
    ints is a [TypeError]. *)
Definition py_bytes (v : pyval) : exn + bytes :=
  match v with
  | PBytes b => inr b
  | PInt n =>
      if bool_decide (0 ≤ n)%Z
      then inr (String.string_of_list_ascii (replicate (Z.to_nat n) Ascii.zero))
      else inl (ValueError BadSizedBytes)
  | PList [] => inr EmptyString
  | PList (_ :: _) => inl TypeError
  end.

Definition py_bytes32 (v : pyval) : exn + bytes32 :=
  match py_bytes v with
  | inr b => to_bytes32 b
  | inl e => inl e
  end.

(** [int.from_bytes(v, "big")] on a value found in a condition. *)
Definition py_int_from_bytes (v : pyval) : exn + Z :=
  match v with
  | PBytes b => inr (int_from_bytes b)
  | PList [] => inr 0%Z
  | PList (_ :: _) => inl TypeError
  | PInt _ => inl TypeError
  end.

(** ** Chain data *)

Record Coin : Type := mkCoin {
  parent_coin_info : bytes32;
  puzzle_hash : bytes32;
  amount : Z;
}.

Record LineageProof : Type := mkLineageProof {
  parent_name : option bytes32;
  lp_inner_puzzle_hash : option bytes32;
  lp_amount : option Z;
}.

Record Announcement : Type := mkAnnouncement {
  origin_info : bytes32;
  message : bytes;
}.

(** The conditions the wallet writes into the solutions it authors. *)
Inductive Condition : Type :=
  | CreateCoin (ph : bytes32) (amt : Z) (memos : list bytes)   (* opcode 51 *)
  | CreateCoinAnnouncement (msg : bytes)                       (* opcode 60 *)
  | AssertCoinAnnouncement (name : bytes32)                    (* opcode 61 *)
  | CreatePuzzleAnnouncement (msg : bytes)                     (* opcode 62 *)
  | AssertPuzzleAnnouncement (name : bytes32)                  (* opcode 63 *)
  | UpdateRoot (new_root : bytes32).  (* [-24, ACS_MU, [[(root . ()), ACS_MU_PH], ()]] *)

(** The programs the wallet builds or receives.  A program that arrives
    from the network is [Serialized]; the others are the shapes the source
    assembles with [Program.to] and the puzzle constructors. *)
Inductive Program : Type :=
  | Serialized (blob : bytes)
  | SINGLETON_LAUNCHER
  | PuzzleForPk (pubkey : bytes)                      (* standard_wallet.puzzle_for_pk *)
  | Quoted (conditions : list Condition)              (* Program.to((1, conditions)) *)
  | HostFullPuz (inner : Program) (root launcher : bytes32)  (* create_host_fullpuz *)
  | LauncherSolution (full_puzhash : bytes32) (amt : Z) (root inner_puzhash : bytes32)
  | SingletonSolution (lineage : LineageProof) (amt : Z)
      (inner_solution : option (list Condition)).
      (* [lineage, amount, [inner_sol]]; [None] is the empty inner solution [[]] *)

Record CoinSpend : Type := mkCoinSpend {
  coin : Coin;
  puzzle_reveal : Program;
  solution : Program;
}.

(** An aggregated signature is kept as the list of its parts: [G2Element()]
    is the empty list and aggregation is concatenation. *)
Record SpendBundle : Type := mkSpendBundle {
  coin_spends : list CoinSpend;
  aggregated_signature : list bytes;
}.

(** [TransactionRecord]; [memos], [sent_to] and [trade_id] are left out, the
    modelled methods never read them. *)
Record TransactionRecord : Type := mkTransactionRecord {
  tx_confirmed_at_height : Z;
  created_at_time : Z;
  to_puzzle_hash : bytes32;
  tx_amount : Z;
  fee_amount : Z;
  tx_confirmed : bool;
  sent : Z;
  spend_bundle : option SpendBundle;
  additions : list Coin;
  removals : list Coin;
  memos : list (bytes32 * list bytes);
  tx_wallet_id : Z;
  tx_type : Z;
  name : bytes32;
}.

Record WalletCoinRecord : Type := mkWalletCoinRecord {
  wcr_coin : Coin;
  wcr_confirmed_block_height : Z;
  wcr_spent_block_height : Z;
  wcr_spent : bool;
  wcr_coinbase : bool;
  wcr_wallet_id : Z;
}.

(** ** The singleton record (source lines 57-68) *)

Record SingletonRecord : Type := mkSingletonRecord {
  coin_id : bytes32;
  launcher_id : bytes32;
  root : bytes32;
  inner_puzzle_hash : bytes32;
  confirmed : bool;
  confirmed_at_height : Z;
  lineage_proof : LineageProof;
  generation : Z;
  timestamp : Z;
}.

#[global] Instance Coin_eq_dec : EqDecision Coin.
Proof. solve_decision. Defined.
#[global] Instance LineageProof_eq_dec : EqDecision LineageProof.
Proof. solve_decision. Defined.
#[global] Instance Announcement_eq_dec : EqDecision Announcement.
Proof. solve_decision. Defined.
#[global] Instance Condition_eq_dec : EqDecision Condition.
Proof. solve_decision. Defined.
#[global] Instance SingletonRecord_eq_dec : EqDecision SingletonRecord.
Proof. solve_decision. Defined.

(** ** Collaborators *)

(** Hashing.  [coin_hash] is [Coin(parent, puzzle_hash, amount).name()],
    [std_hash] is SHA-256.  A puzzle enters the host layers only through its
    tree hash: [create_host_fullpuz(inner, root, launcher).get_tree_hash()]
    for a program [inner] and
    [create_host_fullpuz(h, root, launcher).get_tree_hash(h)] for its hash [h]
    are the same value [host_fullpuz_hash h root launcher]; likewise
    [host_layer_hash] for [create_host_layer_puzzle].  [leaf_tree_hash] hashes
    the programs that are not host puzzles. *)
Class Hashing : Type := {
  coin_hash : bytes32 → bytes32 → Z → bytes32;
  std_hash : bytes → bytes32;
  host_fullpuz_hash : bytes32 → bytes32 → bytes32 → bytes32;
  host_layer_hash : bytes32 → bytes32 → bytes32;
  leaf_tree_hash : Program → bytes32;
}.

Record CoinState : Type := mkCoinState {
  cs_coin : Coin;
  created_height : option Z;
  spent_height : option Z;
}.

(** A request to [standard_wallet.generate_signed_transaction]. *)
Record StdTxRequest : Type := mkStdTxRequest {
  req_amount : Z;
  req_puzzle_hash : bytes32;
  req_fee : Z;
  req_origin_id : option bytes32;
  req_coins : option (list Coin);
  req_coin_announcements : option (list Announcement);
  req_puzzle_announcements : option (list Announcement);
}.

(** The chain client, the script evaluator, the derivation index, the
    signer and the standard wallet.  [launch_solution_to_singleton_info] and
    [match_dl_singleton] live in [db_wallet_puzzles], which is not part of
    the sources; they decode programs and are taken as given.
    [hack_populate_secret_key_for_puzzle_hash] is the method of the standard
    wallet that loads the secret key of a puzzle hash into the signer's key
    store and returns the public key; it raises when the wallet has no key
    for the puzzle hash.  [compute_memos] ([chia.wallet.util]) runs the
    spends of a bundle and collects the memos of the coins they create. *)
Record Env : Type := mkEnv {
  wallet_id : Z;
  wallet_type : Z;
  standard_wallet_id : Z;
  time_now : Z;
  get_timestamp_for_height : Z → Z;
  get_coin_state : list bytes32 → list CoinState;
  launch_solution_to_singleton_info : Program → exn + (bytes32 * Z * bytes32 * bytes32);
  match_dl_singleton : Program → bool;
  run_with_cost : Program → Program → exn + pyval;
  get_derivation_record_for_puzzle_hash : bytes32 → option bytes;
  get_new_puzzle : nat → Program;
  get_new_puzzlehash : nat → bytes32;
  select_coins : Z → option (list Coin);
  std_generate_signed_transaction : StdTxRequest → exn + option TransactionRecord;
  sign_coin_spends : list CoinSpend → exn + list bytes;
  bundle_additions : SpendBundle → list Coin;
  bundle_name : SpendBundle → bytes32;
  hack_populate_secret_key_for_puzzle_hash : bytes32 → exn + bytes;
  compute_memos : SpendBundle → exn + list (bytes32 * list bytes);
}.

(** ** The wallet state *)

(** A container a caller passes by reference. The source declares the
    announcement arguments as sets and calls [append] on one of them, which
    only a list has; both kinds of object can reach the call. *)
Inductive pyobj : Type :=
  | PyList (items : list Announcement)
  | PySet (items : list Announcement).

Inductive log_record : Type :=
  | LogInfo (msg : string)
  | LogWarning (msg : string) (cause : option exn).

Record WalletState : Type := mkWalletState {
  singleton_records : list SingletonRecord;   (* dl_store, singleton table *)
  launchers : gmap bytes32 Coin;              (* dl_store, launcher table *)
  transactions : list TransactionRecord;      (* tx_store *)
  interested_puzzle_hashes : list (bytes32 * Z);
  interested_coin_ids : list bytes32;
  coin_records : list WalletCoinRecord;       (* coin_store *)
  heap : gmap nat pyobj;                      (* objects shared with callers *)
  derivation_index : nat;                     (* next unused derivation *)
  log : list log_record;
}.

Definition with_singleton_records (f : list SingletonRecord → list SingletonRecord)
    (s : WalletState) : WalletState :=
  mkWalletState (f (singleton_records s)) (launchers s) (transactions s)
    (interested_puzzle_hashes s) (interested_coin_ids s) (coin_records s)
    (heap s) (derivation_index s) (log s).

Definition with_launchers (f : gmap bytes32 Coin → gmap bytes32 Coin)
    (s : WalletState) : WalletState :=
  mkWalletState (singleton_records s) (f (launchers s)) (transactions s)
    (interested_puzzle_hashes s) (interested_coin_ids s) (coin_records s)
    (heap s) (derivation_index s) (log s).

Definition with_transactions (f : list TransactionRecord → list TransactionRecord)
    (s : WalletState) : WalletState :=
  mkWalletState (singleton_records s) (launchers s) (f (transactions s))
    (interested_puzzle_hashes s) (interested_coin_ids s) (coin_records s)
    (heap s) (derivation_index s) (log s).

Definition with_interest (phs : list (bytes32 * Z)) (ids : list bytes32)
    (s : WalletState) : WalletState :=
  mkWalletState (singleton_records s) (launchers s) (transactions s)
    (interested_puzzle_hashes s ++ phs) (interested_coin_ids s ++ ids) (coin_records s)
    (heap s) (derivation_index s) (log s).

Definition with_coin_record (c : WalletCoinRecord) (s : WalletState) : WalletState :=
  mkWalletState (singleton_records s) (launchers s) (transactions s)
    (interested_puzzle_hashes s) (interested_coin_ids s) (coin_records s ++ [c])
    (heap s) (derivation_index s) (log s).

Definition with_heap (f : gmap nat pyobj → gmap nat pyobj) (s : WalletState) : WalletState :=
  mkWalletState (singleton_records s) (launchers s) (transactions s)
    (interested_puzzle_hashes s) (interested_coin_ids s) (coin_records s)
    (f (heap s)) (derivation_index s) (log s).

Definition with_next_derivation (s : WalletState) : WalletState :=
  mkWalletState (singleton_records s) (launchers s) (transactions s)
    (interested_puzzle_hashes s) (interested_coin_ids s) (coin_records s)
    (heap s) (S (derivation_index s)) (log s).

Definition with_log (r : log_record) (s : WalletState) : WalletState :=
  mkWalletState (singleton_records s) (launchers s) (transactions s)
    (interested_puzzle_hashes s) (interested_coin_ids s) (coin_records s)
    (heap s) (derivation_index s) (log s ++ [r]).

(** ** The singleton store *)

Module DLStore.

(** Modelled from the spec: the store class ([dl_wallet_store]) is not part
    of the sources.  Section 5 of the specification lists its operations and
    section 3 makes [coin_id] the key of a record.  The table is the list of
    its rows in insertion order; adding a record whose [coin_id] is already
    present replaces the row, which is how a pending record becomes the
    confirmed one when sync inserts the same coin (scenario 2). *)
Definition delete_singleton_record (cid : bytes32)
    (t : list SingletonRecord) : list SingletonRecord :=
  filter (λ r, coin_id r ≠ cid) t.

Definition add_singleton_record (r : SingletonRecord)
    (t : list SingletonRecord) : list SingletonRecord :=
  delete_singleton_record (coin_id r) t ++ [r].

Definition get_singleton_record (cid : bytes32)
    (t : list SingletonRecord) : option SingletonRecord :=
  head (filter (λ r, coin_id r = cid) t).

Definition confirm (height ts : Z) (r : SingletonRecord) : SingletonRecord :=
  mkSingletonRecord (coin_id r) (launcher_id r) (root r) (inner_puzzle_hash r)
    true height (lineage_proof r) (generation r) ts.

Definition set_confirmed (cid : bytes32) (height ts : Z)
    (t : list SingletonRecord) : list SingletonRecord :=
  (λ r, if decide (coin_id r = cid) then confirm height ts r else r) <$> t.

Definition records_of (launcher : bytes32) (t : list SingletonRecord) : list SingletonRecord :=
  filter (λ r, launcher_id r = launcher) t.

Definition get_unconfirmed_singletons (launcher : bytes32)
    (t : list SingletonRecord) : list SingletonRecord :=
  filter (λ r, confirmed r = false) (records_of launcher t).

(** [get_all_singletons_for_launcher(launcher, min_generation=g)] *)
Definition get_all_singletons_for_launcher (launcher : bytes32) (min_generation : Z)
    (t : list SingletonRecord) : list SingletonRecord :=
  filter (λ r, (min_generation ≤ generation r)%Z) (records_of launcher t).

(** The record of the highest generation; among several of that generation
    the row inserted first. *)
Fixpoint highest (l : list SingletonRecord) : option SingletonRecord :=
  match l with
  | [] => None
  | r :: rest =>
      match highest rest with
      | Some r' => if bool_decide (generation r < generation r')%Z then Some r' else Some r
      | None => Some r
      end
  end.

Definition get_latest_singleton (launcher : bytes32) (only_confirmed : bool)
    (t : list SingletonRecord) : option SingletonRecord :=
  highest (filter (λ r, only_confirmed = true → confirmed r = true) (records_of launcher t)).

End DLStore.

(** ** The transaction store *)

Module TxStore.

(** Modelled from the spec: the transaction store is a collaborator with
    "insert, delete, get by name, get unconfirmed for wallet" (section 6). *)
Definition get_transaction_record (n : bytes32)
    (t : list TransactionRecord) : option TransactionRecord :=
  head (filter (λ tx, name tx = n) t).

Definition delete_transaction_record (n : bytes32)
    (t : list TransactionRecord) : list TransactionRecord :=
  filter (λ tx, name tx ≠ n) t.

Definition add_transaction_record (tx : TransactionRecord)
    (t : list TransactionRecord) : list TransactionRecord :=
  delete_transaction_record (name tx) t ++ [tx].

Definition get_unconfirmed_for_wallet (wid : Z)
    (t : list TransactionRecord) : list TransactionRecord :=
  filter (λ tx, tx_confirmed tx = false ∧ tx_wallet_id tx = wid) t.

End TxStore.

(** ** The monad of wallet methods *)

(** A method takes the wallet state and returns the state it leaves behind
    together with either the exception it raised or its result.  A raise
    keeps the state reached so far: nothing is rolled back. *)
Definition M (A : Type) : Type := WalletState → WalletState * (exn + A).

#[global] Instance M_ret : MRet M := λ A x s, (s, inr x).
#[global] Instance M_bind : MBind M := λ A B f m s,
  match m s with
  | (s', inr x) => f x s'
  | (s', inl e) => (s', inl e)
  end.

#[global] Instance M_fmap : FMap M := λ A B f m s,
  match m s with
  | (s', inr x) => (s', inr (f x))
  | (s', inl e) => (s', inl e)
  end.

(** Pure code that may raise. *)
#[global] Instance exn_ret : MRet (sum exn) := λ A, inr.
#[global] Instance exn_bind : MBind (sum exn) := λ A B f m,
  match m with
  | inr x => f x
  | inl e => inl e
  end.

Definition raise {A} (e : exn) : M A := λ s, (s, inl e).
Definition get_state : M WalletState := λ s, (s, inr s).
Definition modify (f : WalletState → WalletState) : M unit := λ s, (f s, inr tt).

(** A value a collaborator returned, or the exception it raised. *)
Definition lift {A} (r : exn + A) : M A := λ s, (s, r).

(** [assert b] *)
Definition py_assert (b : bool) : M unit :=
  if b then mret tt else raise AssertionError.

(** [try: body except Exception as e: handler(e)] *)
Definition try_except {A} (body : M A) (handler : exn → M A) : M A := λ s,
  match body s with
  | (s', inl e) => handler e s'
  | r => r
  end.

(** [for x in l: body(x)] *)
Fixpoint for_each {A} (l : list A) (body : A → M unit) : M unit :=
  match l with
  | [] => mret tt
  | x :: rest => body x ≫= λ _, for_each rest body
  end.

Definition log_info (msg : string) : M unit := modify (with_log (LogInfo msg)).
Definition log_warning (msg : string) (cause : option exn) : M unit :=
  modify (with_log (LogWarning msg cause)).

(** [for x in l: acc = body(acc, x)] *)
Fixpoint fold_m {A B} (body : B → A → M B) (l : list A) (acc : B) : M B :=
  match l with
  | [] => mret acc
  | x :: rest => body acc x ≫= fold_m body rest
  end.

(** ** The wallet methods *)

Inductive launcher_state_error : Type :=
  | NotAValidCoin | NotALauncher | NotCreated | NotSpent.

Definition launcher_error_text (e : launcher_state_error) : string :=
  match e with
  | NotAValidCoin => "is not a valid coin"
  | NotALauncher => "is not a singleton launcher"
  | NotCreated => "has not been created (maybe reorged)"
  | NotSpent => "has not been spent"
  end.

Definition dollar : bytes := "$".

(** [ConditionOpcode.CREATE_COIN], the byte 51. *)
Definition CREATE_COIN : bytes := "3".

(** [TransactionType] values and the fixed fields of an authored record. *)
Definition INCOMING_TX : Z := 0.
Definition OUTGOING_TX : Z := 1.

(** [bytes32([2] * 32)] *)
Definition placeholder_puzzle_hash : bytes32 :=
  String.string_of_list_ascii (replicate 32 (Ascii.ascii_of_nat 2)).

Definition sum_amounts (cs : list Coin) : Z := foldr (λ c acc, amount c + acc)%Z 0%Z cs.

(** Modelled from the spec: [standard_wallet.make_solution] belongs to the
    standard wallet, which is not part of the sources.  Section 4.C step 6:
    a create-coin condition per primary with its memos, the coin
    announcements, then the assertions "as passed". *)
Definition make_solution (primaries : list (bytes32 * Z * list bytes))
    (coin_announcements : option (list bytes))
    (coin_announcements_to_assert puzzle_announcements_to_assert : option (list bytes32))
    : list Condition :=
  ((λ '(ph, amt, memos), CreateCoin ph amt memos) <$> primaries)
  ++ (CreateCoinAnnouncement <$> default [] coin_announcements)
  ++ (AssertCoinAnnouncement <$> default [] coin_announcements_to_assert)
  ++ (AssertPuzzleAnnouncement <$> default [] puzzle_announcements_to_assert).

(** What the scan over the conditions of a parent spend finds. *)
Inductive scan_outcome : Type :=
  | Successor (full_puzzle_hash : bytes32) (amt : Z) (root inner_puzzle_hash : bytes32)
  | BadHint      (* "did not hint its child properly" *)
  | Melted.      (* no CREATE_COIN with an odd amount *)

(** [dataclasses.replace(r, coin_id=..., lineage_proof=..., generation=...)] *)
Definition replace_record (r : SingletonRecord) (cid : bytes32) (lp : LineageProof)
    (gen : Z) : SingletonRecord :=
  mkSingletonRecord cid (launcher_id r) (root r) (inner_puzzle_hash r) (confirmed r)
    (confirmed_at_height r) lp gen (timestamp r).

Definition launcher_of (r : SingletonRecord) : bytes32 := launcher_id r.

(** [sorted(l, key=attrgetter("generation"))]: a stable sort. *)
Fixpoint insert_by_generation (r : SingletonRecord) (l : list SingletonRecord)
    : list SingletonRecord :=
  match l with
  | [] => [r]
  | x :: rest =>
      if bool_decide (generation r ≤ generation x)%Z then r :: l
      else x :: insert_by_generation r rest
  end.

Definition sorted_by_generation (l : list SingletonRecord) : list SingletonRecord :=
  foldr insert_by_generation [] l.

(** [len(a) == len(b) and set(a) == set(b)]; records are compared field by
    field, as the frozen dataclass does. *)
Definition same_records (a b : list SingletonRecord) : bool :=
  bool_decide (length a = length b) && bool_decide (a ⊆ b ∧ b ⊆ a).

(** [for condition in conditions] over the result of [as_python()]. *)
Definition py_iter (v : pyval) : exn + list pyval :=
  match v with
  | PList l => inr l
  | PBytes b => inr ((λ c, PInt (Z.of_nat (Ascii.nat_of_ascii c))) <$> String.list_ascii_of_string b)
  | PInt _ => inl TypeError
  end.

(** [x == ConditionOpcode.CREATE_COIN] *)
Definition is_create_coin (v : pyval) : bool :=
  match v with
  | PBytes b => bool_decide (b = CREATE_COIN)
  | _ => false
  end.

(** The loop of [singleton_removed] over the conditions (source lines
    768-786): it stops at the first CREATE_COIN condition with an odd amount. *)
Fixpoint find_successor (conditions : list pyval) : exn + scan_outcome :=
  match conditions with
  | [] => inr Melted
  | condition :: rest =>
      opcode ← py_index condition 0;
      if is_create_coin opcode then
        n ← py_index condition 2 ≫= py_int_from_bytes;
        if bool_decide (n `mod` 2 = 1)%Z then
          full_puzzle_hash ← py_index condition 1 ≫= py_bytes32;
          amt ← uint64 n;
          let hints : exn + (bytes32 * bytes32) :=
            memos ← py_index condition 3;
            root ← py_index memos 1 ≫= py_bytes32;
            inner_puzzle_hash ← py_index memos 2 ≫= py_bytes32;
            mret (root, inner_puzzle_hash) in
          match hints with
          | inr (root, inner_puzzle_hash) =>
              inr (Successor full_puzzle_hash amt root inner_puzzle_hash)
          | inl IndexError => inr BadHint
          | inl e => inl e
          end
        else find_successor rest
      else find_successor rest
  end.

Section Wallet.

Context `{Hashing} (env : Env).

Definition coin_name (c : Coin) : bytes32 :=
  coin_hash (parent_coin_info c) (puzzle_hash c) (amount c).

Fixpoint get_tree_hash (p : Program) : bytes32 :=
  match p with
  | HostFullPuz inner r l => host_fullpuz_hash (get_tree_hash inner) r l
  | _ => leaf_tree_hash p
  end.

(** [Announcement.name()] *)
Definition announcement_name (a : Announcement) : bytes32 :=
  std_hash (origin_info a +:+ message a).

(** [{a.name() for a in announcements}] *)
Definition announcement_names (l : list Announcement) : list bytes32 :=
  announcement_name <$> l.

(** [SpendBundle.removals()], [SpendBundle.fees()], [SpendBundle.aggregate]. *)
Definition bundle_removals (sb : SpendBundle) : list Coin := coin <$> coin_spends sb.

Definition bundle_fees (sb : SpendBundle) : Z :=
  (sum_amounts (bundle_removals sb) - sum_amounts (bundle_additions env sb))%Z.

Definition aggregate (a b : SpendBundle) : SpendBundle :=
  mkSpendBundle (coin_spends a ++ coin_spends b)
    (aggregated_signature a ++ aggregated_signature b).

Definition with_spend_bundle (sb : option SpendBundle) (tx : TransactionRecord)
    : TransactionRecord :=
  mkTransactionRecord (tx_confirmed_at_height tx) (created_at_time tx) (to_puzzle_hash tx)
    (tx_amount tx) (fee_amount tx) (tx_confirmed tx) (sent tx) sb (additions tx)
    (removals tx) (memos tx) (tx_wallet_id tx) (tx_type tx) (name tx).

(** The standard wallet hands out a fresh puzzle per call. *)
Definition fresh_puzzle : M Program := λ s,
  (with_next_derivation s, inr (get_new_puzzle env (derivation_index s))).
Definition fresh_puzzlehash : M bytes32 := λ s,
  (with_next_derivation s, inr (get_new_puzzlehash env (derivation_index s))).

(** [sign] (source lines 979-985).  Modelled from the spec: the signer
    ([sign_coin_spends]) is a collaborator that returns "a signed spend
    bundle" for the spends it is given (section 4.C step 9); it contributes
    the aggregated signature, or raises. *)
Definition sign_spend (coin_spend : CoinSpend) : M SpendBundle :=
  signature ← lift (sign_coin_spends env [coin_spend]);
  mret (mkSpendBundle [coin_spend] signature).

(** *** Launching (source lines 173-185, 242-303, 309-392) *)

Definition get_launcher_coin_state (launcher_id : bytes32) : exn + CoinState :=
  match get_coin_state env [launcher_id] with
  | [] => inl (ValueError (Collaborator (launcher_error_text NotAValidCoin)))
  | cs :: _ =>
      if bool_decide (puzzle_hash (cs_coin cs) ≠ get_tree_hash SINGLETON_LAUNCHER)
      then inl (ValueError (Collaborator (launcher_error_text NotALauncher)))
      else if bool_decide (created_height cs = None)
      then inl (ValueError (Collaborator (launcher_error_text NotCreated)))
      else if bool_decide (spent_height cs = None)
      then inl (ValueError (Collaborator (launcher_error_text NotSpent)))
      else inr cs
  end.

(** The height of the launcher spend: the one passed, or the spent height
    of the launcher coin (source lines 249-251). *)
Definition observed_height (launcher_id : bytes32) (height : option Z) : M Z :=
  match height with
  | Some h => mret h
  | None =>
      cs ← lift (get_launcher_coin_state launcher_id);
      match spent_height cs with
      | Some h => mret h
      | None => raise AssertionError
      end
  end.

Definition new_launcher_spend (launcher_spend : CoinSpend) (height : option Z) : M unit :=
  let launcher_id := coin_name (coin launcher_spend) in
  height ← observed_height launcher_id height;
  '(full_puzhash, amount, root, inner_puzhash) ←
    lift (launch_solution_to_singleton_info env (solution launcher_spend));
  let new_singleton := mkCoin launcher_id full_puzhash amount in
  s ← get_state;
  let register : M unit :=
    modify (with_launchers (insert launcher_id (coin launcher_spend)));;
    modify (with_interest [(launcher_id, wallet_id env)] [coin_name new_singleton]);;
    modify (with_coin_record
              (mkWalletCoinRecord new_singleton height 0 false false (wallet_id env))) in
  match DLStore.get_latest_singleton launcher_id false (singleton_records s) with
  | Some singleton_record =>
      if bool_decide (coin_id singleton_record = coin_name new_singleton)
         && negb (confirmed singleton_record)
      then
        let timestamp := get_timestamp_for_height env height in
        modify (with_singleton_records
                  (DLStore.set_confirmed (coin_id singleton_record) height timestamp));;
        register
      else
        log_info "Spend of launcher has already been processed"
  | None =>
      let timestamp := get_timestamp_for_height env height in
      modify (with_singleton_records (DLStore.add_singleton_record
        {| coin_id := coin_name new_singleton;
           launcher_id := launcher_id;
           root := root;
           inner_puzzle_hash := inner_puzhash;
           confirmed := true;
           confirmed_at_height := height;
           timestamp := timestamp;
           lineage_proof :=
             mkLineageProof (Some launcher_id)
               (Some (host_layer_hash inner_puzhash root)) (Some amount);
           generation := 0 |}));;
      register
  end.

Definition generate_new_reporter (initial_root : bytes32) (fee : Z)
    : M (TransactionRecord * TransactionRecord * bytes32) :=
  wanted ← lift (uint64 (fee + 1));
  match select_coins env wanted with
  | None => raise (ValueError NotEnoughCoins)
  | Some coins =>
      match coins with
      | [] => raise IndexError
      | launcher_parent :: _ =>
          let launcher_coin :=
            mkCoin (coin_name launcher_parent) (get_tree_hash SINGLETON_LAUNCHER) 1 in
          inner_puzzle ← fresh_puzzle;
          let full_puzzle := HostFullPuz inner_puzzle initial_root (coin_name launcher_coin) in
          let genesis_launcher_solution :=
            LauncherSolution (get_tree_hash full_puzzle) 1 initial_root
              (get_tree_hash inner_puzzle) in
          let announcement :=
            mkAnnouncement (coin_name launcher_coin) (get_tree_hash genesis_launcher_solution) in
          create_launcher_tx_record ← lift (std_generate_signed_transaction env
            (mkStdTxRequest 1 (get_tree_hash SINGLETON_LAUNCHER) fee
               (Some (coin_name launcher_parent)) (Some coins) (Some [announcement]) None));
          match create_launcher_tx_record ≫= λ tx, spend_bundle tx ≫= λ sb, Some (tx, sb) with
          | None => raise AssertionError
          | Some (create_launcher_tx_record, launcher_tx_bundle) =>
              let launcher_cs :=
                mkCoinSpend launcher_coin SINGLETON_LAUNCHER genesis_launcher_solution in
              let launcher_sb := mkSpendBundle [launcher_cs] [] in
              let full_spend := aggregate launcher_tx_bundle launcher_sb in
              let std_record := with_spend_bundle None create_launcher_tx_record in
              memos ← lift (compute_memos env full_spend);
              let dl_record :=
                {| tx_confirmed_at_height := 0;
                   created_at_time := time_now env;
                   to_puzzle_hash := placeholder_puzzle_hash;
                   tx_amount := 1;
                   fee_amount := fee;
                   tx_confirmed := false;
                   sent := 10;
                   spend_bundle := Some full_spend;
                   additions := bundle_additions env full_spend;
                   removals := bundle_removals full_spend;
                   memos := memos;
                   tx_wallet_id := 0;
                   tx_type := INCOMING_TX;
                   name := bundle_name env full_spend |} in
              let singleton_record :=
                {| coin_id :=
                     coin_name (mkCoin (coin_name launcher_coin) (get_tree_hash full_puzzle) 1);
                   launcher_id := coin_name launcher_coin;
                   root := initial_root;
                   inner_puzzle_hash := get_tree_hash inner_puzzle;
                   confirmed := false;
                   confirmed_at_height := 0;
                   timestamp := 0;
                   lineage_proof :=
                     mkLineageProof (Some (coin_name launcher_coin))
                       (Some (host_layer_hash (get_tree_hash inner_puzzle) initial_root))
                       (Some 1%Z);
                   generation := 0 |} in
              modify (with_singleton_records (DLStore.add_singleton_record singleton_record));;
              modify (with_interest [(launcher_id singleton_record, wallet_id env)] []);;
              mret (dl_record, std_record, coin_name launcher_coin)
          end
      end
  end.

(** *** Transactions (source lines 394-716) *)

Definition create_tandem_xch_tx (fee : Z) (announcement_to_assert : Announcement)
    (coin_announcement : bool) : M (TransactionRecord * SpendBundle) :=
  ph ← fresh_puzzlehash;
  chia_tx ← lift (std_generate_signed_transaction env
    (mkStdTxRequest 0 ph fee None None
       (if coin_announcement then Some [announcement_to_assert] else None)
       (if coin_announcement then None else Some [announcement_to_assert])));
  match chia_tx with
  | None => raise AttributeError
  | Some chia_tx =>
      match spend_bundle chia_tx with
      | None => raise AssertionError
      | Some sb => mret (chia_tx, sb)
      end
  end.

Definition get_spendable_singleton_info (launcher_id : bytes32)
    : M (SingletonRecord * LineageProof) :=
  s ← get_state;
  (* First, let's make sure this is a singleton that we track and that we can spend *)
  match DLStore.get_latest_singleton launcher_id false (singleton_records s) with
  | None => raise (ValueError NotTracked)
  | Some singleton_record =>
      (* Next, the singleton should be confirmed *)
      if negb (confirmed singleton_record) then raise (ValueError Pending) else
      (* Next, let's verify we have all of the relevant coin information *)
      match parent_name (lineage_proof singleton_record),
            lp_amount (lineage_proof singleton_record) with
      | Some parent, Some _ =>
          (* Finally, let's get the parent record for its lineage proof *)
          match DLStore.get_singleton_record parent (singleton_records s) with
          | None =>
              if bool_decide (parent ≠ launcher_id) then raise (ValueError ParentNotFound)
              else
                match launchers s !! launcher_id with
                | None => raise (ValueError NoLauncherInfo)
                | Some launcher_coin =>
                    amt ← lift (uint64 (amount launcher_coin));
                    mret (singleton_record,
                          mkLineageProof (Some (parent_coin_info launcher_coin)) None (Some amt))
                end
          | Some parent_singleton =>
              mret (singleton_record, lineage_proof parent_singleton)
          end
      | _, _ => raise (ValueError InsufficientLineage)
      end
  end.

(** [puzzle_announcements_to_consume.append(root_announce)] on the object
    the caller passed. A reference always names an object; a location
    missing from the heap is outside the Python semantics and is a
    [TypeError] here. *)
Definition append_announcement (ref : nat) (a : Announcement) : M (list Announcement) := λ s,
  match heap s !! ref with
  | Some (PyList items) =>
      (with_heap (insert ref (PyList (items ++ [a]))) s, inr (items ++ [a]))
  | Some (PySet _) => (s, inl AttributeError)
  | None => (s, inl TypeError)
  end.

(** The items of the object, as the comprehension over it reads them. *)
Definition read_announcements (ref : nat) : M (list Announcement) := λ s,
  match heap s !! ref with
  | Some (PyList items) | Some (PySet items) => (s, inr items)
  | None => (s, inl TypeError)
  end.

Definition create_update_state_spend
    (launcher_id : bytes32)
    (root_hash : option bytes32)
    (new_puz_hash : option bytes32)
    (new_amount : option Z)
    (fee : Z)
    (coin_announcements_to_consume : option (list Announcement))
    (puzzle_announcements_to_consume : option nat)
    (sign add_pending_singleton announce_new_state : bool)
    : M (list TransactionRecord) :=
  '(singleton_record, parent_lineage) ← get_spendable_singleton_info launcher_id;
  let root_hash := default (root singleton_record) root_hash in
  match get_derivation_record_for_puzzle_hash env (inner_puzzle_hash singleton_record) with
  | None => raise (ValueError NotOwned)
  | Some pubkey =>
  (* Make the child's puzzles *)
  new_puz_hash ← match new_puz_hash with
                 | Some h => mret h
                 | None => new_puzzle ← fresh_puzzle; mret (get_tree_hash new_puzzle)
                 end;
  let next_full_puz_hash := host_fullpuz_hash new_puz_hash root_hash launcher_id in
  (* Construct the current puzzles *)
  let current_inner_puzzle := PuzzleForPk pubkey in
  let current_full_puz :=
    HostFullPuz current_inner_puzzle (root singleton_record) launcher_id in
  match parent_name (lineage_proof singleton_record),
        lp_amount (lineage_proof singleton_record) with
  | Some lineage_parent, Some lineage_amount =>
  let current_coin :=
    mkCoin lineage_parent (get_tree_hash current_full_puz) lineage_amount in
  next_generation ← lift (uint32 (generation singleton_record + 1));
  let new_singleton_record :=
    {| coin_id := coin_name (mkCoin (coin_name current_coin) next_full_puz_hash lineage_amount);
       launcher_id := launcher_id;
       root := root_hash;
       inner_puzzle_hash := new_puz_hash;
       confirmed := false;
       confirmed_at_height := 0;
       timestamp := 0;
       lineage_proof :=
         mkLineageProof (Some (coin_id singleton_record)) (Some new_puz_hash)
           (Some lineage_amount);
       generation := next_generation |} in
  let announce_only :=
    Quoted [CreateCoin new_puz_hash lineage_amount [launcher_id; root_hash; new_puz_hash];
            CreatePuzzleAnnouncement dollar] in
  let second_full_puz := HostFullPuz announce_only root_hash launcher_id in
  let second_coin :=
    mkCoin (coin_name current_coin) (get_tree_hash second_full_puz) lineage_amount in
  let second_coin_spend :=
    mkCoinSpend second_coin second_full_puz
      (SingletonSolution
         (mkLineageProof (Some (parent_coin_info current_coin))
            (Some (host_layer_hash (get_tree_hash current_inner_puzzle)
                     (root singleton_record)))
            (Some lineage_amount))
         lineage_amount None) in
  (* Optionally add an ephemeral spend to announce *)
  '(puzzle_announcements, new_singleton_record, second_singleton_record) ←
    (if announce_new_state then
       let root_announce := mkAnnouncement (get_tree_hash second_full_puz) dollar in
       puzzle_announcements ←
         match puzzle_announcements_to_consume with
         | None => mret [root_announce]
         | Some ref => append_announcement ref root_announce
         end;
       second_generation ← lift (uint32 (generation singleton_record + 1));
       let second_singleton_record :=
         {| coin_id := coin_name second_coin;
            launcher_id := launcher_id;
            root := root_hash;
            inner_puzzle_hash := get_tree_hash announce_only;
            confirmed := false;
            confirmed_at_height := 0;
            timestamp := 0;
            lineage_proof :=
              mkLineageProof (Some (parent_coin_info second_coin))
                (Some (get_tree_hash announce_only)) (Some lineage_amount);
            generation := second_generation |} in
       final_generation ← lift (uint32 (generation second_singleton_record + 1));
       mret (Some puzzle_announcements,
             replace_record new_singleton_record
               (coin_name (mkCoin (coin_name second_coin) next_full_puz_hash lineage_amount))
               (mkLineageProof (Some (coin_name second_coin)) (Some next_full_puz_hash)
                  (Some lineage_amount))
               final_generation,
             Some second_singleton_record)
     else
       puzzle_announcements ←
         match puzzle_announcements_to_consume with
         | None => mret None
         | Some ref => items ← read_announcements ref; mret (Some items)
         end;
       mret (puzzle_announcements, new_singleton_record, None));
  (* Create the solution *)
  let primaries :=
    [(if announce_new_state then get_tree_hash announce_only else new_puz_hash,
      default lineage_amount new_amount,
      [launcher_id; root_hash; new_puz_hash])] in
  let inner_sol :=
    make_solution primaries
      (if bool_decide (0 < fee)%Z then Some [dollar] else None)
      (option_map announcement_names coin_announcements_to_consume)
      (option_map announcement_names puzzle_announcements) in
  let inner_sol :=
    if bool_decide (root_hash ≠ root singleton_record)
    then UpdateRoot root_hash :: inner_sol else inner_sol in
  let full_sol := SingletonSolution parent_lineage lineage_amount (Some inner_sol) in
  (* Create the spend *)
  let coin_spend := mkCoinSpend current_coin current_full_puz full_sol in
  lift (hack_populate_secret_key_for_puzzle_hash env (get_tree_hash current_inner_puzzle));;
  spend_bundle ← (if sign then sign_spend coin_spend
                  else mret (mkSpendBundle [coin_spend] []));
  let spend_bundle :=
    if announce_new_state
    then mkSpendBundle [coin_spend; second_coin_spend] (aggregated_signature spend_bundle)
    else spend_bundle in
  tx_amount ← lift (uint64 lineage_amount);
  memos ← lift (compute_memos env spend_bundle);
  let dl_tx :=
    {| tx_confirmed_at_height := 0;
       created_at_time := time_now env;
       to_puzzle_hash := new_puz_hash;
       tx_amount := tx_amount;
       fee_amount := fee;
       tx_confirmed := false;
       sent := 10;
       spend_bundle := Some spend_bundle;
       additions := bundle_additions env spend_bundle;
       removals := bundle_removals spend_bundle;
       memos := memos;
       tx_wallet_id := wallet_id env;
       tx_type := OUTGOING_TX;
       name := coin_id singleton_record |} in
  txs ← (if bool_decide (0 < fee)%Z then
           '(chia_tx, chia_bundle) ←
             create_tandem_xch_tx fee (mkAnnouncement (coin_name current_coin) dollar) true;
           let aggregate_bundle := aggregate spend_bundle chia_bundle in
           mret [with_spend_bundle (Some aggregate_bundle) dl_tx;
                 with_spend_bundle None chia_tx]
         else mret [dl_tx]);
  (if add_pending_singleton then
     modify (with_singleton_records (DLStore.add_singleton_record new_singleton_record));;
     match second_singleton_record with
     | Some second => modify (with_singleton_records (DLStore.add_singleton_record second))
     | None => mret tt
     end
   else mret tt);;
  mret txs
  | _, _ => raise AssertionError
  end
  end.

Definition generate_signed_transaction
    (amounts : list Z) (puzzle_hashes : list bytes32) (fee : Z) (coins : list Coin)
    (coin_announcements_to_consume : option (list Announcement))
    (puzzle_announcements_to_consume : option nat)
    (launcher_id : option bytes32) (new_root_hash : option bytes32)
    (sign add_pending_singleton announce_new_state : bool)
    : M (list TransactionRecord) :=
  s ← get_state;
  (* Figure out the launcher ID *)
  launcher_id ←
    match coins with
    | [] =>
        match launcher_id with
        | None => raise (ValueError UnknownDLCoin)
        | Some l => mret l
        end
    | [c] =>
        match DLStore.get_singleton_record (coin_name c) (singleton_records s) with
        | None => raise (ValueError CoinNotTracked)
        | Some record => mret (launcher_of record)
        end
    | _ :: _ :: _ => raise (ValueError OneCoinAtATime)
    end;
  match amounts, puzzle_hashes with
  | [amt], [ph] =>
      create_update_state_spend launcher_id new_root_hash (Some ph) (Some amt) fee
        coin_announcements_to_consume puzzle_announcements_to_consume
        sign add_pending_singleton announce_new_state
  | _, _ => raise (ValueError OnePlaceAtATime)
  end.

(** *** Syncing (source lines 743-906) *)

(** The body of the [try] block of [potentially_handle_resubmit]. *)
Definition rebase (launcher_id : bytes32) (unconfirmed_singletons : list SingletonRecord)
    (relevant_dl_txs : list TransactionRecord) : M unit :=
  all_txs ←
    fold_m (λ all_txs singleton,
      fold_m (λ all_txs tx,
        if existsb (λ c, bool_decide (coin_name c = coin_id singleton)) (additions tx) then
          fee ← lift (uint64 (match spend_bundle tx with
                              | Some sb => bundle_fees sb
                              | None => 0%Z
                              end));
          new_txs ← create_update_state_spend launcher_id (Some (root singleton)) None None
                      fee None None true true false;
          mret (all_txs ++ new_txs)
        else mret all_txs)
      relevant_dl_txs all_txs)
    unconfirmed_singletons [];
  for_each all_txs (λ tx, modify (with_transactions (TxStore.add_transaction_record tx))).

(** The handler of that block. *)
Definition rebase_failed (unconfirmed_singletons : list SingletonRecord) (e : exn) : M unit :=
  log_warning "Something went wrong during attempted DL resubmit" (Some e);;
  (* Something went wrong so let's delete anything pending that was created *)
  for_each unconfirmed_singletons (λ singleton,
    modify (with_singleton_records (DLStore.delete_singleton_record (coin_id singleton)))).

(** [parent_singleton is None or any(parent_singleton.root != s.root for s in
    full_branch if s.confirmed)] *)
Definition root_changed (parent_singleton : option SingletonRecord)
    (full_branch : list SingletonRecord) : bool :=
  match parent_singleton with
  | None => true
  | Some parent =>
      existsb (λ s, bool_decide (root parent ≠ root s))
        (filter (λ s, confirmed s = true) full_branch)
  end.

(** The transactions a fork invalidates (source lines 855-872). *)
Definition relevant_dl_txs (unconfirmed_singletons : list SingletonRecord)
    (txs : list TransactionRecord) : list TransactionRecord :=
  omap (λ singleton,
          parent ← parent_name (lineage_proof singleton);
          TxStore.get_transaction_record parent txs)
       unconfirmed_singletons.

Definition relevant_std_txs (dl_txs : list TransactionRecord)
    (txs : list TransactionRecord) : list TransactionRecord :=
  let all_spends := omap spend_bundle dl_txs in
  let all_removal_ids := coin_name <$> (all_spends ≫= bundle_removals) in
  filter (λ tx, Exists (λ c, coin_name c ∈ all_removal_ids) (removals tx))
    (TxStore.get_unconfirmed_for_wallet (standard_wallet_id env) txs).

Definition potentially_handle_resubmit (launcher_id : bytes32) : M unit :=
  s ← get_state;
  match sorted_by_generation
          (DLStore.get_unconfirmed_singletons launcher_id (singleton_records s)) with
  | [] => mret tt
  | (first :: _) as unconfirmed_singletons =>
      let full_branch :=
        DLStore.get_all_singletons_for_launcher launcher_id (generation first)
          (singleton_records s) in
      if same_records unconfirmed_singletons full_branch then mret tt else
      (* Now we have detected a fork so we should check whether the root changed at all *)
      log_info "Attempting automatic rebase";;
      match parent_name (lineage_proof first) with
      | None => raise AssertionError
      | Some first_parent =>
          let parent_singleton :=
            DLStore.get_singleton_record first_parent (singleton_records s) in
          let root_changed := root_changed parent_singleton full_branch in
          (* Regardless of whether the root changed or not, our old state is bad *)
          let dl_txs := relevant_dl_txs unconfirmed_singletons (transactions s) in
          let std_txs := relevant_std_txs dl_txs (transactions s) in
          for_each (dl_txs ++ std_txs) (λ tx,
            modify (with_transactions (TxStore.delete_transaction_record (name tx))));;
          for_each unconfirmed_singletons (λ singleton,
            modify (with_singleton_records
                      (DLStore.delete_singleton_record (coin_id singleton))));;
          if negb root_changed then
            (* The root never changed so let's attempt a rebase *)
            try_except (rebase launcher_id unconfirmed_singletons dl_txs)
              (rebase_failed unconfirmed_singletons)
          else mret tt
      end
  end.

Definition singleton_removed (parent_spend : CoinSpend) (height : Z) : M unit :=
  let parent_name := coin_name (coin parent_spend) in
  let puzzle := puzzle_reveal parent_spend in
  if match_dl_singleton env puzzle then
    log_info "DL singleton removed";;
    s ← get_state;
    match DLStore.get_singleton_record parent_name (singleton_records s) with
    | None => log_warning "DL wallet received coin it does not have parent for" None
    | Some singleton_record =>
        conditions ← lift (run_with_cost env puzzle (solution parent_spend) ≫= py_iter);
        found ← lift (find_successor conditions);
        match found with
        | BadHint => log_warning "Parent did not hint its child properly" None
        | Melted => log_warning "Singleton was melted" None
        | Successor full_puzzle_hash amount root inner_puzzle_hash =>
            let new_singleton := mkCoin parent_name full_puzzle_hash amount in
            let timestamp := get_timestamp_for_height env height in
            next_generation ← lift (uint32 (generation singleton_record + 1));
            modify (with_singleton_records (DLStore.add_singleton_record
              {| coin_id := coin_name new_singleton;
                 launcher_id := launcher_of singleton_record;
                 root := root;
                 inner_puzzle_hash := inner_puzzle_hash;
                 confirmed := true;
                 confirmed_at_height := height;
                 timestamp := timestamp;
                 lineage_proof :=
                   mkLineageProof (Some parent_name)
                     (Some (host_layer_hash inner_puzzle_hash root)) (Some amount);
                 generation := next_generation |}));;
            modify (with_coin_record
                      (mkWalletCoinRecord new_singleton height 0 false false (wallet_id env)));;
            modify (with_interest [] [coin_name new_singleton]);;
            potentially_handle_resubmit (launcher_of singleton_record)
        end
    end
  else mret tt.

End Wallet.


(** * The rest of the wallet

    The methods of [data_layer_wallet.py] that recognise a launcher spend,
    adopt a launcher identifier, stop tracking one, and answer what the
    wallet owns and offers. *)

Module LauncherStore.

(** Modelled from the spec: section 5 asks the store for [get_all_launchers]
    and for "mirror functions for launcher rows"; section 3 keeps one row
    per tracked launcher, keyed by the launcher identifier.  [add_launcher]
    is the [insert] used by [new_launcher_spend]. *)
Definition get_launcher (launcher : bytes32) (t : gmap bytes32 Coin) : option Coin :=
  t !! launcher.

(** Modelled from the spec: the mirror of [delete_singleton_record] for a
    launcher row. *)
Definition delete_launcher (launcher : bytes32) (t : gmap bytes32 Coin) : gmap bytes32 Coin :=
  delete launcher t.

(** Modelled from the spec: the identifiers of the launcher rows. *)
Definition get_all_launchers (t : gmap bytes32 Coin) : list bytes32 :=
  (map_to_list t).*1.

(** Modelled from the spec: "explicit stop tracking of a launcher ...
    deletes all its records" (section 3). *)
Definition delete_singleton_records_by_launcher_id (launcher : bytes32)
    (t : list SingletonRecord) : list SingletonRecord :=
  filter (λ r, launcher_id r ≠ launcher) t.

End LauncherStore.

(** ** The action queue *)

(** The launcher coin as the action data carries it: two hexadecimal
    strings and a decimal string (source lines 208-212). *)
Record LauncherCoinData : Type := mkLauncherCoinData {
  parent_id : string;
  puzzle_hash_hex : string;
  amount_str : string;
}.

(** The dictionary under ["data"]["action_data"] (source lines 202-215).
    [dict_to_json_str] and [json.loads] write and read it back; the
    dictionary itself is kept. *)
Record ActionData : Type := mkActionData {
  api_name : string;
  act_height : option Z;
  act_coin_name : bytes32;
  launcher_coin_data : LauncherCoinData;
}.

(** The arguments of [wallet_state_manager.create_action] (source lines
    218-226). *)
Record WalletAction : Type := mkWalletAction {
  act_name : string;
  act_wallet_id : Z;
  act_wallet_type : Z;
  act_callback : string;
  act_done : bool;
  act_data : ActionData;
}.

Record PuzzleSolutionResponse : Type := mkPuzzleSolutionResponse {
  psr_coin_name : bytes32;
  psr_height : Z;
  psr_puzzle : Program;
  psr_solution : Program;
}.

(** The text codecs of the action data: [b.hex()], [bytes32.from_hexstr(s)],
    [str(n)] and [int(s)].  They belong to Python and to [chia.util] and are
    taken as given. *)
Record Codec : Type := mkCodec {
  bytes_hex : bytes → string;
  bytes32_from_hexstr : string → exn + bytes32;
  int_str : Z → string;
  str_int : string → exn + Z;
}.

(** The messages of the [ValueError]s raised by the methods below. *)
Definition unknown_launcher : exn :=
  ValueError (Collaborator "DL wallet does not know about launcher ID").

Section Launching.

Context `{Hashing} (env : Env) (codec : Codec).

(** [match_dl_launcher] (source lines 149-171).  A program is compared with
    [SINGLETON_LAUNCHER] as a value.  Only a [ValueError] of the decoder is
    caught. *)
Definition match_dl_launcher (launcher_spend : CoinSpend) : exn + (bool * option bytes32) :=
  (* Sanity check it's a launcher *)
  match puzzle_reveal launcher_spend with
  | SINGLETON_LAUNCHER =>
      (* Let's make sure the solution looks how we expect it to *)
      match launch_solution_to_singleton_info env (solution launcher_spend) with
      | inl (ValueError _) => inr (false, None)
      | inl e => inl e
      | inr (full_puzhash, amount, root, inner_puzhash) =>
          (* Now let's check that the full puzzle is an odd data layer singleton *)
          if bool_decide (full_puzhash
                          ≠ host_fullpuz_hash inner_puzhash root
                              (coin_name (coin launcher_spend)))
             || bool_decide (amount `mod` 2 = 0)%Z
          then inr (false, None)
          else inr (true, Some inner_puzhash)
      end
  | _ => inr (false, None)
  end.

(** The [else] branch of [track_new_launcher_id] (source lines 200-226):
    the action that asks for the puzzle and solution of the launcher. *)
Definition request_puzzle_solution (launcher_id : bytes32) : M (option WalletAction) :=
  launcher_state ← lift (get_launcher_coin_state env launcher_id);
  let data :=
    {| api_name := "request_puzzle_solution";
       act_height := spent_height launcher_state;
       act_coin_name := launcher_id;
       launcher_coin_data :=
         {| parent_id := bytes_hex codec (parent_coin_info (cs_coin launcher_state));
            puzzle_hash_hex := bytes_hex codec (puzzle_hash (cs_coin launcher_state));
            amount_str := int_str codec (amount (cs_coin launcher_state)) |} |} in
  mret (Some {| act_name := "request_puzzle_solution";
                act_wallet_id := wallet_id env;
                act_wallet_type := wallet_type env;
                act_callback := "new_launcher_spend_response";
                act_done := false;
                act_data := data |}).

(** [track_new_launcher_id] (source lines 187-226), the entry point for
    non-owned singletons.  The action queue belongs to the wallet state
    manager and no method of the wallet reads it back from there: the
    action the method files is its result here, [None] when it files none. *)
Definition track_new_launcher_id (launcher_id : bytes32) (spend : option CoinSpend)
    (height : option Z) : M (option WalletAction) :=
  s ← get_state;
  if bool_decide (LauncherStore.get_launcher launcher_id (launchers s) ≠ None) then
    log_info "Spend of launcher has already been processed";;
    mret None
  else
    match spend with
    | Some launcher_spend =>
        (* spend.coin.name() == launcher_id is a sanity check *)
        if bool_decide (coin_name (coin launcher_spend) = launcher_id) then
          new_launcher_spend env launcher_spend height;;
          mret None
        else request_puzzle_solution launcher_id
    | None => request_puzzle_solution launcher_id
    end.

(** [new_launcher_spend_response] (source lines 228-240).  [action] is what
    [action_store.get_wallet_action(action_id)] returned. *)
Definition new_launcher_spend_response (action : option WalletAction)
    (response : PuzzleSolutionResponse) : M unit :=
  match action with
  | None => raise AssertionError
  | Some action =>
      let coin_dict := launcher_coin_data (act_data action) in
      parent ← lift (bytes32_from_hexstr codec (parent_id coin_dict));
      ph ← lift (bytes32_from_hexstr codec (puzzle_hash_hex coin_dict));
      amt ← lift (str_int codec (amount_str coin_dict) ≫= uint64);
      let launcher_coin := mkCoin parent ph amt in
      new_launcher_spend env
        (mkCoinSpend launcher_coin (psr_puzzle response) (psr_solution response))
        (Some (psr_height response))
  end.

(** ** Queries (source lines 718-737, 908-910, 1008-1017) *)

Definition get_owned_singletons : M (list SingletonRecord) :=
  s ← get_state;
  let launcher_ids := LauncherStore.get_all_launchers (launchers s) in
  fold_m (λ collected launcher_id,
      s ← get_state;
      match DLStore.get_latest_singleton launcher_id false (singleton_records s) with
      | None =>
          (* this is likely due to a race between getting the list and acquiring
             the extra data *)
          mret collected
      | Some singleton_record =>
          match get_derivation_record_for_puzzle_hash env
                  (inner_puzzle_hash singleton_record) with
          | Some _ => mret (collected ++ [singleton_record])
          | None => mret collected
          end
      end)
    launcher_ids [].

Definition stop_tracking_singleton (launcher_id : bytes32) : M unit :=
  modify (with_singleton_records
            (LauncherStore.delete_singleton_records_by_launcher_id launcher_id));;
  modify (with_launchers (LauncherStore.delete_launcher launcher_id)).

(** [get_coins_to_offer]: the set it returns holds one coin.  The [amount]
    argument is not read. *)
Definition get_coins_to_offer (launcher_id : bytes32) (amount : Z) : M (list Coin) :=
  s ← get_state;
  match DLStore.get_latest_singleton launcher_id false (singleton_records s) with
  | None => raise unknown_launcher
  | Some record =>
      let puzhash := host_fullpuz_hash (inner_puzzle_hash record) (root record) launcher_id in
      match parent_name (lineage_proof record) with
      | None => raise AssertionError
      | Some lineage_parent =>
          match lp_amount (lineage_proof record) with
          | None => raise AssertionError
          | Some lineage_amount => mret [mkCoin lineage_parent puzhash lineage_amount]
          end
      end
  end.

End Launching.
(** * Vocabulary of the properties

    These definitions describe results; they are not part of the model. *)

(** The state a method leaves behind, and its result. *)
Definition state_after {A} (m : M A) (s : WalletState) : WalletState := (m s).1.
Definition result_of {A} (m : M A) (s : WalletState) : exn + A := (m s).2.

(** The call returned, and what it returned. *)
Definition succeeds {A} (r : exn + A) : Prop :=
  match r with
  | inr _ => True
  | inl _ => False
  end.

Definition returned {A} (default : A) (r : exn + A) : A :=
  match r with
  | inr x => x
  | inl _ => default
  end.

(** [m] keeps [P] true, however it ends. *)
Definition preserves {A} (P : WalletState → Prop) (m : M A) : Prop :=
  ∀ s, P s → P (state_after m s).

(** A property of the singleton table, as a property of the state. *)
Definition on_records (Q : list SingletonRecord → Prop) (s : WalletState) : Prop :=
  Q (singleton_records s).

(** ** What a successful authoring call produces *)

(** A pending record: unconfirmed, height and timestamp zero. *)
Definition pending_record (cid launcher new_root iph parent parent_iph : bytes32)
    (amt gen : Z) : SingletonRecord :=
  {| coin_id := cid; launcher_id := launcher; root := new_root; inner_puzzle_hash := iph;
     confirmed := false; confirmed_at_height := 0; timestamp := 0;
     lineage_proof := mkLineageProof (Some parent) (Some parent_iph) (Some amt);
     generation := gen |}.

Section Authoring.

Context `{Hashing} (env : Env).

(** The coin being spent: the latest record's coin, rebuilt from the key
    that owns it. *)
Definition current_coin (launcher : bytes32) (latest : SingletonRecord) (pubkey : bytes)
    (parent : bytes32) (amt : Z) : Coin :=
  mkCoin parent
    (host_fullpuz_hash (leaf_tree_hash (PuzzleForPk pubkey)) (root latest) launcher) amt.

(** The inner puzzle of the ephemeral coin and the ephemeral coin. *)
Definition announce_only (launcher new_root new_ph : bytes32) (amt : Z) : Program :=
  Quoted [CreateCoin new_ph amt [launcher; new_root; new_ph]; CreatePuzzleAnnouncement dollar].

Definition ephemeral_coin (launcher new_root new_ph : bytes32) (amt : Z) (cur : Coin) : Coin :=
  mkCoin (coin_name cur)
    (host_fullpuz_hash (leaf_tree_hash (announce_only launcher new_root new_ph amt))
       new_root launcher) amt.

(** The three pending records authoring can build. *)
Definition successor_record (launcher new_root new_ph : bytes32) (amt : Z)
    (latest : SingletonRecord) (cur : Coin) : SingletonRecord :=
  pending_record
    (coin_hash (coin_name cur) (host_fullpuz_hash new_ph new_root launcher) amt)
    launcher new_root new_ph (coin_id latest) new_ph amt (generation latest + 1).

Definition ephemeral_record (launcher new_root new_ph : bytes32) (amt : Z)
    (latest : SingletonRecord) (cur : Coin) : SingletonRecord :=
  let inner := leaf_tree_hash (announce_only launcher new_root new_ph amt) in
  pending_record (coin_name (ephemeral_coin launcher new_root new_ph amt cur))
    launcher new_root inner (coin_name cur) inner amt (generation latest + 1).

Definition final_record (launcher new_root new_ph : bytes32) (amt : Z)
    (latest : SingletonRecord) (cur : Coin) : SingletonRecord :=
  let second := coin_name (ephemeral_coin launcher new_root new_ph amt cur) in
  pending_record (coin_hash second (host_fullpuz_hash new_ph new_root launcher) amt)
    launcher new_root new_ph second (host_fullpuz_hash new_ph new_root launcher) amt
    (generation latest + 2).

(** The conditions of the inner solution of the spent coin. *)
Definition authored_conditions (launcher new_root new_ph : bytes32) (amt : Z)
    (latest : SingletonRecord) (new_amount : option Z) (fee : Z) (announce : bool)
    (coin_announcements asserted : option (list Announcement)) : list Condition :=
  (if bool_decide (new_root ≠ root latest) then [UpdateRoot new_root] else [])
  ++ make_solution
       [(if announce then leaf_tree_hash (announce_only launcher new_root new_ph amt)
         else new_ph,
         default amt new_amount, [launcher; new_root; new_ph])]
       (if bool_decide (0 < fee)%Z then Some [dollar] else None)
       (option_map (announcement_names) coin_announcements)
       (option_map (announcement_names) asserted).

End Authoring.

Section AuthoringResult.

Context `{Hashing} (env : Env).

(** The transaction record of the singleton spend before the fee bundle is
    aggregated into it. *)
Definition authored_tx (latest : SingletonRecord) (new_ph : bytes32) (amt fee : Z)
    (bundle : SpendBundle) (memos : list (bytes32 * list bytes)) : TransactionRecord :=
  {| tx_confirmed_at_height := 0; created_at_time := time_now env;
     to_puzzle_hash := new_ph; tx_amount := amt; fee_amount := fee;
     tx_confirmed := false; sent := 10; spend_bundle := Some bundle;
     additions := bundle_additions env bundle; removals := bundle_removals bundle;
     memos := memos;
     tx_wallet_id := wallet_id env; tx_type := OUTGOING_TX; name := coin_id latest |}.

(** What the call does to the announcements: [asserted] is what the inner
    solution asserts, [h] and [h'] are the heap before and after. *)
Definition announcements_after (pa : option nat) (announce : bool)
    (root_announce : Announcement) (h h' : gmap nat pyobj)
    (asserted : option (list Announcement)) : Prop :=
  match pa with
  | None => h' = h ∧ asserted = (if announce then Some [root_announce] else None)
  | Some ref =>
      if announce then
        ∃ old, h !! ref = Some (PyList old)
               ∧ h' = <[ref := PyList (old ++ [root_announce])]> h
               ∧ asserted = Some (old ++ [root_announce])
      else
        h' = h ∧ ∃ old, (h !! ref = Some (PyList old) ∨ h !! ref = Some (PySet old))
                        ∧ asserted = Some old
  end.

Definition second_coin_spend (launcher new_root new_ph : bytes32) (amt : Z)
    (latest : SingletonRecord) (pubkey : bytes) (parent : bytes32) : CoinSpend :=
  mkCoinSpend
    (ephemeral_coin launcher new_root new_ph amt (current_coin launcher latest pubkey parent amt))
    (HostFullPuz (announce_only launcher new_root new_ph amt) new_root launcher)
    (SingletonSolution
       (mkLineageProof (Some parent)
          (Some (host_layer_hash (leaf_tree_hash (PuzzleForPk pubkey)) (root latest)))
          (Some amt))
       amt None).

(** The first coin spend of the first transaction carries a create-coin
    condition of amount [a]. *)
Definition creates_coin_of_amount (txs : list TransactionRecord) (a : Z) : Prop :=
  ∃ dl_tx sb outer lineage amt conditions ph memos,
    head txs = Some dl_tx
    ∧ spend_bundle dl_tx = Some sb
    ∧ head (coin_spends sb) = Some outer
    ∧ solution outer = SingletonSolution lineage amt (Some conditions)
    ∧ CreateCoin ph a memos ∈ conditions.

(** The stores authoring never writes. *)
Definition frame (s s' : WalletState) : Prop :=
  transactions s' = transactions s ∧ launchers s' = launchers s ∧ log s' = log s.

End AuthoringResult.


(** ** The derivation invariant *)

Section Derivation.

Context `{Hashing} (env : Env).

(** The coin id of a record is the name of the coin made of the parent
    name of its lineage proof, the full puzzle hash of its inner puzzle
    hash, root and launcher id, and the amount of its lineage proof. *)
Definition derivation_invariant (r : SingletonRecord) : Prop :=
  match parent_name (lineage_proof r), lp_amount (lineage_proof r) with
  | Some parent, Some amt =>
      coin_id r
      = coin_hash parent
          (host_fullpuz_hash (inner_puzzle_hash r) (root r) (launcher_id r)) amt
  | _, _ => False
  end.

#[global] Instance derivation_invariant_dec r : Decision (derivation_invariant r).
Proof. unfold derivation_invariant. repeat case_match; apply _. Defined.

(** The derivation index answers a puzzle hash with the key of that puzzle. *)
Definition keys_consistent : Prop :=
  ∀ ph pk, get_derivation_record_for_puzzle_hash env ph = Some pk →
           leaf_tree_hash (PuzzleForPk pk) = ph.

(** The full puzzle hash a launcher solution carries is the one of the root
    and inner puzzle hash it carries (what [match_dl_launcher] checks). *)
Definition launcher_spend_consistent (launcher_spend : CoinSpend) : Prop :=
  ∀ f a r i,
    launch_solution_to_singleton_info env (solution launcher_spend) = inr (f, a, r, i) →
    f = host_fullpuz_hash i r (coin_name (coin launcher_spend)).

(** The puzzle hash of the successor a parent spend creates is the one of
    the root and inner puzzle hash it hints. *)
Definition hints_consistent (parent_spend : CoinSpend) (t : list SingletonRecord) : Prop :=
  ∀ parent_record conditions f a r i,
    DLStore.get_singleton_record (coin_name (coin parent_spend)) t = Some parent_record →
    run_with_cost env (puzzle_reveal parent_spend) (solution parent_spend) ≫= py_iter
      = inr conditions →
    find_successor conditions = inr (Successor f a r i) →
    f = host_fullpuz_hash i r (launcher_id parent_record).

End Derivation.

(** ** The fork detector *)

(** Every unconfirmed record of the launcher is of a later generation than
    every confirmed one. *)
Definition pending_on_top (launcher : bytes32) (t : list SingletonRecord) : Prop :=
  ∀ u c, u ∈ t → c ∈ t → launcher_id u = launcher → launcher_id c = launcher →
         confirmed u = false → confirmed c = true → (generation c < generation u)%Z.

(** The transactions a call returned, queued in the transaction store as
    [add_pending_transaction] queues them. *)
Definition queue (txs : list TransactionRecord) (s : WalletState) : WalletState :=
  foldl (λ s tx, with_transactions (TxStore.add_transaction_record tx) s) s txs.

(** The pending records of a launcher, as the detector orders them, and the
    branch from a generation onward. *)
Definition pending_of (launcher : bytes32) (s : WalletState) : list SingletonRecord :=
  sorted_by_generation (DLStore.get_unconfirmed_singletons launcher (singleton_records s)).

Definition branch_of (launcher : bytes32) (first : SingletonRecord) (s : WalletState)
    : list SingletonRecord :=
  DLStore.get_all_singletons_for_launcher launcher (generation first) (singleton_records s).

Section Detector.

Context `{Hashing} (env : Env).

(** The transactions a fork invalidates, and the state the detector reaches
    once it has logged the fork and deleted them and the pending records. *)
Definition invalidated_dl_txs (launcher : bytes32) (s : WalletState) : list TransactionRecord :=
  relevant_dl_txs (pending_of launcher s) (transactions s).

Definition invalidated_txs (launcher : bytes32) (s : WalletState) : list TransactionRecord :=
  invalidated_dl_txs launcher s
  ++ relevant_std_txs env (invalidated_dl_txs launcher s) (transactions s).

Definition cleared_state (launcher : bytes32) (s : WalletState) : WalletState :=
  with_singleton_records
    (filter (λ r, coin_id r ∉ coin_id <$> pending_of launcher s))
    (with_transactions
       (filter (λ tx, name tx ∉ name <$> invalidated_txs launcher s))
       (with_log (LogInfo "Attempting automatic rebase") s)).

(** The rebase attempt: the [try] block with its handler. *)
Definition rebase_attempt (launcher : bytes32) (s : WalletState) : M unit :=
  try_except (rebase env launcher (pending_of launcher s) (invalidated_dl_txs launcher s))
    (rebase_failed (pending_of launcher s)).


(** *** The steps of the detector in the words of the specification

    The definitions from here to the end of the section follow section 4.E
    of the specification, not the code; the detector is compared with
    them. *)








End Detector.

(** ** Sync *)

Section Sync.

Context `{Hashing} (env : Env).

(** The condition [(CREATE_COIN ph amount . more)] as [as_python] shows it. *)
Definition create_coin_condition (ph amount_bytes : bytes) (more : list pyval) : pyval :=
  PList (PBytes CREATE_COIN :: PBytes ph :: PBytes amount_bytes :: more).

(** A condition that is not a CREATE_COIN with an odd amount: another
    opcode, or a CREATE_COIN whose amount is even. *)
Definition not_a_successor (c : pyval) : Prop :=
  (∃ op args, c = PList (PBytes op :: args) ∧ op ≠ CREATE_COIN)
  ∨ (∃ ph amount_bytes more,
       c = PList (PBytes CREATE_COIN :: ph :: PBytes amount_bytes :: more)
       ∧ (int_from_bytes amount_bytes `mod` 2 ≠ 1)%Z).

(** The record sync builds for a successor, and the state in which the fork
    detector is then run. *)
Definition confirmed_successor (parent_record : SingletonRecord) (parent : bytes32)
    (full_puzzle_hash : bytes32) (amt : Z) (new_root new_ph : bytes32) (height : Z)
    : SingletonRecord :=
  {| coin_id := coin_hash parent full_puzzle_hash amt;
     launcher_id := launcher_id parent_record;
     root := new_root;
     inner_puzzle_hash := new_ph;
     confirmed := true;
     confirmed_at_height := height;
     timestamp := get_timestamp_for_height env height;
     lineage_proof :=
       mkLineageProof (Some parent) (Some (host_layer_hash new_ph new_root)) (Some amt);
     generation := generation parent_record + 1 |}.

Definition with_successor (successor : SingletonRecord) (new_singleton : Coin) (height : Z)
    (s : WalletState) : WalletState :=
  with_interest [] [coin_name new_singleton]
    (with_coin_record
       (mkWalletCoinRecord new_singleton height 0 false false (wallet_id env))
       (with_singleton_records (DLStore.add_singleton_record successor)
          (with_log (LogInfo "DL singleton removed") s))).

(** The genesis record a launcher spend gives rise to. *)
Definition genesis_record (launcher full_puzzle_hash : bytes32) (amt : Z)
    (new_root new_ph : bytes32) (height : Z) : SingletonRecord :=
  {| coin_id := coin_hash launcher full_puzzle_hash amt;
     launcher_id := launcher;
     root := new_root;
     inner_puzzle_hash := new_ph;
     confirmed := true;
     confirmed_at_height := height;
     timestamp := get_timestamp_for_height env height;
     lineage_proof :=
       mkLineageProof (Some launcher) (Some (host_layer_hash new_ph new_root)) (Some amt);
     generation := 0 |}.

End Sync.

(** ** Launching and adopting *)

Section LaunchingResult.

Context `{Hashing} (env : Env).

(** What [new_launcher_spend] registers besides the record: the launcher
    row, the interest in the launcher and in the new coin, the coin record. *)
Definition registered (launcher_coin new_singleton : Coin) (height : Z) (s : WalletState)
    : WalletState :=
  with_coin_record (mkWalletCoinRecord new_singleton height 0 false false (wallet_id env))
    (with_interest [(coin_name launcher_coin, wallet_id env)] [coin_name new_singleton]
       (with_launchers (insert (coin_name launcher_coin) launcher_coin) s)).

(** The decoder reads a launcher solution back as it was written. *)
Definition decoder_inverts_encoder : Prop :=
  ∀ f a r i, launch_solution_to_singleton_info env (LauncherSolution f a r i) = inr (f, a, r, i).

(** What [generate_new_reporter] builds from the coin it spends and the
    inner puzzle the standard wallet hands out: the launcher coin, the
    launcher spend and the pending genesis record. *)
Definition launcher_coin_of (launcher_parent : Coin) : Coin :=
  mkCoin (coin_name launcher_parent) (leaf_tree_hash SINGLETON_LAUNCHER) 1.

Definition launch_spend (launcher_parent : Coin) (initial_root : bytes32)
    (inner_puzzle : Program) : CoinSpend :=
  let launcher := coin_name (launcher_coin_of launcher_parent) in
  mkCoinSpend (launcher_coin_of launcher_parent) SINGLETON_LAUNCHER
    (LauncherSolution (host_fullpuz_hash (get_tree_hash inner_puzzle) initial_root launcher) 1
       initial_root (get_tree_hash inner_puzzle)).

Definition reporter_record (launcher_parent : Coin) (initial_root : bytes32)
    (inner_puzzle : Program) : SingletonRecord :=
  let launcher := coin_name (launcher_coin_of launcher_parent) in
  let inner := get_tree_hash inner_puzzle in
  pending_record (coin_hash launcher (host_fullpuz_hash inner initial_root launcher) 1)
    launcher initial_root inner launcher (host_layer_hash inner initial_root) 1 0.

(** The request [generate_new_reporter] sends to the standard wallet. *)
Definition launch_request (coins : list Coin) (launcher_parent : Coin)
    (initial_root : bytes32) (inner_puzzle : Program) (fee : Z) : StdTxRequest :=
  let spend := launch_spend launcher_parent initial_root inner_puzzle in
  mkStdTxRequest 1 (leaf_tree_hash SINGLETON_LAUNCHER) fee
    (Some (coin_name launcher_parent)) (Some coins)
    (Some [mkAnnouncement (coin_name (coin spend)) (leaf_tree_hash (solution spend))]) None.

End LaunchingResult.

(** Decoding gives back what was encoded: [bytes32.from_hexstr(b.hex())] is
    [bytes32(b)] and [int(str(n))] is [n]. *)
Definition codec_round_trips (codec : Codec) : Prop :=
  (∀ b, bytes32_from_hexstr codec (bytes_hex codec b) = to_bytes32 b)
  ∧ (∀ n, str_int codec (int_str codec n) = inr n).

(** ** Collaborators that do not fail *)

Section Collaborators.

Context (env : Env).

Definition signer_signs : Prop :=
  ∀ spends, ∃ signature, sign_coin_spends env spends = inr signature.

Definition standard_wallet_funds : Prop :=
  ∀ request, ∃ tx bundle,
    std_generate_signed_transaction env request = inr (Some tx)
    ∧ spend_bundle tx = Some bundle.

(** The memos of every bundle can be computed. *)
Definition memos_are_computed : Prop :=
  ∀ bundle, ∃ memos, compute_memos env bundle = inr memos.

End Collaborators.

Section KeyStore.

Context `{Hashing} (env : Env).

(** The standard wallet finds the secret key of the puzzle of a public
    key. *)
Definition key_is_populated (pubkey : bytes) : Prop :=
  ∃ key, hack_populate_secret_key_for_puzzle_hash env (get_tree_hash (PuzzleForPk pubkey))
         = inr key.

End KeyStore.

(** The object a caller passes for the puzzle announcements is on the heap,
    and is a list when the call appends to it. *)
Definition announcements_object_ready (pa : option nat) (announce : bool)
    (h : gmap nat pyobj) : Prop :=
  ∀ ref, pa = Some ref →
    if announce then ∃ items, h !! ref = Some (PyList items) else is_Some (h !! ref).

(** ** Sync *)

Section Scan.

Context `{Hashing} (env : Env).

(** What sync finds in a parent spend: the evaluator run on it, the result
    iterated as a list of conditions, and the scan of these. *)
Definition scan (parent_spend : CoinSpend) : exn + scan_outcome :=
  conditions ← (run_with_cost env (puzzle_reveal parent_spend) (solution parent_spend)
                ≫= py_iter);
  find_successor conditions.

End Scan.

(** Everything but the log is as it was. *)
Definition same_stores (s s' : WalletState) : Prop :=
  singleton_records s' = singleton_records s
  ∧ launchers s' = launchers s
  ∧ transactions s' = transactions s
  ∧ interested_puzzle_hashes s' = interested_puzzle_hashes s
  ∧ interested_coin_ids s' = interested_coin_ids s
  ∧ coin_records s' = coin_records s
  ∧ heap s' = heap s
  ∧ derivation_index s' = derivation_index s.

(** ** Queries *)

Section Queries.

Context `{Hashing} (env : Env).

(** The latest record of a launcher, when the wallet holds the key of its
    inner puzzle. *)
Definition owned_latest (t : list SingletonRecord) (launcher : bytes32)
    : option SingletonRecord :=
  r ← DLStore.get_latest_singleton launcher false t;
  _ ← get_derivation_record_for_puzzle_hash env (inner_puzzle_hash r);
  Some r.

(** The launcher [generate_signed_transaction] settles on: the one named
    when no coin is given, the one of the record stored for the coin when
    one coin is given. *)
Definition selected_launcher (coins : list Coin) (launcher_arg : option bytes32)
    (t : list SingletonRecord) (launcher : bytes32) : Prop :=
  (coins = [] ∧ launcher_arg = Some launcher)
  ∨ ∃ c record, coins = [c]
                ∧ DLStore.get_singleton_record (coin_name c) t = Some record
                ∧ launcher_id record = launcher.

End Queries.
(** * A concrete instance

    A small hash, a small evaluator for the puzzles the wallet authors and
    a wallet with four keys, used to run the methods on concrete inputs. *)

Module Example.

Definition hex_digit (n : Z) : Ascii.ascii :=
  nth (Z.to_nat n) (String.list_ascii_of_string "0123456789abcdef") Ascii.zero.

Fixpoint render (width : nat) (n : Z) : list Ascii.ascii :=
  match width with
  | O => []
  | S w => render w (Z.shiftr n 4) ++ [hex_digit (Z.land n 15)]
  end.

Definition show_Z (n : Z) : string := String.string_of_list_ascii (render 16 n).

(** A multiplicative hash of the parts, 128 bits written as 32 characters. *)
Definition mask : Z := Eval vm_compute in (2 ^ 128 - 1)%Z.

Definition digest (parts : list string) : bytes32 :=
  let text := foldr (λ p acc, p +:+ "|" +:+ acc) EmptyString parts in
  String.string_of_list_ascii
    (render 32
       (fold_left
          (λ acc c, Z.land (33 * acc + Z.of_N (Ascii.N_of_ascii c) + 1) mask)%Z
          (String.list_ascii_of_string text) 5381%Z)).

Definition show_option (o : option string) : string := default "none" o.

Definition show_condition (c : Condition) : string :=
  match c with
  | CreateCoin ph amt memos => digest ("51" :: ph :: show_Z amt :: memos)
  | CreateCoinAnnouncement msg => digest ["60"; msg]
  | AssertCoinAnnouncement n => digest ["61"; n]
  | CreatePuzzleAnnouncement msg => digest ["62"; msg]
  | AssertPuzzleAnnouncement n => digest ["63"; n]
  | UpdateRoot r => digest ["-24"; r]
  end.

Definition show_lineage (l : LineageProof) : string :=
  digest [show_option (parent_name l); show_option (lp_inner_puzzle_hash l);
          show_option (show_Z <$> lp_amount l)].

Fixpoint show_program (p : Program) : string :=
  match p with
  | Serialized blob => digest ["serialized"; blob]
  | SINGLETON_LAUNCHER => digest ["launcher"]
  | PuzzleForPk pk => digest ["p2"; pk]
  | Quoted cs => digest ("q" :: (show_condition <$> cs))
  | HostFullPuz inner r l => digest ["host"; show_program inner; r; l]
  | LauncherSolution f a r i => digest ["launch"; f; show_Z a; r; i]
  | SingletonSolution l a None => digest ["solution"; show_lineage l; show_Z a]
  | SingletonSolution l a (Some cs) =>
      digest ("solution" :: show_lineage l :: show_Z a :: (show_condition <$> cs))
  end.

#[export] Instance hashing : Hashing := {|
  coin_hash p ph a := digest ["coin"; p; ph; show_Z a];
  std_hash b := digest ["sha256"; b];
  host_fullpuz_hash i r l := digest ["full"; i; r; l];
  host_layer_hash i r := digest ["layer"; i; r];
  leaf_tree_hash p := digest ["tree"; show_program p];
|}.

(** The big-endian bytes of an amount, as a condition carries them. *)
Fixpoint int_to_bytes (width : nat) (n : Z) : string :=
  match width with
  | O => EmptyString
  | S w =>
      if bool_decide (n = 0)%Z then EmptyString
      else int_to_bytes w (n / 256)%Z
             +:+ String (Ascii.ascii_of_nat (Z.to_nat (n `mod` 256)%Z)) EmptyString
  end.

(** The coins a spend of a host puzzle creates: the host layers wrap the
    puzzle hash of an odd output with the root in force after the spend and
    pass the memos through untouched. *)
Definition spend_conditions (puzzle solution : Program) : option (bytes32 * bytes32 * list Condition) :=
  match puzzle, solution with
  | HostFullPuz (Quoted cs) r l, SingletonSolution _ _ _ => Some (r, l, cs)
  | HostFullPuz _ r l, SingletonSolution _ _ (Some cs) => Some (r, l, cs)
  | _, _ => None
  end.

Definition root_after (r : bytes32) (cs : list Condition) : bytes32 :=
  foldr (λ c acc, match c with UpdateRoot r' => r' | _ => acc end) r cs.

Definition outputs (puzzle solution : Program) : list (bytes32 * Z * list bytes) :=
  match spend_conditions puzzle solution with
  | Some (r, l, cs) =>
      omap (λ c, match c with
                 | CreateCoin ph amt memos =>
                     Some (if bool_decide (amt `mod` 2 = 1)%Z
                           then host_fullpuz_hash ph (root_after r cs) l else ph,
                           amt, memos)
                 | _ => None
                 end) cs
  | None => []
  end.

Definition evaluate (puzzle solution : Program) : exn + pyval :=
  match spend_conditions puzzle solution with
  | Some _ =>
      inr (PList ((λ '(ph, amt, memos),
                     PList [PBytes CREATE_COIN; PBytes ph; PBytes (int_to_bytes 8 amt);
                            PList (PBytes <$> memos)])
                  <$> outputs puzzle solution))
  | None => inl (ValueError (Collaborator "clvm raise"))
  end.

Definition keys : list bytes := ["key-0"; "key-1"; "key-2"; "key-3"].

Definition funding_coin : Coin :=
  mkCoin (digest ["reward"]) (leaf_tree_hash (PuzzleForPk "key-3")) 1000.

Definition funding_tx (req : StdTxRequest) : TransactionRecord :=
  let sb := mkSpendBundle
              [mkCoinSpend funding_coin (PuzzleForPk "key-3") (Serialized "funding")] ["std"] in
  {| tx_confirmed_at_height := 0; created_at_time := 1700000000;
     to_puzzle_hash := req_puzzle_hash req; tx_amount := req_amount req;
     fee_amount := req_fee req; tx_confirmed := false; sent := 0;
     spend_bundle := Some sb;
     additions := [mkCoin (coin_name funding_coin) (req_puzzle_hash req)
                     (1000 - req_fee req - req_amount req)];
     removals := [funding_coin]; memos := []; tx_wallet_id := 1; tx_type := OUTGOING_TX;
     name := digest ["tx"; show_Z (req_fee req)] |}.

Definition env : Env := {|
  wallet_id := 2;
  wallet_type := 11;
  standard_wallet_id := 1;
  time_now := 1700000000;
  get_timestamp_for_height h := (1600000000 + 19 * h)%Z;
  get_coin_state ids := [];
  launch_solution_to_singleton_info p :=
    match p with
    | LauncherSolution f a r i => inr (f, a, r, i)
    | _ => inl (ValueError (Collaborator "Launcher is not a data layer launcher"))
    end;
  match_dl_singleton p := match p with HostFullPuz _ _ _ => true | _ => false end;
  run_with_cost := evaluate;
  get_derivation_record_for_puzzle_hash ph :=
    head (filter (λ k, leaf_tree_hash (PuzzleForPk k) = ph) keys);
  get_new_puzzle n := PuzzleForPk (nth n keys "key-x");
  get_new_puzzlehash n := leaf_tree_hash (PuzzleForPk (nth n keys "key-x"));
  select_coins a := Some [funding_coin];
  std_generate_signed_transaction req := inr (Some (funding_tx req));
  sign_coin_spends cs := inr ["dl"];
  bundle_additions sb :=
    cs ← coin_spends sb;
    (λ '(ph, amt, _), mkCoin (coin_name (coin cs)) ph amt)
      <$> outputs (puzzle_reveal cs) (solution cs);
  bundle_name sb := digest ("bundle" :: (coin_name ∘ coin <$> coin_spends sb));
  hack_populate_secret_key_for_puzzle_hash ph :=
    match head (filter (λ k, leaf_tree_hash (PuzzleForPk k) = ph) keys) with
    | Some k => inr k
    | None => inl (ValueError (Collaborator "Wallet couldn't find keys for puzzle_hash"))
    end;
  compute_memos sb :=
    inr (cs ← coin_spends sb;
         (λ '(ph, amt, hints), (coin_name (mkCoin (coin_name (coin cs)) ph amt), hints))
           <$> outputs (puzzle_reveal cs) (solution cs));
|}.

Definition empty_state : WalletState :=
  mkWalletState [] ∅ [] [] [] [] ∅ 1 [].

(** Scenario 1: a launcher with root [R0] owned by "key-0" is adopted. *)
Definition R0 : bytes32 :=
  Eval vm_compute in
  (digest ["root"; "0"]).
Definition R1 : bytes32 :=
  Eval vm_compute in
  (digest ["root"; "1"]).
Definition launcher_coin : Coin :=
  Eval vm_compute in
  (mkCoin (digest ["origin"]) (get_tree_hash SINGLETON_LAUNCHER) 1).
Definition launcher : bytes32 :=
  Eval vm_compute in
  (coin_name launcher_coin).
Definition owner_hash (k : bytes) : bytes32 := get_tree_hash (PuzzleForPk k).

Definition launcher_spend : CoinSpend :=
  Eval vm_compute in
  (mkCoinSpend launcher_coin SINGLETON_LAUNCHER
    (LauncherSolution (host_fullpuz_hash (owner_hash "key-0") R0 launcher) 1 R0
       (owner_hash "key-0"))).

Definition genesis_state : WalletState :=
  Eval vm_compute in
  (state_after (new_launcher_spend env launcher_spend (Some 10%Z)) empty_state).

Definition genesis_coin : Coin :=
  Eval vm_compute in
  (mkCoin launcher (host_fullpuz_hash (owner_hash "key-0") R0 launcher) 1).

(** The transactions a call returned, queued in the transaction store. *)
Definition queued (r : WalletState * (exn + list TransactionRecord)) : WalletState :=
  match r with
  | (s, inr txs) =>
      foldl (λ s tx, with_transactions (TxStore.add_transaction_record tx) s) s txs
  | (s, inl _) => s
  end.

(** Scenario 3: an update to [R1] with the ephemeral announce step. *)
Definition announced : WalletState * (exn + list TransactionRecord) :=
  Eval vm_compute in
  (create_update_state_spend env launcher (Some R1) None None 0 None None true true true
    genesis_state).

Definition pending_state : WalletState :=
  Eval vm_compute in
  (queued announced).

(** Scenario 5: somebody else spends the genesis coin first, keeps the
    root [R0] and hands the singleton to "key-2". *)
Definition competing_spend : CoinSpend :=
  Eval vm_compute in
  (mkCoinSpend genesis_coin (HostFullPuz (PuzzleForPk "key-0") R0 launcher)
    (SingletonSolution
       (mkLineageProof (Some (parent_coin_info launcher_coin)) None (Some 1%Z)) 1
       (Some [CreateCoin (owner_hash "key-2") 1 [launcher; R0; owner_hash "key-2"]]))).

Definition genesis : SingletonRecord :=
  Eval vm_compute in
  (genesis_record env launcher (puzzle_hash genesis_coin) 1 R0 (owner_hash "key-0") 10).

Definition competing_coin : Coin :=
  Eval vm_compute in
  (mkCoin (coin_name genesis_coin) (host_fullpuz_hash (owner_hash "key-2") R0 launcher) 1).

Definition competing_record : SingletonRecord :=
  Eval vm_compute in
  (confirmed_successor env genesis (coin_name genesis_coin) (puzzle_hash competing_coin) 1 R0
    (owner_hash "key-2") 12).

(** The state in which sync runs the fork detector. *)
Definition forked_state : WalletState :=
  Eval vm_compute in
  (with_successor env competing_record competing_coin 12 pending_state).

(** The same spend with a hint that names [R1] although the root stays [R0]. *)
Definition misleading_spend : CoinSpend :=
  Eval vm_compute in
  (mkCoinSpend genesis_coin (HostFullPuz (PuzzleForPk "key-0") R0 launcher)
    (SingletonSolution
       (mkLineageProof (Some (parent_coin_info launcher_coin)) None (Some 1%Z)) 1
       (Some [CreateCoin (owner_hash "key-2") 1 [launcher; R1; owner_hash "key-2"]]))).

(** A spend that melts the singleton: its only output is even. *)
Definition melting_spend : CoinSpend :=
  Eval vm_compute in
  (mkCoinSpend genesis_coin (HostFullPuz (PuzzleForPk "key-0") R0 launcher)
    (SingletonSolution
       (mkLineageProof (Some (parent_coin_info launcher_coin)) None (Some 1%Z)) 1
       (Some [CreateCoin (owner_hash "key-2") 2 [launcher; R0; owner_hash "key-2"]]))).

(** A reporter created by this wallet, whose first spend is synced before
    its launcher spend is processed. *)
Definition reporter : WalletState * (exn + (TransactionRecord * TransactionRecord * bytes32)) :=
  Eval vm_compute in
  (generate_new_reporter env R0 0 empty_state).

Definition reporter_launcher_coin : Coin :=
  Eval vm_compute in
  (mkCoin (coin_name funding_coin) (get_tree_hash SINGLETON_LAUNCHER) 1).

Definition reporter_launcher : bytes32 :=
  Eval vm_compute in
  (coin_name reporter_launcher_coin).

Definition reporter_genesis_coin : Coin :=
  Eval vm_compute in
  (mkCoin reporter_launcher (host_fullpuz_hash (owner_hash "key-1") R0 reporter_launcher) 1).

Definition reporter_launcher_spend : CoinSpend :=
  Eval vm_compute in
  (mkCoinSpend reporter_launcher_coin SINGLETON_LAUNCHER
    (LauncherSolution (puzzle_hash reporter_genesis_coin) 1 R0 (owner_hash "key-1"))).

Definition reporter_first_spend : CoinSpend :=
  Eval vm_compute in
  (mkCoinSpend reporter_genesis_coin (HostFullPuz (PuzzleForPk "key-1") R0 reporter_launcher)
    (SingletonSolution (mkLineageProof (Some (coin_name funding_coin)) None (Some 1%Z)) 1
       (Some [CreateCoin (owner_hash "key-2") 1 [reporter_launcher; R0; owner_hash "key-2"]]))).

Definition reporter_synced_state : WalletState :=
  Eval vm_compute in
  (state_after (singleton_removed env reporter_first_spend 11) reporter.1).

(** A caller's list with one announcement in it, at location 0. *)
Definition callers_announcement : Announcement :=
  Eval vm_compute in
  (mkAnnouncement (digest ["peer"]) "ok").

Definition state_with_callers_list : WalletState :=
  Eval vm_compute in
  (with_heap (insert 0%nat (PyList [callers_announcement])) genesis_state).

(** States for the precondition errors. *)
Definition unowned_state : WalletState :=
  Eval vm_compute in
  (state_after
    (new_launcher_spend env
       (mkCoinSpend launcher_coin SINGLETON_LAUNCHER
          (LauncherSolution (host_fullpuz_hash (digest ["stranger"]) R0 launcher) 1 R0
             (digest ["stranger"])))
       (Some 10%Z))
    empty_state).

Definition orphan_state : WalletState :=
  Eval vm_compute in
  (with_singleton_records
    (DLStore.add_singleton_record
       (mkSingletonRecord (digest ["orphan"]) (digest ["other"]) R0 (owner_hash "key-0") true 5
          (mkLineageProof None None None) 3 0))
    empty_state).

(** The reporter created above hands the singleton to a stranger with its
    first spend, and that spend is synced before the launcher spend is
    processed.  The fork detector then deletes the pending genesis record,
    which is the parent of the record sync has just confirmed. *)
Definition handover_spend : CoinSpend :=
  Eval vm_compute in
  (mkCoinSpend reporter_genesis_coin (HostFullPuz (PuzzleForPk "key-1") R0 reporter_launcher)
    (SingletonSolution (mkLineageProof (Some (coin_name funding_coin)) None (Some 1%Z)) 1
       (Some [CreateCoin (digest ["stranger"]) 1
                [reporter_launcher; R0; digest ["stranger"]]]))).

Definition handed_over_state : WalletState :=
  Eval vm_compute in
  (state_after (singleton_removed env handover_spend 11) reporter.1).

Definition handed_over_record : SingletonRecord :=
  Eval vm_compute in
  (default genesis
     (DLStore.get_latest_singleton reporter_launcher false
        (singleton_records handed_over_state))).

(** The genesis record of the launcher whose owner is a stranger. *)
Definition unowned_record : SingletonRecord :=
  Eval vm_compute in
  (default genesis
     (DLStore.get_latest_singleton launcher false (singleton_records unowned_state))).

(** Scenario 3 with a fee of 5. *)
Definition announced_with_fee : WalletState * (exn + list TransactionRecord) :=
  Eval vm_compute in
  (create_update_state_spend env launcher (Some R1) None None 5 None None true true true
     genesis_state).

End Example.


(** * Further concrete inputs

    Codecs for the action data, a chain that knows the launcher coin, a
    signer that refuses, and the scenarios of a plain update. *)

Module Scenarios.

Import Example.

(** A hexadecimal codec for bytes: two lower-case digits per byte when
    writing, either case and an optional 0x prefix when reading. *)
Definition hex_of_byte (c : Ascii.ascii) : list Ascii.ascii :=
  let n := Z.of_N (Ascii.N_of_ascii c) in
  [hex_digit (Z.shiftr n 4); hex_digit (Z.land n 15)].

Definition hex_of_bytes (b : bytes) : string :=
  String.string_of_list_ascii (String.list_ascii_of_string b ≫= hex_of_byte).

Definition hex_value (c : Ascii.ascii) : option Z :=
  let n := Z.of_N (Ascii.N_of_ascii c) in
  if bool_decide (48 ≤ n ≤ 57)%Z then Some (n - 48)%Z
  else if bool_decide (97 ≤ n ≤ 102)%Z then Some (n - 87)%Z
  else if bool_decide (65 ≤ n ≤ 70)%Z then Some (n - 55)%Z
  else None.

Fixpoint bytes_of_hex (l : list Ascii.ascii) : option (list Ascii.ascii) :=
  match l with
  | [] => Some []
  | [_] => None
  | high :: low :: rest =>
      h ← hex_value high;
      l ← hex_value low;
      bytes ← bytes_of_hex rest;
      Some (Ascii.ascii_of_N (Z.to_N (16 * h + l)) :: bytes)
  end.

Definition strip_0x (l : list Ascii.ascii) : list Ascii.ascii :=
  match l with
  | zero :: x :: rest =>
      if bool_decide (Ascii.N_of_ascii zero = 48%N
                      ∧ (Ascii.N_of_ascii x = 120%N ∨ Ascii.N_of_ascii x = 88%N))
      then rest else l
  | _ => l
  end.

Definition bytes32_of_hex (s : string) : exn + bytes32 :=
  match bytes_of_hex (strip_0x (String.list_ascii_of_string s)) with
  | Some l => to_bytes32 (String.string_of_list_ascii l)
  | None => inl (ValueError (Collaborator "non-hexadecimal number found"))
  end.

(** The decimal codec of the Standard Library. *)
Definition decimal_of_int (n : Z) : string :=
  DecimalString.NilZero.string_of_int (Z.to_int n).

Definition int_of_decimal (s : string) : exn + Z :=
  match DecimalString.NilZero.int_of_string s with
  | Some d => inr (Z.of_int d)
  | None => inl (ValueError (Collaborator "invalid literal for int()"))
  end.

Definition codec : Codec := {|
  bytes_hex := hex_of_bytes;
  bytes32_from_hexstr := bytes32_of_hex;
  int_str := decimal_of_int;
  str_int := int_of_decimal;
|}.

(** The example wallet with another chain client, and with another signer. *)
Definition with_chain (states : list bytes32 → list CoinState) (e : Env) : Env :=
  mkEnv (wallet_id e) (wallet_type e) (standard_wallet_id e) (time_now e)
    (get_timestamp_for_height e) states (launch_solution_to_singleton_info e)
    (match_dl_singleton e) (run_with_cost e) (get_derivation_record_for_puzzle_hash e)
    (get_new_puzzle e) (get_new_puzzlehash e) (select_coins e)
    (std_generate_signed_transaction e) (sign_coin_spends e) (bundle_additions e)
    (bundle_name e) (hack_populate_secret_key_for_puzzle_hash e) (compute_memos e).

Definition with_signer (signer : list CoinSpend → exn + list bytes) (e : Env) : Env :=
  mkEnv (wallet_id e) (wallet_type e) (standard_wallet_id e) (time_now e)
    (get_timestamp_for_height e) (get_coin_state e) (launch_solution_to_singleton_info e)
    (match_dl_singleton e) (run_with_cost e) (get_derivation_record_for_puzzle_hash e)
    (get_new_puzzle e) (get_new_puzzlehash e) (select_coins e)
    (std_generate_signed_transaction e) signer (bundle_additions e) (bundle_name e)
    (hack_populate_secret_key_for_puzzle_hash e) (compute_memos e).

(** A chain on which the launcher coin was created at height 9 and spent
    at height 10, whatever coin is asked for. *)
Definition chain_env : Env :=
  with_chain (λ ids, [mkCoinState launcher_coin (Some 9%Z) (Some 10%Z)]) env.

Definition no_key : exn := ValueError (Collaborator "no secret key").

Definition refusing_env : Env := with_signer (λ spends, inl no_key) env.

(** A transaction, a bundle, a spend and a record to fall back on where a
    list could be empty. *)
Definition no_tx : TransactionRecord :=
  funding_tx (mkStdTxRequest 0 EmptyString 0 None None None None).

Definition no_bundle : SpendBundle := mkSpendBundle [] [].

(** Scenario 1 once more, as a reporter of this wallet: what
    [generate_new_reporter] returned. *)
Definition reporter_state : WalletState :=
  Eval vm_compute in
  (reporter.1).

Definition reporter_dl : TransactionRecord :=
  Eval vm_compute in
  (match reporter.2 with inr (dl, _, _) => dl | inl _ => no_tx end).

Definition reporter_std : TransactionRecord :=
  Eval vm_compute in
  (match reporter.2 with inr (_, std, _) => std | inl _ => no_tx end).

Definition reporter_bundle : SpendBundle :=
  Eval vm_compute in
  (default no_bundle (spend_bundle reporter_dl)).

Definition reporter_launch : CoinSpend :=
  Eval vm_compute in
  (default competing_spend (last (coin_spends reporter_bundle))).

(** Scenario 2: an update to [R1] that hands the singleton to "key-1",
    without the announce step. *)
Definition updated : WalletState * (exn + list TransactionRecord) :=
  Eval vm_compute in
  (create_update_state_spend env launcher (Some R1) (Some (owner_hash "key-1")) None 0
     None None true true false genesis_state).

Definition updated_txs : list TransactionRecord :=
  Eval vm_compute in
  (returned [] updated.2).

Definition update_tx : TransactionRecord :=
  Eval vm_compute in
  (default no_tx (head updated_txs)).

Definition update_bundle : SpendBundle :=
  Eval vm_compute in
  (default no_bundle (spend_bundle update_tx)).

Definition update_spend : CoinSpend :=
  Eval vm_compute in
  (default competing_spend (head (coin_spends update_bundle))).

(** The same update with a fee of 5. *)
Definition funded : WalletState * (exn + list TransactionRecord) :=
  Eval vm_compute in
  (create_update_state_spend env launcher (Some R1) (Some (owner_hash "key-1")) None 5
     None None true true false genesis_state).

Definition funded_txs : list TransactionRecord :=
  Eval vm_compute in
  (returned [] funded.2).

(** Scenario 5 with one pending update: the update queued, then the
    competing spend of the genesis coin confirmed. *)
Definition updated_state : WalletState :=
  Eval vm_compute in
  (queued updated).

Definition overtaken_state : WalletState :=
  Eval vm_compute in
  (with_successor env competing_record competing_coin 12 updated_state).

Definition overtaken_record : SingletonRecord :=
  Eval vm_compute in
  (default genesis (head (pending_of launcher overtaken_state))).

Definition rebased : WalletState * (exn + list TransactionRecord) :=
  Eval vm_compute in
  (create_update_state_spend env launcher (Some R1) None None 0 None None true true false
     (cleared_state env launcher overtaken_state)).

Definition rebased_txs : list TransactionRecord :=
  Eval vm_compute in
  (returned [] rebased.2).

End Scenarios.
(** * Properties *)

(** ** Running monadic code *)

Ltac unfold_monad :=
  unfold mbind, mret, M_bind, M_ret, exn_bind, exn_ret, lift, raise, get_state, modify,
    py_assert, log_info, log_warning, try_except in *.

(** ** Invariants through monadic code *)

Section Preserves.

Context {P : WalletState → Prop}.

Lemma preserves_ret {A} (x : A) : preserves P (mret x).
Proof. by intros s. Qed.

Lemma preserves_raise {A} (e : exn) : preserves P (raise (A:=A) e).
Proof. by intros s. Qed.

Lemma preserves_lift {A} (r : exn + A) : preserves P (lift r).
Proof. by intros s. Qed.

Lemma preserves_get_state : preserves P get_state.
Proof. by intros s. Qed.

Lemma preserves_modify (f : WalletState → WalletState) :
  (∀ s, P s → P (f s)) → preserves P (modify f).
Proof. intros Hf s Hs. by apply Hf. Qed.

Lemma preserves_bind {A B} (m : M A) (f : A → M B) :
  preserves P m → (∀ x, preserves P (f x)) → preserves P (m ≫= f).
Proof.
  intros Hm Hf s Hs. specialize (Hm s Hs). unfold state_after in *.
  unfold mbind, M_bind. destruct (m s) as [s1 [e|x]]; [done |]. by apply Hf.
Qed.

Lemma preserves_bind_lift {A B} (r : exn + A) (f : A → M B) :
  (∀ x, r = inr x → preserves P (f x)) → preserves P (lift r ≫= f).
Proof.
  intros Hf s Hs. unfold state_after, mbind, M_bind, lift.
  destruct r as [e|x]; [done |]. by apply Hf.
Qed.

Lemma preserves_try_except {A} (body : M A) (handler : exn → M A) :
  preserves P body → (∀ e, preserves P (handler e)) → preserves P (try_except body handler).
Proof.
  intros Hm Hh s Hs. specialize (Hm s Hs). unfold state_after, try_except in *.
  destruct (body s) as [s1 [e|x]]; [by apply Hh | done].
Qed.

Lemma preserves_for_each {A} (l : list A) (body : A → M unit) :
  (∀ x, preserves P (body x)) → preserves P (for_each l body).
Proof.
  intros Hbody. induction l as [|x l IH]; simpl; [apply preserves_ret |].
  apply preserves_bind; [done |]. by intros _.
Qed.

Lemma preserves_fold_m {A B} (body : B → A → M B) (l : list A) (acc : B) :
  (∀ acc x, preserves P (body acc x)) → preserves P (fold_m body l acc).
Proof.
  intros Hbody. revert acc. induction l as [|x l IH]; intros acc; simpl;
    [apply preserves_ret |].
  by apply preserves_bind.
Qed.

End Preserves.

Lemma for_each_modify {A} (l : list A) (f : A → WalletState → WalletState) (s : WalletState) :
  for_each l (λ x, modify (f x)) s = (foldl (λ s x, f x s) s l, inr tt).
Proof. revert s. induction l as [|x l IH]; intros s; [done |]. simpl. apply IH. Qed.

Section Properties.

Context `{Hashing} (env : Env).

(** ** The stores and the steps of authoring *)


Lemma bind_run {A B} (m : M A) (f : A → M B) (s : WalletState) :
  (m ≫= f) s = match m s with
               | (s', inr x) => f x s'
               | (s', inl e) => (s', inl e)
               end.
Proof. reflexivity. Qed.


Lemma highest_Some l r :
  DLStore.highest l = Some r → r ∈ l ∧ ∀ x, x ∈ l → (generation x ≤ generation r)%Z.
Proof.
  revert r. induction l as [|a l IH]; intros r; simpl; [done |].
  destruct (DLStore.highest l) as [r'|] eqn:Hl.
  - destruct (IH r' eq_refl) as [Hin Hmax].
    case_bool_decide; intros [= <-]; split.
    + by apply list_elem_of_further.
    + intros x [->|Hx]%elem_of_cons; [lia | by apply Hmax].
    + apply list_elem_of_here.
    + intros x [->|Hx]%elem_of_cons; [lia |]. specialize (Hmax x Hx). lia.
  - intros [= <-]. destruct l as [|b l]; [|simpl in Hl; by repeat case_match].
    split; [apply list_elem_of_here |]. intros x ->%list_elem_of_singleton. lia.
Qed.

Lemma highest_None l : DLStore.highest l = None → l = [].
Proof. destruct l; simpl; [done |]. by repeat case_match. Qed.

Lemma get_latest_singleton_Some launcher t r :
  DLStore.get_latest_singleton launcher false t = Some r →
  r ∈ t ∧ launcher_id r = launcher
  ∧ ∀ x, x ∈ t → launcher_id x = launcher → (generation x ≤ generation r)%Z.
Proof.
  unfold DLStore.get_latest_singleton, DLStore.records_of. intros [Hin Hmax]%highest_Some.
  apply list_elem_of_filter in Hin as [_ [Hl Hin]%list_elem_of_filter].
  split_and!; [done..|]. intros x Hx Hxl. apply Hmax.
  apply list_elem_of_filter. split; [done |]. by apply list_elem_of_filter.
Qed.

Lemma get_latest_singleton_None launcher t :
  DLStore.get_latest_singleton launcher false t = None →
  ∀ x, x ∈ t → launcher_id x ≠ launcher.
Proof.
  unfold DLStore.get_latest_singleton, DLStore.records_of. intros Hn%highest_None x Hx Hl.
  assert (x ∈ filter (λ r : SingletonRecord, false = true → confirmed r = true)
                (filter (λ r : SingletonRecord, launcher_id r = launcher) t)) as Hin.
  { apply list_elem_of_filter. split; [done |]. by apply list_elem_of_filter. }
  rewrite Hn in Hin. by apply elem_of_nil in Hin.
Qed.

Lemma get_spendable_singleton_info_inv launcher s s' res :
  get_spendable_singleton_info launcher s = (s', res) →
  s' = s
  ∧ ∀ latest pl, res = inr (latest, pl) →
      DLStore.get_latest_singleton launcher false (singleton_records s) = Some latest
      ∧ confirmed latest = true
      ∧ is_Some (parent_name (lineage_proof latest))
      ∧ is_Some (lp_amount (lineage_proof latest)).
Proof.
  unfold get_spendable_singleton_info. unfold_monad. intros Hrun.
  repeat case_match; simplify_eq/=; split; try done; intros ?? [= <- <-];
    split_and!; try done; by destruct (confirmed _).
Qed.

Lemma frame_refl s : frame s s.
Proof. by repeat split. Qed.

Lemma frame_trans s1 s2 s3 : frame s1 s2 → frame s2 s3 → frame s1 s3.
Proof. unfold frame. intros (? & ? & ?) (? & ? & ?). split_and!; congruence. Qed.

Lemma append_announcement_inv ref a s s' res :
  append_announcement ref a s = (s', res) →
  match res with
  | inr items =>
      ∃ old, heap s !! ref = Some (PyList old) ∧ items = old ++ [a]
             ∧ s' = with_heap (insert ref (PyList (old ++ [a]))) s
  | inl _ => s' = s
  end.
Proof.
  unfold append_announcement. intros Hrun. repeat case_match; simplify_eq/=; eauto.
Qed.

Lemma read_announcements_inv ref s s' res :
  read_announcements ref s = (s', res) →
  s' = s ∧ ∀ items, res = inr items →
    heap s !! ref = Some (PyList items) ∨ heap s !! ref = Some (PySet items).
Proof.
  unfold read_announcements. intros Hrun.
  repeat case_match; simplify_eq/=; split; try done; intros ? [= <-]; eauto.
Qed.

Lemma sign_spend_inv cs s s' res :
  sign_spend env cs s = (s', res) →
  s' = s ∧ ∀ sb, res = inr sb → coin_spends sb = [cs].
Proof.
  unfold sign_spend. unfold_monad. intros Hrun.
  repeat case_match; simplify_eq/=; split; try done; by intros ? [= <-].
Qed.

Lemma create_tandem_xch_tx_inv fee a b s s' res :
  create_tandem_xch_tx env fee a b s = (s', res) →
  s' = with_next_derivation s
  ∧ ∀ tx sb, res = inr (tx, sb) → spend_bundle tx = Some sb.
Proof.
  unfold create_tandem_xch_tx, fresh_puzzlehash. unfold_monad. intros Hrun.
  repeat case_match; simplify_eq/=; split; try done; by intros ?? [= <- <-].
Qed.

Lemma create_tandem_xch_tx_request fee a s s' tx sb :
  create_tandem_xch_tx env fee a true s = (s', inr (tx, sb)) →
  std_generate_signed_transaction env
    (mkStdTxRequest 0 (get_new_puzzlehash env (derivation_index s)) fee None None
       (Some [a]) None) = inr (Some tx)
  ∧ spend_bundle tx = Some sb.
Proof.
  unfold create_tandem_xch_tx, fresh_puzzlehash. unfold_monad. intros Hrun.
  repeat case_match; simplify_eq/=; done.
Qed.

Lemma uint_inv bits z r : uint bits z = r →
  match r with inr z' => z' = z ∧ (0 ≤ z < 2 ^ bits)%Z | inl _ => True end.
Proof. unfold uint. intros <-. by case_bool_decide. Qed.



Lemma create_update_state_spend_inv launcher root_hash new_puz_hash new_amount fee
    coin_announcements pa sign add_pending announce s s' res :
  create_update_state_spend env launcher root_hash new_puz_hash new_amount fee
    coin_announcements pa sign add_pending announce s = (s', res) →
  frame s s'
  ∧ match res with
    | inl _ => singleton_records s' = singleton_records s
    | inr txs =>
        ∃ latest pl pk parent amt asserted signature,
          get_spendable_singleton_info launcher s = (s, inr (latest, pl))
          ∧ get_derivation_record_for_puzzle_hash env (inner_puzzle_hash latest) = Some pk
          ∧ parent_name (lineage_proof latest) = Some parent
          ∧ lp_amount (lineage_proof latest) = Some amt
          ∧ (0 ≤ generation latest + 1 < 2 ^ 32)%Z
          ∧ (announce = true → (generation latest + 2 < 2 ^ 32)%Z)
          ∧ let new_root := default (root latest) root_hash in
            let new_ph :=
              default (get_tree_hash (get_new_puzzle env (derivation_index s))) new_puz_hash in
            let cur := current_coin launcher latest pk parent amt in
            let eph := ephemeral_coin launcher new_root new_ph amt cur in
            let outer :=
              mkCoinSpend cur (HostFullPuz (PuzzleForPk pk) (root latest) launcher)
                (SingletonSolution pl amt
                   (Some (authored_conditions launcher new_root new_ph amt latest new_amount
                            fee announce coin_announcements asserted))) in
            let bundle :=
              mkSpendBundle
                (if announce
                 then [outer; second_coin_spend launcher new_root new_ph amt latest pk parent]
                 else [outer])
                signature in
            announcements_after pa announce (mkAnnouncement (puzzle_hash eph) dollar)
              (heap s) (heap s') asserted
            ∧ (∃ key memos,
                 hack_populate_secret_key_for_puzzle_hash env (get_tree_hash (PuzzleForPk pk))
                 = inr key
                 ∧ compute_memos env bundle = inr memos
                 ∧ if bool_decide (0 < fee)%Z then
                     ∃ chia_tx chia_sb funding_ph,
                       std_generate_signed_transaction env
                         (mkStdTxRequest 0 funding_ph fee None None
                            (Some [mkAnnouncement (coin_name cur) dollar]) None)
                       = inr (Some chia_tx)
                       ∧ spend_bundle chia_tx = Some chia_sb
                       ∧ txs = [with_spend_bundle (Some (aggregate bundle chia_sb))
                                  (authored_tx env latest new_ph amt fee bundle memos);
                                with_spend_bundle None chia_tx]
                   else txs = [authored_tx env latest new_ph amt fee bundle memos])
            ∧ singleton_records s' =
                (if add_pending then
                   if announce then
                     DLStore.add_singleton_record
                       (ephemeral_record launcher new_root new_ph amt latest cur)
                       (DLStore.add_singleton_record
                          (final_record launcher new_root new_ph amt latest cur)
                          (singleton_records s))
                   else
                     DLStore.add_singleton_record
                       (successor_record launcher new_root new_ph amt latest cur)
                       (singleton_records s)
                 else singleton_records s)
    end.
Proof.
  unfold create_update_state_spend. rewrite bind_run.
  destruct (get_spendable_singleton_info launcher s) as [s0 [e|[latest pl]]] eqn:Hinfo;
    destruct (get_spendable_singleton_info_inv _ _ _ _ Hinfo) as [-> Hlatest].
  { intros [= <- <-]. by repeat split. }
  destruct (Hlatest _ _ eq_refl) as (Hl & Hconf & [parent Hparent] & [amt Hamt]).
  clear Hlatest. simpl.
  destruct (get_derivation_record_for_puzzle_hash env (inner_puzzle_hash latest))
    as [pk|] eqn:Hpk; [| intros [= <- <-]; by repeat split].
  rewrite bind_run.
  set (new_ph := default (get_tree_hash (get_new_puzzle env (derivation_index s))) new_puz_hash).
  set (new_root := default (root latest) root_hash).
  match goal with |- context [match ?m s with _ => _ end] =>
    assert (∃ s1, m s = (s1, inr new_ph) ∧ frame s s1 ∧ heap s1 = heap s
                  ∧ singleton_records s1 = singleton_records s) as (s1 & -> & Hf1 & Hh1 & Hr1)
  end.
  { destruct new_puz_hash; simpl; eexists; (split; [reflexivity |]); by repeat split. }
  rewrite Hparent, Hamt. rewrite bind_run.
  unfold lift at 1.
  destruct (uint32 (generation latest + 1)) as [e|gen1] eqn:Hgen1;
    apply uint_inv in Hgen1; [intros [= <- <-]; split; [done | by rewrite Hr1] |].
  destruct Hgen1 as [-> Hrange1].
  rewrite bind_run.
  match goal with |- context [match ?m s1 with _ => _ end] =>
    destruct (m s1) as [s2 [e|[[asserted rec] second]]] eqn:Hann
  end.
  { intros [= <- <-].
    assert (frame s1 s2 ∧ singleton_records s2 = singleton_records s1) as [Hf2 Hr2].
    { clear -Hann. revert Hann.
      unfold append_announcement, read_announcements. unfold_monad. unfold frame.
      intros Hann. repeat case_match; by simplify_eq/=. }
    split; [by eapply frame_trans | congruence]. }
  assert (frame s1 s2 ∧ singleton_records s2 = singleton_records s1
          ∧ announcements_after pa announce
              (mkAnnouncement
                 (puzzle_hash (ephemeral_coin launcher new_root new_ph amt
                                 (current_coin launcher latest pk parent amt))) dollar)
              (heap s1) (heap s2) asserted
          ∧ (announce = true → (generation latest + 2 < 2 ^ 32)%Z)
          ∧ rec = (if announce
                   then final_record launcher new_root new_ph amt latest
                          (current_coin launcher latest pk parent amt)
                   else successor_record launcher new_root new_ph amt latest
                          (current_coin launcher latest pk parent amt))
          ∧ second = (if announce
                      then Some (ephemeral_record launcher new_root new_ph amt latest
                                   (current_coin launcher latest pk parent amt))
                      else None))
    as (Hf2 & Hr2 & Hasserted & Hrange2 & -> & ->).
  { clear -Hann. revert Hann. unfold frame, announcements_after.
    destruct announce, pa as [ref|]; rewrite ?bind_run.
    - destruct (append_announcement _ _ s1) as [sa [e|items]] eqn:Happ; [done |].
      apply append_announcement_inv in Happ as (old & Hold & -> & ->).
      unfold_monad. destruct (uint32 _) as [e|gen2] eqn:Hgen2; [done |].
      apply uint_inv in Hgen2 as [-> Hgen2].
      intros [= <- <- <- <-]. simpl. split_and!; try done; [| lia |].
      { exists old. split_and!; [exact Hold | reflexivity..]. }
      unfold final_record, replace_record, pending_record. simpl. f_equal. lia.
    - unfold_monad. destruct (uint32 _) as [e|gen2] eqn:Hgen2; [done |].
      apply uint_inv in Hgen2 as [-> Hgen2].
      intros [= <- <- <- <-]. simpl. split_and!; try done; [lia |].
      unfold final_record, replace_record, pending_record. simpl. f_equal. lia.
    - destruct (read_announcements _ s1) as [sa [e|items]] eqn:Hread; [done |].
      apply read_announcements_inv in Hread as [-> Hread].
      unfold_monad. intros [= <- <- <- <-]. split_and!; try done. eauto.
    - unfold_monad. intros [= <- <- <- <-]. by split_and!. }
  clear Hann. simpl. rewrite bind_run.
  set (cur := current_coin launcher latest pk parent amt) in *.
  set (outer := mkCoinSpend _ _ (SingletonSolution pl amt _)).
  assert (outer =
          mkCoinSpend cur (HostFullPuz (PuzzleForPk pk) (root latest) launcher)
            (SingletonSolution pl amt
               (Some (authored_conditions launcher new_root new_ph amt latest new_amount
                        fee announce coin_announcements asserted)))) as Houter.
  { subst outer. unfold authored_conditions. by case_bool_decide. }
  clearbody outer. subst outer.
  set (outer := mkCoinSpend _ _ (SingletonSolution pl amt _)).
  unfold lift at 1.
  destruct (hack_populate_secret_key_for_puzzle_hash env _) as [e|key] eqn:Hkey;
    [intros [= <- <-]; split; [by eapply frame_trans | congruence] |].
  rewrite bind_run.
  match goal with |- context [match ?m s2 with _ => _ end] =>
    destruct (m s2) as [s3 [e|sb]] eqn:Hsign
  end.
  { assert (s3 = s2) as ->.
    { destruct sign; [by apply sign_spend_inv in Hsign as [-> _] |].
      unfold_monad. by simplify_eq. }
    intros [= <- <-]. split; [by eapply frame_trans | congruence]. }
  assert (s3 = s2 ∧ coin_spends sb = [outer]) as [-> Hsb].
  { destruct sign; [apply sign_spend_inv in Hsign as [-> Hsb]; eauto |].
    unfold_monad. by simplify_eq. }
  clear Hsign. rewrite bind_run. unfold lift at 1.
  destruct (uint64 amt) as [e|amt'] eqn:Hamt'; apply uint_inv in Hamt';
    [intros [= <- <-]; split; [by eapply frame_trans | congruence] |].
  destruct Hamt' as [-> _].
  set (bundle := mkSpendBundle
                   (if announce
                    then [outer; second_coin_spend launcher new_root new_ph amt latest pk parent]
                    else [outer])
                   (aggregated_signature sb)).
  assert ((if announce
           then mkSpendBundle
                  [outer; second_coin_spend launcher new_root new_ph amt latest pk parent]
                  (aggregated_signature sb)
           else sb) = bundle) as Hbundle.
  { subst bundle. destruct announce; [done |]. destruct sb; simpl in *; by subst. }
  rewrite bind_run. unfold lift at 1.
  match goal with |- context [compute_memos env ?b] => change b with
    (if announce
     then mkSpendBundle
            [outer; second_coin_spend launcher new_root new_ph amt latest pk parent]
            (aggregated_signature sb)
     else sb)
  end.
  rewrite Hbundle.
  destruct (compute_memos env bundle) as [e|memos] eqn:Hmemos;
    [intros [= <- <-]; split; [by eapply frame_trans | congruence] |].
  rewrite bind_run.
  match goal with |- context [match ?m s2 with _ => _ end] =>
    destruct (m s2) as [s4 [e|txs]] eqn:Hfee
  end.
  { assert (frame s2 s4 ∧ singleton_records s4 = singleton_records s2) as [Hf4 Hr4].
    { clear -Hfee. revert Hfee. case_bool_decide; [| unfold_monad; intros; by simplify_eq].
      rewrite bind_run.
      destruct (create_tandem_xch_tx _ _ _ _ s2) as [sa [e'|[tx txsb]]] eqn:Ht;
        apply create_tandem_xch_tx_inv in Ht as [-> _]; unfold_monad; intros; by simplify_eq. }
    intros [= <- <-]. split; [by do 2 (eapply frame_trans; [|done]) | congruence]. }
  assert (frame s2 s4 ∧ singleton_records s4 = singleton_records s2 ∧ heap s4 = heap s2
          ∧ if bool_decide (0 < fee)%Z then
              ∃ chia_tx chia_sb funding_ph,
                std_generate_signed_transaction env
                  (mkStdTxRequest 0 funding_ph fee None None
                     (Some [mkAnnouncement (coin_name cur) dollar]) None)
                = inr (Some chia_tx)
                ∧ spend_bundle chia_tx = Some chia_sb
                ∧ txs = [with_spend_bundle (Some (aggregate bundle chia_sb))
                           (authored_tx env latest new_ph amt fee bundle memos);
                         with_spend_bundle None chia_tx]
            else txs = [authored_tx env latest new_ph amt fee bundle memos])
    as (Hf4 & Hr4 & Hh4 & Htxs).
  { clear -Hfee Hsb. revert Hfee. case_bool_decide.
    - rewrite bind_run.
      destruct (create_tandem_xch_tx _ _ _ _ s2) as [sa [e'|[tx txsb]]] eqn:Ht;
        [by apply create_tandem_xch_tx_inv in Ht as [-> _] |].
      destruct (create_tandem_xch_tx_request _ _ _ _ _ _ Ht) as [Hrequest Hbundle].
      apply create_tandem_xch_tx_inv in Ht as [-> _].
      unfold_monad. intros [= <- <-]. split_and!; try done.
      by exists tx, txsb, (get_new_puzzlehash env (derivation_index s2)).
    - unfold_monad. intros [= <- <-]. by split_and!. }
  clear Hfee. rewrite bind_run.
  match goal with |- context [match ?m s4 with _ => _ end] =>
    assert (∃ s5, m s4 = (s5, inr tt) ∧ frame s4 s5 ∧ heap s5 = heap s4
                  ∧ singleton_records s5 =
                      (if add_pending then
                         if announce then
                           DLStore.add_singleton_record
                             (ephemeral_record launcher new_root new_ph amt latest cur)
                             (DLStore.add_singleton_record
                                (final_record launcher new_root new_ph amt latest cur)
                                (singleton_records s4))
                         else
                           DLStore.add_singleton_record
                             (successor_record launcher new_root new_ph amt latest cur)
                             (singleton_records s4)
                       else singleton_records s4))
      as (s5 & -> & Hf5 & Hh5 & Hr5)
  end.
  { destruct add_pending, announce; unfold_monad; simpl; eexists;
      (split; [reflexivity |]); by split_and!. }
  unfold_monad. intros [= <- <-].
  split; [by do 3 (eapply frame_trans; [|done]) |].
  exists latest, pl, pk, parent, amt, asserted, (aggregated_signature sb).
  split_and!; try done; try lia.
  - by rewrite Hh5, Hh4, <-Hh1.
  - by exists key, memos.
  - by rewrite Hr5, Hr4, Hr2, Hr1.
Qed.

(** ** Authoring: precondition errors *)

(** C6, as the code has it.  [create_update_state_spend] raises the "not
    tracked" error when the launcher has no latest record, the "pending"
    error when the latest record is unconfirmed, and the "insufficient
    information" error when the confirmed latest record lacks the parent
    name or the amount of its lineage proof.  With both present the parent
    is looked up next: when no record is stored under the parent name the
    call raises the "parent not found" error, or, the parent being the
    launcher, the "no launcher info" error when the launcher coin is not
    stored either.  The "no permission" error is raised only once the
    parent lineage has resolved and the inner puzzle hash has no derivation
    record.  In each case the wallet state, the singleton store included,
    is the one the call started from. *)
Theorem create_update_state_spend_precondition_errors
    (launcher : bytes32) (root_hash new_puz_hash : option bytes32) (new_amount : option Z)
    (fee : Z) (coin_announcements : option (list Announcement))
    (puzzle_announcements : option nat) (sign add_pending announce : bool)
    (s : WalletState) :
  let call :=
    create_update_state_spend env launcher root_hash new_puz_hash new_amount fee
      coin_announcements puzzle_announcements sign add_pending announce s in
  let latest := DLStore.get_latest_singleton launcher false (singleton_records s) in
  (latest = None → call = (s, inl (ValueError NotTracked)))
  ∧ (∀ r, latest = Some r → confirmed r = false → call = (s, inl (ValueError Pending)))
  ∧ (∀ r, latest = Some r → confirmed r = true →
       parent_name (lineage_proof r) = None ∨ lp_amount (lineage_proof r) = None →
       call = (s, inl (ValueError InsufficientLineage)))
  ∧ (∀ r parent amt, latest = Some r → confirmed r = true →
       parent_name (lineage_proof r) = Some parent →
       lp_amount (lineage_proof r) = Some amt →
       (DLStore.get_singleton_record parent (singleton_records s) = None →
        (parent ≠ launcher → call = (s, inl (ValueError ParentNotFound)))
        ∧ (parent = launcher → launchers s !! launcher = None →
           call = (s, inl (ValueError NoLauncherInfo))))
       ∧ (DLStore.get_singleton_record parent (singleton_records s) ≠ None
          ∨ (parent = launcher
             ∧ ∃ launcher_coin, launchers s !! launcher = Some launcher_coin
                                ∧ (0 ≤ amount launcher_coin < 2 ^ 64)%Z) →
          get_derivation_record_for_puzzle_hash env (inner_puzzle_hash r) = None →
          call = (s, inl (ValueError NotOwned)))).
Proof.
  intros call latest. subst call latest.
  unfold create_update_state_spend.
  split_and!.
  - intros Hnone. unfold get_spendable_singleton_info. unfold_monad. by rewrite Hnone.
  - intros r Hr Hc. unfold get_spendable_singleton_info. unfold_monad.
    by rewrite Hr, Hc.
  - intros r Hr Hc Hl. unfold get_spendable_singleton_info. unfold_monad.
    rewrite Hr, Hc. simpl.
    destruct Hl as [-> | Hl]; [done |].
    rewrite Hl. by destruct (parent_name (lineage_proof r)).
  - intros r parent amt Hr Hc Hparent Hamt. split_and!.
    + intros Hnone. split.
      * intros Hne. unfold get_spendable_singleton_info. unfold_monad.
        rewrite Hr, Hc, Hparent, Hamt. simpl. rewrite Hnone.
        by rewrite bool_decide_eq_true_2.
      * intros -> Hlauncher. unfold get_spendable_singleton_info. unfold_monad.
        rewrite Hr, Hc, Hparent, Hamt. simpl. rewrite Hnone.
        rewrite bool_decide_eq_false_2 by (intros Hne; by apply Hne).
        by rewrite Hlauncher.
    + intros Hresolves Hd.
      assert (∃ pl, get_spendable_singleton_info launcher s = (s, inr (r, pl)))
        as [pl Hinfo].
      { unfold get_spendable_singleton_info. unfold_monad.
        rewrite Hr, Hc, Hparent, Hamt. simpl.
        destruct (DLStore.get_singleton_record parent (singleton_records s))
          as [parent_record|] eqn:Hrecord; [by eexists |].
        destruct Hresolves as [Hsome | (-> & launcher_coin & Hcoin & Hrange)]; [done |].
        rewrite bool_decide_eq_false_2 by (intros Hne; by apply Hne).
        rewrite Hcoin. unfold uint64, uint. rewrite bool_decide_eq_true_2 by done.
        by eexists. }
      unfold_monad. rewrite Hinfo. by rewrite Hd.
Qed.


(** ** Authoring: the amount, the ephemeral spend, the announcements *)

Lemma create_coin_in_authored_conditions launcher new_root new_ph amt latest new_amount fee
    announce coin_announcements asserted :
  ∃ ph memos,
    CreateCoin ph (default amt new_amount) memos
      ∈ authored_conditions launcher new_root new_ph amt latest new_amount fee announce
          coin_announcements asserted.
Proof.
  unfold authored_conditions, make_solution. do 2 eexists.
  apply elem_of_app. right. simpl. apply list_elem_of_here.
Qed.

(** C3, as the code has it.  No amount is rejected: whenever
    [create_update_state_spend] succeeds, the create-coin condition of the
    authored spend carries [new_amount] as supplied, whatever its parity,
    and the amount of the latest record's lineage proof when none is
    supplied; the transaction amount is the latter in both cases.  The same
    holds through [generate_signed_transaction], which passes [amounts[0]]. *)
Theorem new_amount_is_written_unchecked
    (launcher : bytes32) (root_hash new_puz_hash : option bytes32) (new_amount : option Z)
    (fee : Z) (coin_announcements : option (list Announcement))
    (puzzle_announcements : option nat) (sign add_pending announce : bool)
    (amounts : list Z) (puzzle_hashes : list bytes32) (coins : list Coin)
    (launcher_arg : option bytes32) (s s' : WalletState) (txs : list TransactionRecord) :
  (create_update_state_spend env launcher root_hash new_puz_hash new_amount fee
     coin_announcements puzzle_announcements sign add_pending announce s = (s', inr txs) →
   ∃ latest amt dl_tx,
     DLStore.get_latest_singleton launcher false (singleton_records s) = Some latest
     ∧ lp_amount (lineage_proof latest) = Some amt
     ∧ head txs = Some dl_tx ∧ tx_amount dl_tx = amt
     ∧ creates_coin_of_amount txs (default amt new_amount))
  ∧ (generate_signed_transaction env amounts puzzle_hashes fee coins coin_announcements
       puzzle_announcements launcher_arg root_hash sign add_pending announce s
     = (s', inr txs) →
     ∃ a, amounts = [a] ∧ creates_coin_of_amount txs a).
Proof.
  assert (∀ launcher new_puz_hash new_amount s s' txs,
    create_update_state_spend env launcher root_hash new_puz_hash new_amount fee
      coin_announcements puzzle_announcements sign add_pending announce s = (s', inr txs) →
    ∃ latest amt dl_tx,
      DLStore.get_latest_singleton launcher false (singleton_records s) = Some latest
      ∧ lp_amount (lineage_proof latest) = Some amt
      ∧ head txs = Some dl_tx ∧ tx_amount dl_tx = amt
      ∧ creates_coin_of_amount txs (default amt new_amount)) as Hcall.
  { clear. intros launcher new_puz_hash new_amount s s' txs Hrun.
    apply create_update_state_spend_inv in Hrun
      as (_ & latest & pl & pk & parent & amt & asserted & sig & Hinfo & _ & _ & Hamt & _ & _
          & _ & (populated & tx_memos & _ & _ & Htxs) & _).
    apply get_spendable_singleton_info_inv in Hinfo as [_ Hinfo].
    destruct (Hinfo _ _ eq_refl) as (Hlatest & _).
    destruct (create_coin_in_authored_conditions launcher (default (root latest) root_hash)
                (default (get_tree_hash (get_new_puzzle env (derivation_index s))) new_puz_hash)
                amt latest new_amount fee announce coin_announcements asserted)
      as (ph & memos & Hin).
    exists latest, amt.
    case_bool_decide;
      [destruct Htxs as (chia_tx & chia_sb & funding_ph & _ & _ & ->) | subst txs];
      eexists; (split_and!; [exact Hlatest | exact Hamt | reflexivity | reflexivity |]);
      unfold creates_coin_of_amount; simpl;
      eexists _, _, _, pl, amt, _, ph, memos;
      (split_and!; [reflexivity | reflexivity | | | exact Hin]);
      destruct announce; reflexivity. }
  split; [apply Hcall |].
  unfold generate_signed_transaction. rewrite bind_run. unfold get_state at 1.
  rewrite bind_run.
  match goal with |- context [match ?m s with _ => _ end] =>
    destruct (m s) as [s0 [e|l]] eqn:Hl
  end; [done |].
  assert (s0 = s) as ->.
  { revert Hl. unfold_monad. intros Hl. repeat case_match; by simplify_eq. }
  destruct amounts as [|a [|??]]; try done.
  destruct puzzle_hashes as [|ph [|??]]; try done.
  intros Hrun. apply Hcall in Hrun as (latest & amt & dl_tx & _ & _ & _ & _ & Hcreates).
  by exists a.
Qed.

Lemma coin_name_current_coin launcher latest pk parent amt :
  keys_consistent env →
  derivation_invariant latest →
  launcher_id latest = launcher →
  get_derivation_record_for_puzzle_hash env (inner_puzzle_hash latest) = Some pk →
  parent_name (lineage_proof latest) = Some parent →
  lp_amount (lineage_proof latest) = Some amt →
  coin_name (current_coin launcher latest pk parent amt) = coin_id latest.
Proof.
  intros Hkeys Hinv Hlauncher Hpk Hparent Hamt.
  unfold derivation_invariant in Hinv. rewrite Hparent, Hamt in Hinv. rewrite Hinv.
  unfold coin_name, current_coin. simpl. by rewrite (Hkeys _ _ Hpk), Hlauncher.
Qed.

(** C9, as the code has it.  A successful call with [announce_new_state]
    builds the ephemeral record one generation after the latest record and
    the final successor two generations after it, both unconfirmed, and
    inserts them when [add_pending_singleton] is set.  The bundle of the
    first transaction starts with the spend of the current coin followed by
    the spend of the ephemeral coin; nothing follows them when the fee is
    not positive; with a positive fee the spends that follow are those of
    the bundle of the transaction the standard wallet made for that fee,
    asserting the coin announcement `$` of the first spend's coin, and that
    transaction is returned second, without its bundle.  The first spend
    spends the coin of the latest record: its parent and amount are those of
    the record's lineage proof, its puzzle is the full puzzle of the
    record's key and root, and the transaction is named by the record's
    coin id.  The inner solution of the first spend asserts the puzzle
    announcement `$` of the ephemeral coin's full puzzle hash, and when the
    caller passed a container that announcement was appended to it. *)
Theorem announce_builds_two_records_and_two_spends
    (launcher : bytes32) (root_hash new_puz_hash : option bytes32) (new_amount : option Z)
    (fee : Z) (coin_announcements : option (list Announcement))
    (puzzle_announcements : option nat) (sign add_pending : bool)
    (s s' : WalletState) (txs : list TransactionRecord) :
  create_update_state_spend env launcher root_hash new_puz_hash new_amount fee
    coin_announcements puzzle_announcements sign add_pending true s = (s', inr txs) →
  ∃ latest ephemeral final outer second dl_tx sb funding lineage amt conditions,
    DLStore.get_latest_singleton launcher false (singleton_records s) = Some latest
    (* the two records *)
    ∧ generation ephemeral = (generation latest + 1)%Z
    ∧ generation final = (generation latest + 2)%Z
    ∧ confirmed ephemeral = false ∧ confirmed final = false
    ∧ coin_id ephemeral = coin_name (coin second)
    ∧ parent_name (lineage_proof final) = Some (coin_id ephemeral)
    ∧ singleton_records s' =
        (if add_pending
         then DLStore.add_singleton_record ephemeral
                (DLStore.add_singleton_record final (singleton_records s))
         else singleton_records s)
    (* the bundle *)
    ∧ head txs = Some dl_tx
    ∧ spend_bundle dl_tx = Some sb
    ∧ coin_spends sb = [outer; second] ++ funding
    ∧ ((fee ≤ 0)%Z → funding = [] ∧ txs = [dl_tx])
    ∧ parent_coin_info (coin second) = coin_name (coin outer)
    (* the funding spends *)
    ∧ ((0 < fee)%Z →
       ∃ chia_tx chia_sb funding_ph,
         std_generate_signed_transaction env
           (mkStdTxRequest 0 funding_ph fee None None
              (Some [mkAnnouncement (coin_name (coin outer)) dollar]) None)
         = inr (Some chia_tx)
         ∧ spend_bundle chia_tx = Some chia_sb
         ∧ funding = coin_spends chia_sb
         ∧ txs = [dl_tx; with_spend_bundle None chia_tx])
    (* the first spend spends the coin of the latest record *)
    ∧ name dl_tx = coin_id latest
    ∧ parent_name (lineage_proof latest) = Some (parent_coin_info (coin outer))
    ∧ lp_amount (lineage_proof latest) = Some (amount (coin outer))
    ∧ (∃ pubkey,
         get_derivation_record_for_puzzle_hash env (inner_puzzle_hash latest) = Some pubkey
         ∧ puzzle_reveal outer = HostFullPuz (PuzzleForPk pubkey) (root latest) launcher
         ∧ puzzle_hash (coin outer) = get_tree_hash (puzzle_reveal outer))
    ∧ (keys_consistent env → derivation_invariant latest →
       coin_name (coin outer) = coin_id latest)
    (* the announcement *)
    ∧ solution outer = SingletonSolution lineage amt (Some conditions)
    ∧ AssertPuzzleAnnouncement
        (announcement_name (mkAnnouncement (puzzle_hash (coin second)) dollar))
        ∈ conditions
    ∧ ∀ ref, puzzle_announcements = Some ref →
        ∃ old, heap s !! ref = Some (PyList old)
               ∧ heap s' !! ref
                 = Some (PyList (old ++ [mkAnnouncement (puzzle_hash (coin second)) dollar])).
Proof.
  intros Hrun.
  apply create_update_state_spend_inv in Hrun
    as (_ & latest & pl & pk & parent & amt & asserted & sig & Hinfo & Hpk & Hparent & Hamt
        & _ & _ & Hasserted & (populated & tx_memos & _ & _ & Htxs) & Hrecords).
  apply get_spendable_singleton_info_inv in Hinfo as [_ Hinfo].
  destruct (Hinfo _ _ eq_refl) as (Hlatest & _).
  pose proof Hlatest as (_ & Hlauncher & _)%get_latest_singleton_Some.
  set (new_root := default (root latest) root_hash) in *.
  set (new_ph := default (get_tree_hash (get_new_puzzle env (derivation_index s)))
                   new_puz_hash) in *.
  set (cur := current_coin launcher latest pk parent amt) in *.
  set (ra := mkAnnouncement (puzzle_hash (ephemeral_coin launcher new_root new_ph amt cur))
               dollar) in *.
  assert (∃ items, asserted = Some items ∧ ra ∈ items) as (items & -> & Hra).
  { unfold announcements_after in Hasserted. destruct puzzle_announcements.
    - destruct Hasserted as (old & _ & _ & ->). eexists. split; [done |].
      apply elem_of_app. right. apply list_elem_of_here.
    - destruct Hasserted as [_ ->]. eexists. split; [done |]. apply list_elem_of_here. }
  set (outer := mkCoinSpend cur (HostFullPuz (PuzzleForPk pk) (root latest) launcher) _) in *.
  set (second := second_coin_spend launcher new_root new_ph amt latest pk parent) in *.
  set (bundle := mkSpendBundle [outer; second] sig) in *.
  assert (∃ dl_tx sb funding,
            head txs = Some dl_tx ∧ spend_bundle dl_tx = Some sb
            ∧ coin_spends sb = [outer; second] ++ funding
            ∧ ((fee ≤ 0)%Z → funding = [] ∧ txs = [dl_tx])
            ∧ ((0 < fee)%Z →
               ∃ chia_tx chia_sb funding_ph,
                 std_generate_signed_transaction env
                   (mkStdTxRequest 0 funding_ph fee None None
                      (Some [mkAnnouncement (coin_name cur) dollar]) None)
                 = inr (Some chia_tx)
                 ∧ spend_bundle chia_tx = Some chia_sb
                 ∧ funding = coin_spends chia_sb
                 ∧ txs = [dl_tx; with_spend_bundle None chia_tx])
            ∧ name dl_tx = coin_id latest)
    as (dl_tx & sb & funding & Hhead & Hsb & Hspends & Hfee & Hfunded & Hname).
  { case_bool_decide as Hpos.
    - destruct Htxs as (chia_tx & chia_sb & funding_ph & Hrequest & Hbundle & ->).
      eexists _, _, (coin_spends chia_sb). split_and!; [reflexivity.. | lia | | reflexivity].
      intros _. by exists chia_tx, chia_sb, funding_ph.
    - subst txs. eexists _, _, []. split_and!; [reflexivity.. | done | lia | reflexivity]. }
  exists latest, (ephemeral_record launcher new_root new_ph amt latest cur),
    (final_record launcher new_root new_ph amt latest cur), outer, second, dl_tx, sb, funding.
  do 3 eexists. split_and!; try done; try reflexivity.
  - by exists pk.
  - intros Hkeys Hinvariant. by apply coin_name_current_coin.
  - unfold authored_conditions, make_solution. simpl.
    apply elem_of_app. right. apply elem_of_cons. right.
    rewrite !elem_of_app. right. right.
    apply (list_elem_of_fmap_2 AssertPuzzleAnnouncement).
    by apply (list_elem_of_fmap_2 announcement_name).
  - intros ref ->. destruct Hasserted as (old & Hold & -> & _).
    exists old. split; [done |]. by rewrite lookup_insert_eq.
Qed.

(** C10, as the code has it.  A successful call with [announce_new_state]
    and a caller-supplied container does not copy it: the container is a
    list, and after the call it holds its old items followed by the
    announcement `$` of the ephemeral coin's full puzzle hash. *)
Theorem caller_announcements_are_extended_in_place
    (launcher : bytes32) (root_hash new_puz_hash : option bytes32) (new_amount : option Z)
    (fee : Z) (coin_announcements : option (list Announcement)) (ref : nat)
    (sign add_pending : bool) (s s' : WalletState) (txs : list TransactionRecord) :
  create_update_state_spend env launcher root_hash new_puz_hash new_amount fee
    coin_announcements (Some ref) sign add_pending true s = (s', inr txs) →
  ∃ old root_announce,
    heap s !! ref = Some (PyList old)
    ∧ message root_announce = dollar
    ∧ heap s' = <[ref := PyList (old ++ [root_announce])]> (heap s)
    ∧ heap s' !! ref ≠ heap s !! ref.
Proof.
  intros Hrun.
  apply create_update_state_spend_inv in Hrun
    as (_ & latest & pl & pk & parent & amt & asserted & sig & _ & _ & _ & _ & _ & _
        & (old & Hold & Hheap & _) & _).
  eexists old, _. split_and!; [done | | exact Hheap |]; [done |].
  rewrite Hheap, lookup_insert_eq, Hold. intros [= Heq].
  apply (f_equal length) in Heq. rewrite length_app in Heq. simpl in Heq. lia.
Qed.

(** ** The derivation invariant *)

Lemma elem_of_delete_singleton_record r cid t :
  r ∈ DLStore.delete_singleton_record cid t ↔ r ∈ t ∧ coin_id r ≠ cid.
Proof. unfold DLStore.delete_singleton_record. rewrite list_elem_of_filter. tauto. Qed.

Lemma elem_of_add_singleton_record r x t :
  x ∈ DLStore.add_singleton_record r t ↔ x = r ∨ (x ∈ t ∧ coin_id x ≠ coin_id r).
Proof.
  unfold DLStore.add_singleton_record.
  rewrite elem_of_app, list_elem_of_singleton, elem_of_delete_singleton_record. tauto.
Qed.

Lemma Forall_delete_singleton_record (Q : SingletonRecord → Prop) cid t :
  Forall Q t → Forall Q (DLStore.delete_singleton_record cid t).
Proof.
  rewrite !Forall_forall. intros Ht r [Hr _]%elem_of_delete_singleton_record. by apply Ht.
Qed.

Lemma Forall_add_singleton_record (Q : SingletonRecord → Prop) r t :
  Q r → Forall Q t → Forall Q (DLStore.add_singleton_record r t).
Proof.
  rewrite !Forall_forall. intros Hr Ht x [-> | [Hx _]]%elem_of_add_singleton_record;
    [done | by apply Ht].
Qed.

Lemma Forall_set_confirmed cid height ts t :
  Forall derivation_invariant t →
  Forall derivation_invariant (DLStore.set_confirmed cid height ts t).
Proof.
  unfold DLStore.set_confirmed. intros Ht. apply Forall_fmap.
  eapply Forall_impl; [exact Ht |]. intros r Hr. simpl. by case_decide.
Qed.

Ltac preserves_step :=
  first
    [ apply preserves_for_each; intros ?
    | apply preserves_fold_m; intros ? ?
    | apply preserves_try_except; [| intros ?]
    | apply preserves_ret | apply preserves_raise | apply preserves_lift
    | apply preserves_get_state
    | apply preserves_bind; [| intros ?]
    | apply preserves_modify; intros ? ?; unfold on_records in *; simpl ].

(** The fork detector keeps every property of the singleton table that
    deleting a record and authoring a successor keep. *)
Lemma potentially_handle_resubmit_preserves (Q : list SingletonRecord → Prop) launcher :
  (∀ cid t, Q t → Q (DLStore.delete_singleton_record cid t)) →
  (∀ new_root fee,
     preserves (on_records Q)
       (create_update_state_spend env launcher (Some new_root) None None fee None None
          true true false)) →
  preserves (on_records Q) (potentially_handle_resubmit env launcher).
Proof.
  intros Hdel Hauthor. unfold potentially_handle_resubmit.
  preserves_step; [preserves_step |].
  destruct (sorted_by_generation _) as [|first rest]; [preserves_step |].
  destruct (same_records _ _); [preserves_step |].
  preserves_step; [unfold log_info; preserves_step; done |].
  destruct (parent_name _); [| preserves_step].
  preserves_step; [preserves_step; preserves_step; done |].
  preserves_step; [preserves_step; preserves_step; by apply Hdel |].
  destruct (negb _); [| preserves_step].
  preserves_step.
  - unfold rebase. preserves_step; [| preserves_step; preserves_step; done].
    preserves_step. preserves_step.
    destruct (existsb _ _); [| preserves_step].
    preserves_step; [preserves_step |]. preserves_step; [apply Hauthor | preserves_step].
  - unfold rebase_failed, log_warning.
    preserves_step; [preserves_step; done |]. preserves_step. preserves_step. by apply Hdel.
Qed.

Lemma create_update_state_spend_derivation launcher root_hash new_puz_hash new_amount fee
    coin_announcements pa sign add_pending announce :
  keys_consistent env →
  preserves (on_records (Forall derivation_invariant))
    (create_update_state_spend env launcher root_hash new_puz_hash new_amount fee
       coin_announcements pa sign add_pending announce).
Proof.
  intros Hkeys s Hs. unfold state_after, on_records in *.
  destruct (create_update_state_spend _ _ _ _ _ _ _ _ _ _ _ s) as [s' res] eqn:Hrun.
  apply create_update_state_spend_inv in Hrun as [_ Hrun]. simpl.
  destruct res as [e|txs]; [by rewrite Hrun |].
  destruct Hrun as (latest & pl & pk & parent & amt & asserted & sig & Hinfo & Hpk & Hparent
                    & Hamt & _ & _ & _ & _ & ->).
  destruct add_pending; [| done].
  apply get_spendable_singleton_info_inv in Hinfo as [_ Hinfo].
  destruct (Hinfo _ _ eq_refl) as (Hlatest & _).
  apply get_latest_singleton_Some in Hlatest as (Hin & Hlauncher & _).
  assert (coin_name (current_coin launcher latest pk parent amt) = coin_id latest) as Hcur.
  { rewrite Forall_forall in Hs. specialize (Hs _ Hin).
    unfold derivation_invariant in Hs. rewrite Hparent, Hamt in Hs. rewrite Hs.
    unfold coin_name, current_coin. simpl. by rewrite (Hkeys _ _ Hpk), Hlauncher. }
  destruct announce; repeat apply Forall_add_singleton_record; try done;
    unfold derivation_invariant; simpl; rewrite ?Hcur; reflexivity.
Qed.

(** C1, as the code has it.  The derivation invariant of the singleton
    table is kept by [generate_new_reporter] and by
    [create_update_state_spend], whatever [new_amount] is, provided the
    derivation index answers with the key of the puzzle hash asked for; it is
    kept by [new_launcher_spend] and [singleton_removed] when the full puzzle
    hash the spend carries is the one of the root and inner puzzle hash it
    carries, which neither method checks. *)
Theorem derivation_invariant_preserved (s : WalletState) :
  keys_consistent env →
  Forall derivation_invariant (singleton_records s) →
  (∀ initial_root fee,
     Forall derivation_invariant
       (singleton_records (state_after (generate_new_reporter env initial_root fee) s)))
  ∧ (∀ launcher root_hash new_puz_hash new_amount fee coin_announcements
       puzzle_announcements sign add_pending announce,
       Forall derivation_invariant
         (singleton_records
            (state_after
               (create_update_state_spend env launcher root_hash new_puz_hash new_amount fee
                  coin_announcements puzzle_announcements sign add_pending announce) s)))
  ∧ (∀ launcher_spend height,
       launcher_spend_consistent env launcher_spend →
       Forall derivation_invariant
         (singleton_records (state_after (new_launcher_spend env launcher_spend height) s)))
  ∧ (∀ parent_spend height,
       hints_consistent env parent_spend (singleton_records s) →
       Forall derivation_invariant
         (singleton_records (state_after (singleton_removed env parent_spend height) s))).
Proof.
  intros Hkeys Hs. split_and!.
  - intros initial_root fee. revert s Hs.
    change (preserves (on_records (Forall derivation_invariant))
              (generate_new_reporter env initial_root fee)).
    unfold generate_new_reporter.
    preserves_step; [preserves_step |].
    destruct (select_coins env _) as [[|launcher_parent coins]|]; try preserves_step.
    { unfold fresh_puzzle. by intros s Hs. }
    preserves_step; [preserves_step |].
    destruct (_ ≫= _) as [[tx sb]|]; [| preserves_step].
    preserves_step; [preserves_step |].
    preserves_step; [| preserves_step; [preserves_step; done | preserves_step]].
    preserves_step. unfold on_records. simpl.
    by apply Forall_add_singleton_record.
  - intros. by apply create_update_state_spend_derivation.
  - intros launcher_spend height Hspend. revert s Hs.
    change (preserves (on_records (Forall derivation_invariant))
              (new_launcher_spend env launcher_spend height)).
    unfold new_launcher_spend.
    preserves_step.
    { unfold observed_height.
      destruct height; [preserves_step |]. preserves_step; [preserves_step |].
      destruct (spent_height _); preserves_step. }
    apply preserves_bind_lift. intros [[[f a] r] i] Hdecode.
    preserves_step; [preserves_step |].
    destruct (DLStore.get_latest_singleton _ _ _) as [singleton_record|].
    + destruct (_ && _); [| unfold log_info; preserves_step; done].
      preserves_step; [preserves_step; by apply Forall_set_confirmed |].
      repeat (preserves_step; try done).
    + preserves_step; [| repeat (preserves_step; try done)].
      preserves_step. apply Forall_add_singleton_record; [| done].
      unfold derivation_invariant. simpl. unfold coin_name. simpl.
      by rewrite (Hspend _ _ _ _ Hdecode).
  - intros parent_spend height Hhints. unfold singleton_removed, state_after.
    destruct (match_dl_singleton env _); [| done].
    rewrite bind_run. unfold log_info, modify at 1. rewrite bind_run. unfold get_state at 1.
    simpl.
    destruct (DLStore.get_singleton_record _ _) as [parent_record|] eqn:Hparent; [| done].
    rewrite bind_run. unfold lift at 1.
    destruct (run_with_cost env _ _ ≫= py_iter) as [e|conditions] eqn:Hrun; [done |].
    rewrite bind_run. unfold lift at 1.
    destruct (find_successor conditions) as [e|[f a r i| |]] eqn:Hfound; try done.
    rewrite bind_run. unfold lift at 1.
    destruct (uint32 _) as [e|gen]; [done |].
    rewrite bind_run. unfold modify at 1. rewrite bind_run. unfold modify at 1.
    rewrite bind_run. unfold modify at 1.
    apply (potentially_handle_resubmit_preserves (Forall derivation_invariant)).
    + intros. by apply Forall_delete_singleton_record.
    + intros. by apply create_update_state_spend_derivation.
    + unfold on_records. simpl. apply Forall_add_singleton_record; [| done].
      unfold derivation_invariant, launcher_of. simpl. unfold coin_name. simpl.
      by rewrite (Hhints _ _ _ _ _ _ Hparent Hrun Hfound).
Qed.

(** ** The fork detector *)

Lemma insert_by_generation_perm r l : insert_by_generation r l ≡ₚ r :: l.
Proof.
  induction l as [|x l IH]; simpl; [done |].
  case_bool_decide; [done |]. rewrite IH. apply Permutation_swap.
Qed.

Lemma sorted_by_generation_perm l : sorted_by_generation l ≡ₚ l.
Proof.
  induction l as [|x l IH]; simpl; [done |].
  by rewrite insert_by_generation_perm, IH.
Qed.

Lemma insert_by_generation_sorted r l :
  StronglySorted (λ a b, generation a ≤ generation b)%Z l →
  StronglySorted (λ a b, generation a ≤ generation b)%Z (insert_by_generation r l).
Proof.
  induction 1 as [|x l Hl IH Hx]; simpl; [repeat constructor |].
  case_bool_decide as Hle.
  - constructor; [by constructor |]. constructor; [done |].
    eapply Forall_impl; [exact Hx |]. simpl. intros. lia.
  - constructor; [done |].
    rewrite insert_by_generation_perm. constructor; [lia | done].
Qed.

Lemma sorted_by_generation_sorted l :
  StronglySorted (λ a b, generation a ≤ generation b)%Z (sorted_by_generation l).
Proof.
  induction l as [|x l IH]; simpl; [constructor |]. by apply insert_by_generation_sorted.
Qed.

Lemma sorted_by_generation_head l first rest :
  sorted_by_generation l = first :: rest →
  first ∈ l ∧ ∀ x, x ∈ l → (generation first ≤ generation x)%Z.
Proof.
  intros Hsorted. pose proof (sorted_by_generation_sorted l) as Hs.
  pose proof (sorted_by_generation_perm l) as Hp. rewrite Hsorted in Hs, Hp.
  split; [rewrite <-Hp; apply list_elem_of_here |].
  intros x Hx. rewrite <-Hp in Hx. apply elem_of_cons in Hx as [-> | Hx]; [lia |].
  apply StronglySorted_inv in Hs as [_ Hs]. rewrite Forall_forall in Hs. by apply Hs.
Qed.

Lemma elem_of_get_unconfirmed_singletons r launcher t :
  r ∈ DLStore.get_unconfirmed_singletons launcher t
  ↔ r ∈ t ∧ launcher_id r = launcher ∧ confirmed r = false.
Proof.
  unfold DLStore.get_unconfirmed_singletons, DLStore.records_of.
  rewrite !list_elem_of_filter. tauto.
Qed.

Lemma elem_of_get_all_singletons_for_launcher r launcher g t :
  r ∈ DLStore.get_all_singletons_for_launcher launcher g t
  ↔ r ∈ t ∧ launcher_id r = launcher ∧ (g ≤ generation r)%Z.
Proof.
  unfold DLStore.get_all_singletons_for_launcher, DLStore.records_of.
  rewrite !list_elem_of_filter. tauto.
Qed.

Lemma filter_agree {A} (P Q : A → Prop) `{∀ x, Decision (P x), ∀ x, Decision (Q x)}
    (l : list A) :
  (∀ x, x ∈ l → P x ↔ Q x) → filter P l = filter Q l.
Proof.
  induction l as [|x l IH]; intros Hl; [done |].
  rewrite !filter_cons.
  assert (P x ↔ Q x) as Hx by (apply Hl, list_elem_of_here).
  rewrite IH; [| intros y Hy; by apply Hl, list_elem_of_further].
  destruct (decide (P x)), (decide (Q x)); tauto.
Qed.

Lemma same_records_perm a b : a ≡ₚ b → same_records a b = true.
Proof.
  intros Hp. unfold same_records. apply andb_true_iff. split; apply bool_decide_eq_true.
  - by rewrite Hp.
  - split; intros x; by rewrite Hp.
Qed.

(** With the pending records on top, the detector finds no fork. *)
Lemma potentially_handle_resubmit_no_fork launcher s :
  pending_on_top launcher (singleton_records s) →
  potentially_handle_resubmit env launcher s = (s, inr tt).
Proof.
  intros Htop. unfold potentially_handle_resubmit. rewrite bind_run. unfold get_state at 1.
  destruct (sorted_by_generation _) as [|first rest] eqn:Hsorted; [done |].
  destruct (sorted_by_generation_head _ _ _ Hsorted) as [Hfirst Hmin].
  apply elem_of_get_unconfirmed_singletons in Hfirst as (Hin & Hl & Hconf).
  rewrite same_records_perm; [done |].
  rewrite <-Hsorted, sorted_by_generation_perm.
  unfold DLStore.get_unconfirmed_singletons, DLStore.get_all_singletons_for_launcher.
  erewrite filter_agree; [done |].
  intros x [Hxl Hx]%list_elem_of_filter. simpl. split.
  - intros Hxc. apply Hmin. by apply elem_of_get_unconfirmed_singletons.
  - intros Hge. destruct (confirmed x) eqn:Hxc; [| done].
    specialize (Htop first x Hin Hx Hl Hxl Hconf Hxc). lia.
Qed.

Lemma with_singleton_records_id s : with_singleton_records (λ t, t) s = s.
Proof. by destruct s. Qed.

Lemma delete_all_singleton_records (l : list SingletonRecord) s :
  foldl (λ s x, with_singleton_records (DLStore.delete_singleton_record (coin_id x)) s) s l
  = with_singleton_records (filter (λ r, coin_id r ∉ coin_id <$> l)) s.
Proof.
  revert s. induction l as [|x l IH]; intros s; simpl.
  - destruct s; unfold with_singleton_records; simpl. f_equal.
    induction singleton_records0 as [|r t IHt]; [done |].
    rewrite filter_cons_True; [by rewrite <-IHt | apply not_elem_of_nil].
  - rewrite IH. destruct s; unfold with_singleton_records; simpl. f_equal.
    unfold DLStore.delete_singleton_record. rewrite list_filter_filter.
    apply filter_agree. intros r _. rewrite not_elem_of_cons. tauto.
Qed.

Lemma delete_all_transaction_records (l : list TransactionRecord) s :
  foldl (λ s tx, with_transactions (TxStore.delete_transaction_record (name tx)) s) s l
  = with_transactions (filter (λ tx, name tx ∉ name <$> l)) s.
Proof.
  revert s. induction l as [|x l IH]; intros s; simpl.
  - destruct s; unfold with_transactions; simpl. f_equal.
    induction transactions0 as [|r t IHt]; [done |].
    rewrite filter_cons_True; [by rewrite <-IHt | apply not_elem_of_nil].
  - rewrite IH. destruct s; unfold with_transactions; simpl. f_equal.
    unfold TxStore.delete_transaction_record. rewrite list_filter_filter.
    apply filter_agree. intros r _. rewrite not_elem_of_cons. tauto.
Qed.

(** The three ways the detector runs. *)
Lemma potentially_handle_resubmit_run launcher s :
  potentially_handle_resubmit env launcher s =
    match pending_of launcher s with
    | [] => (s, inr tt)
    | first :: _ =>
        if same_records (pending_of launcher s) (branch_of launcher first s) then (s, inr tt)
        else
          match parent_name (lineage_proof first) with
          | None => (with_log (LogInfo "Attempting automatic rebase") s, inl AssertionError)
          | Some first_parent =>
              if root_changed
                   (DLStore.get_singleton_record first_parent (singleton_records s))
                   (branch_of launcher first s)
              then (cleared_state env launcher s, inr tt)
              else rebase_attempt env launcher s (cleared_state env launcher s)
          end
    end.
Proof.
  unfold potentially_handle_resubmit, pending_of, branch_of. rewrite bind_run.
  unfold get_state at 1.
  destruct (sorted_by_generation _) as [|first rest] eqn:Hsorted; [done |].
  destruct (same_records _ _); [done |].
  rewrite bind_run. unfold log_info, modify at 1.
  destruct (parent_name (lineage_proof first)) as [first_parent|]; [| done].
  rewrite bind_run, for_each_modify, bind_run, for_each_modify.
  rewrite delete_all_transaction_records, delete_all_singleton_records.
  unfold cleared_state, rebase_attempt, invalidated_txs, invalidated_dl_txs, pending_of.
  simpl. rewrite Hsorted. by destruct (root_changed _ _).
Qed.

Lemma pending_on_top_delete launcher cid t :
  pending_on_top launcher t →
  pending_on_top launcher (DLStore.delete_singleton_record cid t).
Proof.
  intros Htop u c [Hu _]%elem_of_delete_singleton_record
    [Hc _]%elem_of_delete_singleton_record. by apply Htop.
Qed.

Lemma create_update_state_spend_pending_on_top launcher new_root fee :
  preserves (on_records (pending_on_top launcher))
    (create_update_state_spend env launcher (Some new_root) None None fee None None
       true true false).
Proof.
  intros s Hs. unfold state_after, on_records in *.
  destruct (create_update_state_spend _ _ _ _ _ _ _ _ _ _ _ s) as [s' res] eqn:Hrun.
  apply create_update_state_spend_inv in Hrun as [_ Hrun]. simpl.
  destruct res as [e|txs]; [by rewrite Hrun |].
  destruct Hrun as (latest & pl & pk & parent & amt & asserted & sig & Hinfo & _ & _
                    & _ & _ & _ & _ & _ & ->).
  apply get_spendable_singleton_info_inv in Hinfo as [_ Hinfo].
  destruct (Hinfo _ _ eq_refl) as (Hlatest & Hconf & _).
  apply get_latest_singleton_Some in Hlatest as (Hin & Hlauncher & Hmax).
  intros u c [-> | [Hu _]]%elem_of_add_singleton_record
    [-> | [Hc _]]%elem_of_add_singleton_record Hul Hcl Huc Hcc; simpl in *; try done.
  - specialize (Hmax c Hc Hcl). lia.
  - specialize (Hs u latest Hu Hin Hul Hlauncher Huc Hconf).
    specialize (Hmax u Hu Hul). lia.
Qed.

Lemma rebase_attempt_preserves (Q : list SingletonRecord → Prop) launcher s0 :
  (∀ cid t, Q t → Q (DLStore.delete_singleton_record cid t)) →
  (∀ new_root fee,
     preserves (on_records Q)
       (create_update_state_spend env launcher (Some new_root) None None fee None None
          true true false)) →
  preserves (on_records Q) (rebase_attempt env launcher s0).
Proof.
  intros Hdel Hauthor. unfold rebase_attempt. preserves_step.
  - unfold rebase. preserves_step; [| preserves_step; preserves_step; done].
    preserves_step. preserves_step.
    destruct (existsb _ _); [| preserves_step].
    preserves_step; [preserves_step |]. preserves_step; [apply Hauthor | preserves_step].
  - unfold rebase_failed, log_warning.
    preserves_step; [preserves_step; done |]. preserves_step. preserves_step. by apply Hdel.
Qed.

Lemma cleared_state_pending_on_top launcher s :
  pending_on_top launcher (singleton_records (cleared_state env launcher s)).
Proof.
  intros u c Hu _ Hul _ Huc _. exfalso. simpl in Hu.
  apply list_elem_of_filter in Hu as [Hnot Hu]. apply Hnot.
  apply list_elem_of_fmap_2. unfold pending_of. rewrite sorted_by_generation_perm.
  by apply elem_of_get_unconfirmed_singletons.
Qed.

(** C7. Running the fork detector a second time changes neither the
    singleton store nor the transaction store.  When the launcher has no
    unconfirmed record, or when its unconfirmed records are exactly the
    records from the least pending generation onward, the detector returns
    at once and the wallet state is untouched. *)
Theorem fork_detector_is_idempotent (launcher : bytes32) (s : WalletState) :
  let once := state_after (potentially_handle_resubmit env launcher) s in
  let twice := state_after (potentially_handle_resubmit env launcher) once in
  singleton_records twice = singleton_records once
  ∧ transactions twice = transactions once
  ∧ (DLStore.get_unconfirmed_singletons launcher (singleton_records s) = [] →
     potentially_handle_resubmit env launcher s = (s, inr tt))
  ∧ (∀ first,
       first ∈ DLStore.get_unconfirmed_singletons launcher (singleton_records s) →
       (∀ r, r ∈ DLStore.get_unconfirmed_singletons launcher (singleton_records s) →
             (generation first ≤ generation r)%Z) →
       (∀ r, r ∈ DLStore.get_unconfirmed_singletons launcher (singleton_records s)
             ↔ r ∈ DLStore.get_all_singletons_for_launcher launcher (generation first)
                     (singleton_records s)) →
       potentially_handle_resubmit env launcher s = (s, inr tt)).
Proof.
  intros once twice.
  assert (singleton_records twice = singleton_records once
          ∧ transactions twice = transactions once) as [Hr Ht].
  { subst once twice. unfold state_after.
    rewrite (potentially_handle_resubmit_run launcher s).
    destruct (pending_of launcher s) as [|first rest] eqn:Hpending.
    { simpl. rewrite potentially_handle_resubmit_run, Hpending. done. }
    destruct (same_records _ _) eqn:Hsame.
    { simpl. rewrite potentially_handle_resubmit_run, Hpending, Hsame. done. }
    destruct (parent_name (lineage_proof first)) as [first_parent|] eqn:Hparent.
    - assert (pending_on_top launcher
                (singleton_records
                   (if root_changed
                         (DLStore.get_singleton_record first_parent (singleton_records s))
                         (branch_of launcher first s)
                    then (cleared_state env launcher s, inr tt)
                    else rebase_attempt env launcher s (cleared_state env launcher s)).1))
        as Htop.
      { destruct (root_changed _ _); [apply cleared_state_pending_on_top |].
        apply (rebase_attempt_preserves (pending_on_top launcher)).
        - intros. by apply pending_on_top_delete.
        - intros. apply create_update_state_spend_pending_on_top.
        - apply cleared_state_pending_on_top. }
      by rewrite (potentially_handle_resubmit_no_fork _ _ Htop).
    - simpl. rewrite potentially_handle_resubmit_run.
      change (pending_of launcher (with_log _ s)) with (pending_of launcher s).
      rewrite Hpending.
      change (branch_of launcher first (with_log _ s)) with (branch_of launcher first s).
      rewrite Hsame, Hparent. done. }
  split_and!; [done | done | |].
  - intros Hnone. rewrite potentially_handle_resubmit_run. unfold pending_of.
    by rewrite Hnone.
  - intros first Hfirst Hmin Hsame.
    apply potentially_handle_resubmit_no_fork.
    intros u c Hu Hc Hul Hcl Huc Hcc.
    destruct (decide (generation c < generation u)%Z) as [|Hge]; [done |]. exfalso.
    assert (c ∈ DLStore.get_unconfirmed_singletons launcher (singleton_records s)) as Hcu.
    { apply Hsame. apply elem_of_get_all_singletons_for_launcher. split_and!; [done.. |].
      specialize (Hmin u). rewrite elem_of_get_unconfirmed_singletons in Hmin.
      specialize (Hmin (conj Hu (conj Hul Huc))). lia. }
    apply elem_of_get_unconfirmed_singletons in Hcu as (_ & _ & Hcf). congruence.
Qed.











(** ** Sync *)

Lemma int_from_bytes_nonneg b : (0 ≤ int_from_bytes b)%Z.
Proof.
  unfold int_from_bytes.
  assert (∀ l acc, (0 ≤ acc)%Z →
            (0 ≤ fold_left (λ acc c, acc * 256 + Z.of_nat (Ascii.nat_of_ascii c))%Z l acc)%Z)
    as Hfold.
  { induction l as [|c l IH]; intros acc Hacc; simpl; [done |]. apply IH. lia. }
  by apply Hfold.
Qed.

Lemma find_successor_skip c rest :
  not_a_successor c → find_successor (c :: rest) = find_successor rest.
Proof.
  intros [(op & args & -> & Hop) | (ph & ab & more & -> & Heven)]; simpl.
  - unfold mbind, exn_bind. simpl. by case_bool_decide.
  - unfold mbind, exn_bind. simpl. by repeat case_bool_decide.
Qed.

Lemma find_successor_skip_all before rest :
  Forall not_a_successor before → find_successor (before ++ rest) = find_successor rest.
Proof.
  induction 1 as [|c before Hc _ IH]; [done |]. simpl app.
  by rewrite find_successor_skip.
Qed.

Lemma find_successor_melted conditions :
  Forall not_a_successor conditions → find_successor conditions = inr Melted.
Proof.
  intros Hall. rewrite <-(app_nil_r conditions). by rewrite find_successor_skip_all.
Qed.

Lemma find_successor_found fph ab m0 new_root new_ph memos more after :
  (int_from_bytes ab `mod` 2 = 1)%Z → (int_from_bytes ab < 2 ^ 64)%Z →
  String.length fph = 32%nat → String.length new_root = 32%nat →
  String.length new_ph = 32%nat →
  find_successor
    (create_coin_condition fph ab (PList (m0 :: PBytes new_root :: PBytes new_ph :: memos) :: more)
       :: after)
  = inr (Successor fph (int_from_bytes ab) new_root new_ph).
Proof.
  intros Hodd Hrange Hfph Hroot Hph. pose proof (int_from_bytes_nonneg ab).
  simpl. unfold mbind, exn_bind, py_bytes32, to_bytes32, uint64, uint. simpl.
  repeat (case_bool_decide; simpl; try done; try lia).
Qed.

(** C2. For a parent spend whose puzzle matches and whose coin is tracked:
    when the conditions hold a CREATE_COIN with an odd amount, preceded only
    by conditions that are none, carrying a 32-byte puzzle hash and memos
    whose positions 1 and 2 are 32 bytes long, the record inserted takes its
    full puzzle hash from the first argument of that condition, its amount
    from the second and its root and inner puzzle hash from the memos, is
    confirmed at the given height and is one generation after the parent;
    the fork detector then runs on the store with that record.  When no
    condition is a CREATE_COIN with an odd amount nothing is inserted, and
    the latest record of every launcher is the one it was. *)
Theorem singleton_removed_follows_first_odd_create_coin
    (parent_spend : CoinSpend) (height : Z) (s : WalletState)
    (parent_record : SingletonRecord) (conditions : list pyval) :
  match_dl_singleton env (puzzle_reveal parent_spend) = true →
  DLStore.get_singleton_record (coin_name (coin parent_spend)) (singleton_records s)
    = Some parent_record →
  run_with_cost env (puzzle_reveal parent_spend) (solution parent_spend)
    = inr (PList conditions) →
  (∀ before after fph ab m0 new_root new_ph memos more,
     conditions
       = before
         ++ create_coin_condition fph ab
              (PList (m0 :: PBytes new_root :: PBytes new_ph :: memos) :: more)
         :: after →
     Forall not_a_successor before →
     (int_from_bytes ab `mod` 2 = 1)%Z → (int_from_bytes ab < 2 ^ 64)%Z →
     String.length fph = 32%nat → String.length new_root = 32%nat →
     String.length new_ph = 32%nat →
     (0 ≤ generation parent_record + 1 < 2 ^ 32)%Z →
     let successor :=
       confirmed_successor env parent_record (coin_name (coin parent_spend)) fph
         (int_from_bytes ab) new_root new_ph height in
     singleton_removed env parent_spend height s
     = potentially_handle_resubmit env (launcher_id parent_record)
         (with_successor env successor
            (mkCoin (coin_name (coin parent_spend)) fph (int_from_bytes ab)) height s)
     ∧ successor
         ∈ singleton_records
             (with_successor env successor
                (mkCoin (coin_name (coin parent_spend)) fph (int_from_bytes ab)) height s)
     ∧ confirmed successor = true
     ∧ confirmed_at_height successor = height
     ∧ generation successor = (generation parent_record + 1)%Z)
  ∧ (Forall not_a_successor conditions →
     result_of (singleton_removed env parent_spend height) s = inr tt
     ∧ singleton_records (state_after (singleton_removed env parent_spend height) s)
       = singleton_records s
     ∧ ∀ launcher only_confirmed,
         DLStore.get_latest_singleton launcher only_confirmed
           (singleton_records (state_after (singleton_removed env parent_spend height) s))
         = DLStore.get_latest_singleton launcher only_confirmed (singleton_records s)).
Proof.
  intros Hmatch Hparent Hrun.
  assert (∀ found,
    find_successor conditions = inr found →
    singleton_removed env parent_spend height s
    = match found with
      | BadHint =>
          (with_log (LogWarning "Parent did not hint its child properly" None)
             (with_log (LogInfo "DL singleton removed") s), inr tt)
      | Melted =>
          (with_log (LogWarning "Singleton was melted" None)
             (with_log (LogInfo "DL singleton removed") s), inr tt)
      | Successor fph amt new_root new_ph =>
          match uint32 (generation parent_record + 1) with
          | inl e => (with_log (LogInfo "DL singleton removed") s, inl e)
          | inr _ =>
              potentially_handle_resubmit env (launcher_id parent_record)
                (with_successor env
                   (confirmed_successor env parent_record (coin_name (coin parent_spend))
                      fph amt new_root new_ph height)
                   (mkCoin (coin_name (coin parent_spend)) fph amt) height s)
          end
      end) as Hcases.
  { intros found Hfound. unfold singleton_removed. rewrite Hmatch.
    rewrite bind_run. unfold log_info, modify at 1. rewrite bind_run. unfold get_state at 1.
    simpl. rewrite Hparent. rewrite bind_run. unfold lift at 1. rewrite Hrun. simpl.
    rewrite bind_run. unfold lift at 1. rewrite Hfound.
    destruct found as [fph amt new_root new_ph| |]; [| done..].
    rewrite bind_run. unfold lift at 1.
    destruct (uint32 _) as [e|gen] eqn:Hgen; [done |].
    apply uint_inv in Hgen as [-> _]. done. }
  split.
  - intros before after fph ab m0 new_root new_ph memos more -> Hbefore Hodd Hrange Hfph
      Hroot Hph Hgen successor.
    rewrite (Hcases (Successor fph (int_from_bytes ab) new_root new_ph)).
    + unfold uint32, uint. rewrite bool_decide_eq_true_2 by done.
      split_and!; try done. simpl. apply elem_of_add_singleton_record. by left.
    + rewrite find_successor_skip_all by done. by apply find_successor_found.
  - intros Hnone. unfold result_of, state_after.
    rewrite (Hcases Melted) by by apply find_successor_melted. done.
Qed.

(** ** Launcher spends *)

Lemma observed_height_state launcher height s s' res :
  observed_height env launcher height s = (s', res) → s' = s.
Proof.
  unfold observed_height. unfold_monad. intros Hrun.
  repeat case_match; by simplify_eq.
Qed.

(** C8, as the code has it.  [new_launcher_spend] looks only at the latest
    record of the launcher.  When that record is unconfirmed and has the coin
    id of the genesis successor it is promoted to confirmed at the observed
    height and its timestamp; when the launcher has no record a fresh
    confirmed record of generation 0 is inserted; in every other case the
    spend counts as already processed and no store is written. *)
Theorem new_launcher_spend_cases (launcher_spend : CoinSpend) (height : option Z) (h : Z)
    (s : WalletState) (f : bytes32) (a : Z) (r i : bytes32) :
  observed_height env (coin_name (coin launcher_spend)) height s = (s, inr h) →
  launch_solution_to_singleton_info env (solution launcher_spend) = inr (f, a, r, i) →
  let launcher := coin_name (coin launcher_spend) in
  let genesis := genesis_record env launcher f a r i h in
  let latest := DLStore.get_latest_singleton launcher false (singleton_records s) in
  let s' := state_after (new_launcher_spend env launcher_spend height) s in
  (∀ record, latest = Some record → coin_id record = coin_id genesis →
             confirmed record = false →
     singleton_records s'
     = DLStore.set_confirmed (coin_id genesis) h (get_timestamp_for_height env h)
         (singleton_records s)
     ∧ DLStore.confirm h (get_timestamp_for_height env h) record ∈ singleton_records s')
  ∧ (latest = None →
     singleton_records s' = DLStore.add_singleton_record genesis (singleton_records s)
     ∧ generation genesis = 0%Z ∧ confirmed genesis = true)
  ∧ (∀ record, latest = Some record →
               coin_id record ≠ coin_id genesis ∨ confirmed record = true →
     s' = with_log (LogInfo "Spend of launcher has already been processed") s).
Proof.
  intros Hheight Hdecode launcher genesis latest s'.
  subst s' latest. unfold state_after, new_launcher_spend. cbv zeta.
  rewrite bind_run, Hheight.
  rewrite bind_run. unfold lift at 1. rewrite Hdecode. simpl.
  rewrite bind_run. unfold get_state at 1. subst genesis launcher.
  unfold coin_name in *. simpl in *.
  destruct (DLStore.get_latest_singleton _ _ _) as [latest|] eqn:Hlatest.
  - split_and!; [| done |].
    + intros record [= <-] Hid Hconf.
      rewrite Hid, Hconf. rewrite bool_decide_eq_true_2 by done. simpl.
      split; [done |].
      apply get_latest_singleton_Some in Hlatest as (Hin & _).
      unfold DLStore.set_confirmed.
      apply list_elem_of_fmap. exists latest. split; [| done]. by rewrite decide_True.
    + intros record [= <-] [Hid | Hconf].
      * by rewrite bool_decide_eq_false_2.
      * rewrite Hconf. by rewrite andb_false_r.
  - by split_and!.
Qed.

End Properties.

(** * Further properties *)

Ltac keeps :=
  first
    [ apply preserves_for_each; intros ?
    | apply preserves_fold_m; intros ? ?
    | apply preserves_try_except; [| intros ?]
    | apply preserves_ret | apply preserves_raise | apply preserves_lift
    | apply preserves_get_state
    | apply preserves_bind; [| intros ?]
    | apply preserves_modify; intros ? ?; unfold on_records in *; simpl ].

Section MoreProperties.

Context `{Hashing} (env : Env).

(** ** Launcher spends *)

Lemma new_launcher_spend_run launcher_spend height s h f a r i :
  observed_height env (coin_name (coin launcher_spend)) height s = (s, inr h) →
  launch_solution_to_singleton_info env (solution launcher_spend) = inr (f, a, r, i) →
  let launcher := coin_name (coin launcher_spend) in
  let new_singleton := mkCoin launcher f a in
  let ts := get_timestamp_for_height env h in
  new_launcher_spend env launcher_spend height s =
    match DLStore.get_latest_singleton launcher false (singleton_records s) with
    | Some record =>
        if bool_decide (coin_id record = coin_name new_singleton) && negb (confirmed record)
        then (registered env (coin launcher_spend) new_singleton h
                (with_singleton_records (DLStore.set_confirmed (coin_id record) h ts) s),
              inr tt)
        else (with_log (LogInfo "Spend of launcher has already been processed") s, inr tt)
    | None =>
        (registered env (coin launcher_spend) new_singleton h
           (with_singleton_records
              (DLStore.add_singleton_record (genesis_record env launcher f a r i h)) s),
         inr tt)
    end.
Proof.
  intros Hheight Hdecode launcher new_singleton ts.
  unfold new_launcher_spend. cbv zeta.
  rewrite bind_run, Hheight.
  rewrite bind_run. unfold lift at 1. rewrite Hdecode. simpl.
  rewrite bind_run. unfold get_state at 1.
  destruct (DLStore.get_latest_singleton _ _ _) as [latest|] eqn:Hlatest; [| done].
  by destruct (_ && _).
Qed.

Lemma new_launcher_spend_derivation launcher_spend height :
  launcher_spend_consistent env launcher_spend →
  preserves (on_records (Forall derivation_invariant))
    (new_launcher_spend env launcher_spend height).
Proof.
  intros Hspend. unfold new_launcher_spend.
  keeps.
  { unfold observed_height.
    destruct height; [keeps |]. keeps; [keeps |].
    destruct (spent_height _); keeps. }
  apply preserves_bind_lift. intros [[[f a] r] i] Hdecode.
  keeps; [keeps |].
  destruct (DLStore.get_latest_singleton _ _ _) as [singleton_record|].
  + destruct (_ && _); [| unfold log_info; keeps; done].
    keeps; [keeps; by apply Forall_set_confirmed |].
    repeat (keeps; try done).
  + keeps; [| repeat (keeps; try done)].
    keeps. apply Forall_add_singleton_record; [| done].
    unfold derivation_invariant. simpl. unfold coin_name. simpl.
    by rewrite (Hspend _ _ _ _ Hdecode).
Qed.

(** X1. [match_dl_launcher] accepts a spend exactly when its puzzle is the
    launcher puzzle and its solution decodes to a full puzzle hash that is
    the one of the decoded inner puzzle hash and root under the name of the
    spent coin, with an odd amount; it returns the decoded inner puzzle
    hash.  A [ValueError] of the decoder is answered with a refusal, not
    raised.  A spend it accepts can be handed to [new_launcher_spend]
    without breaking the derivation invariant of the singleton table. *)
Theorem match_dl_launcher_accepts_sound_launches (launcher_spend : CoinSpend) :
  (∀ inner,
     match_dl_launcher env launcher_spend = inr (true, Some inner)
     ↔ puzzle_reveal launcher_spend = SINGLETON_LAUNCHER
       ∧ ∃ f a r,
           launch_solution_to_singleton_info env (solution launcher_spend) = inr (f, a, r, inner)
           ∧ f = host_fullpuz_hash inner r (coin_name (coin launcher_spend))
           ∧ (a `mod` 2 = 1)%Z)
  ∧ (∀ k, launch_solution_to_singleton_info env (solution launcher_spend)
          = inl (ValueError k) →
          match_dl_launcher env launcher_spend = inr (false, None))
  ∧ (∀ inner height s,
       match_dl_launcher env launcher_spend = inr (true, Some inner) →
       Forall derivation_invariant (singleton_records s) →
       Forall derivation_invariant
         (singleton_records (state_after (new_launcher_spend env launcher_spend height) s))).
Proof.
  assert (∀ inner,
     match_dl_launcher env launcher_spend = inr (true, Some inner)
     ↔ puzzle_reveal launcher_spend = SINGLETON_LAUNCHER
       ∧ ∃ f a r,
           launch_solution_to_singleton_info env (solution launcher_spend) = inr (f, a, r, inner)
           ∧ f = host_fullpuz_hash inner r (coin_name (coin launcher_spend))
           ∧ (a `mod` 2 = 1)%Z) as Hiff.
  { intros inner. unfold match_dl_launcher. split.
    - destruct (puzzle_reveal launcher_spend); try done.
      destruct (launch_solution_to_singleton_info env _) as [[]|[[[f a] r] i]]; try done.
      destruct (bool_decide (f ≠ _)) eqn:Hf; [done |].
      destruct (bool_decide (a `mod` 2 = 0)%Z) eqn:Ha; [done |]. simpl.
      intros [= <-]. split; [done |]. exists f, a, r.
      apply bool_decide_eq_false in Hf, Ha. split_and!; [done | |].
      + by destruct (decide (f = host_fullpuz_hash i r (coin_name (coin launcher_spend)))).
      + pose proof (Z.mod_pos_bound a 2). lia.
    - intros [-> (f & a & r & -> & -> & Ha)].
      rewrite bool_decide_eq_false_2 by (intros Hne; by apply Hne).
      rewrite bool_decide_eq_false_2 by lia. done. }
  split_and!; [exact Hiff | |].
  - intros k Hk. unfold match_dl_launcher. rewrite Hk. by destruct (puzzle_reveal _).
  - intros inner height s [_ (f & a & r & Hdecode & -> & _)]%Hiff Hs.
    apply (new_launcher_spend_derivation launcher_spend height); [| done].
    intros f' a' r' i'. rewrite Hdecode. by intros [= <- <- <- <-].
Qed.

(** ** Lists and the latest record *)

Lemma filter_none {A} (P : A → Prop) `{∀ x, Decision (P x)} (l : list A) :
  (∀ x, x ∈ l → ¬ P x) → filter P l = [].
Proof.
  induction l as [|x l IH]; intros Hl; [done |].
  rewrite filter_cons_False by (apply Hl, list_elem_of_here).
  apply IH. intros y Hy. by apply Hl, list_elem_of_further.
Qed.

Lemma filter_all {A} (P : A → Prop) `{∀ x, Decision (P x)} (l : list A) :
  (∀ x, x ∈ l → P x) → filter P l = l.
Proof.
  induction l as [|x l IH]; intros Hl; [done |].
  rewrite filter_cons_True by (apply Hl, list_elem_of_here).
  f_equal. apply IH. intros y Hy. by apply Hl, list_elem_of_further.
Qed.

Lemma filter_fmap_agree {A} (f : A → A) (P : A → Prop) `{∀ x, Decision (P x)} (l : list A) :
  (∀ x, P (f x) ↔ P x) → filter P (f <$> l) = f <$> filter P l.
Proof.
  intros Hf. induction l as [|x l IH]; [done |]. rewrite fmap_cons, !filter_cons.
  pose proof (Hf x) as Hx.
  destruct (decide (P (f x))), (decide (P x)); rewrite ?fmap_cons, IH; tauto.
Qed.

Lemma highest_fmap (f : SingletonRecord → SingletonRecord) l :
  (∀ x, generation (f x) = generation x) →
  DLStore.highest (f <$> l) = f <$> DLStore.highest l.
Proof.
  intros Hf. induction l as [|x l IH]; [done |]. rewrite fmap_cons. simpl. rewrite IH.
  destruct (DLStore.highest l) as [r|]; simpl; [| done].
  rewrite !Hf. by case_bool_decide.
Qed.

Lemma get_latest_singleton_fmap (f : SingletonRecord → SingletonRecord) launcher t :
  (∀ x, generation (f x) = generation x) →
  (∀ x, launcher_id (f x) = launcher_id x) →
  DLStore.get_latest_singleton launcher false (f <$> t)
  = f <$> DLStore.get_latest_singleton launcher false t.
Proof.
  intros Hgen Hl. unfold DLStore.get_latest_singleton, DLStore.records_of.
  rewrite <-(highest_fmap f) by done. f_equal.
  rewrite !(filter_all (λ r, false = true → confirmed r = true)) by done.
  apply filter_fmap_agree. intros x. by rewrite Hl.
Qed.

Lemma get_latest_singleton_set_confirmed launcher cid h ts t :
  DLStore.get_latest_singleton launcher false (DLStore.set_confirmed cid h ts t)
  = (λ r, if decide (coin_id r = cid) then DLStore.confirm h ts r else r)
      <$> DLStore.get_latest_singleton launcher false t.
Proof.
  unfold DLStore.set_confirmed. apply get_latest_singleton_fmap; intros x; by case_decide.
Qed.

(** The record just added is the latest one when it is of a later
    generation than every other record of its launcher. *)
Lemma get_latest_singleton_added r t :
  (∀ x, x ∈ t → launcher_id x = launcher_id r → coin_id x ≠ coin_id r →
        (generation x < generation r)%Z) →
  DLStore.get_latest_singleton (launcher_id r) false (DLStore.add_singleton_record r t)
  = Some r.
Proof.
  intros Hmax.
  destruct (DLStore.get_latest_singleton _ _ _) as [r'|] eqn:Hlatest.
  - apply get_latest_singleton_Some in Hlatest as (Hin & Hl & Hge).
    apply elem_of_add_singleton_record in Hin as [-> | [Hin Hid]]; [done |].
    specialize (Hmax r' Hin Hl Hid).
    specialize (Hge r). rewrite elem_of_add_singleton_record in Hge.
    specialize (Hge (or_introl eq_refl) eq_refl). lia.
  - eapply get_latest_singleton_None in Hlatest; [done |].
    apply elem_of_add_singleton_record. by left.
Qed.

Lemma observed_height_pure launcher height :
  ∃ r, ∀ s, observed_height env launcher height s = (s, r).
Proof.
  unfold observed_height. destruct height as [h|]; [by exists (inr h) |].
  unfold_monad. destruct (get_launcher_coin_state env launcher) as [e|cs]; [by exists (inl e) |].
  destruct (spent_height cs) as [h|]; [by exists (inr h) | by exists (inl AssertionError)].
Qed.

(** X2. Processing a launcher spend a second time writes nothing: once
    [new_launcher_spend] has returned, the same call finds the spend
    already processed, logs that and returns, whichever of its branches
    the first call took. *)
Theorem new_launcher_spend_twice_is_once (launcher_spend : CoinSpend) (height : option Z)
    (s s1 : WalletState) :
  new_launcher_spend env launcher_spend height s = (s1, inr tt) →
  new_launcher_spend env launcher_spend height s1
  = (with_log (LogInfo "Spend of launcher has already been processed") s1, inr tt).
Proof.
  destruct (observed_height_pure (coin_name (coin launcher_spend)) height) as [rh Hheight].
  destruct rh as [e|h].
  { unfold new_launcher_spend. rewrite bind_run, Hheight. done. }
  destruct (launch_solution_to_singleton_info env (solution launcher_spend))
    as [e|[[[f a] r] i]] eqn:Hdecode.
  { unfold new_launcher_spend. rewrite bind_run, Hheight. rewrite bind_run. unfold lift at 1.
    by rewrite Hdecode. }
  rewrite !(new_launcher_spend_run _ _ _ _ _ _ _ _ (Hheight _) Hdecode). cbv zeta.
  destruct (DLStore.get_latest_singleton _ _ (singleton_records s)) as [record|] eqn:Hlatest.
  - destruct (bool_decide _ && negb _) eqn:Hpromote.
    + intros [= <-]. simpl. rewrite get_latest_singleton_set_confirmed, Hlatest. simpl.
      rewrite decide_True by done. simpl. by rewrite andb_false_r.
    + intros [= <-]. simpl. by rewrite Hlatest, Hpromote.
  - intros [= <-]. simpl.
    pose proof (get_latest_singleton_None _ _ Hlatest) as Hnone.
    pose proof (get_latest_singleton_added
                  (genesis_record env (coin_name (coin launcher_spend)) f a r i h)
                  (singleton_records s)) as Hadded.
    simpl in Hadded. rewrite Hadded.
    + simpl. by rewrite andb_false_r.
    + intros x Hx Hl. by apply Hnone in Hx.
Qed.

(** ** Creating a reporter *)

Lemma generate_new_reporter_inv initial_root fee s s' dl_record std_record launcher :
  generate_new_reporter env initial_root fee s = (s', inr (dl_record, std_record, launcher)) →
  ∃ coins launcher_parent tx sb,
    let inner_puzzle := get_new_puzzle env (derivation_index s) in
    let spend := launch_spend launcher_parent initial_root inner_puzzle in
    let full_spend := aggregate sb (mkSpendBundle [spend] []) in
    (0 ≤ fee + 1 < 2 ^ 64)%Z
    ∧ select_coins env (fee + 1) = Some coins
    ∧ head coins = Some launcher_parent
    ∧ std_generate_signed_transaction env
        (launch_request coins launcher_parent initial_root inner_puzzle fee)
      = inr (Some tx)
    ∧ spend_bundle tx = Some sb
    ∧ launcher = coin_name (coin spend)
    ∧ std_record = with_spend_bundle None tx
    ∧ spend_bundle dl_record = Some full_spend
    ∧ additions dl_record = bundle_additions env full_spend
    ∧ removals dl_record = bundle_removals full_spend
    ∧ fee_amount dl_record = fee ∧ tx_amount dl_record = 1%Z
    ∧ tx_confirmed dl_record = false
    ∧ s' = with_interest [(launcher, wallet_id env)] []
             (with_singleton_records
                (DLStore.add_singleton_record
                   (reporter_record launcher_parent initial_root inner_puzzle))
                (with_next_derivation s)).
Proof.
  unfold generate_new_reporter. rewrite bind_run. unfold lift at 1.
  destruct (uint64 (fee + 1)) as [e|wanted] eqn:Hwanted; [done |].
  apply uint_inv in Hwanted as [-> Hrange].
  destruct (select_coins env (fee + 1)) as [[|launcher_parent coins]|] eqn:Hcoins; try done.
  rewrite bind_run. unfold fresh_puzzle at 1. rewrite bind_run. unfold lift at 1.
  match goal with |- context [std_generate_signed_transaction env ?req] =>
    destruct (std_generate_signed_transaction env req) as [e|[tx|]] eqn:Htx
  end; try done.
  simpl. destruct (spend_bundle tx) as [sb|] eqn:Hsb; [| done]. simpl.
  rewrite bind_run. unfold lift at 1.
  destruct (compute_memos env _) as [e|tx_memos]; [done |].
  unfold_monad. intros [= <- <- <- <-].
  exists (launcher_parent :: coins), launcher_parent, tx, sb.
  split_and!; try done; lia.
Qed.

(** X3. What a successful [generate_new_reporter] leaves behind: the data
    layer transaction carries the funding spends followed by the spend of
    a launcher coin of amount 1 whose name is the launcher id returned; the
    standard transaction record has lost its bundle; the pending genesis
    record of that launcher, generation 0, is in the store and satisfies
    the derivation invariant; and [match_dl_launcher] recognises the
    launcher spend, answering with the inner puzzle hash of that record
    (the decoder reading a launcher solution back as written).  With no
    coins to select the call raises and the wallet state is untouched. *)
Theorem generate_new_reporter_launch_is_recognised (initial_root : bytes32) (fee : Z)
    (s s' : WalletState) (dl_record std_record : TransactionRecord) (launcher : bytes32) :
  decoder_inverts_encoder env →
  (generate_new_reporter env initial_root fee s = (s', inr (dl_record, std_record, launcher)) →
   ∃ sb funding launcher_cs record,
     spend_bundle dl_record = Some sb
     ∧ coin_spends sb = funding ++ [launcher_cs]
     ∧ spend_bundle std_record = None
     ∧ coin_name (coin launcher_cs) = launcher
     ∧ amount (coin launcher_cs) = 1%Z
     ∧ match_dl_launcher env launcher_cs = inr (true, Some (inner_puzzle_hash record))
     ∧ singleton_records s' = DLStore.add_singleton_record record (singleton_records s)
     ∧ launcher_id record = launcher ∧ root record = initial_root
     ∧ confirmed record = false ∧ generation record = 0%Z
     ∧ coin_id record
       = coin_name (mkCoin launcher
                      (host_fullpuz_hash (inner_puzzle_hash record) initial_root launcher) 1)
     ∧ derivation_invariant record
     ∧ (launcher, wallet_id env) ∈ interested_puzzle_hashes s')
  ∧ ((0 ≤ fee + 1 < 2 ^ 64)%Z → select_coins env (fee + 1) = None →
     generate_new_reporter env initial_root fee s = (s, inl (ValueError NotEnoughCoins))).
Proof.
  intros Hdecoder. split.
  - intros (coins & launcher_parent & tx & sb & _ & _ & _ & _ & Hsb & -> & -> & Hdl & _ & _
            & _ & _ & _ & ->)%generate_new_reporter_inv.
    set (inner_puzzle := get_new_puzzle env (derivation_index s)).
    exists (aggregate sb (mkSpendBundle [launch_spend launcher_parent initial_root inner_puzzle] [])),
      (coin_spends sb), (launch_spend launcher_parent initial_root inner_puzzle),
      (reporter_record launcher_parent initial_root inner_puzzle).
    split_and!; try done.
    + unfold match_dl_launcher. simpl. rewrite Hdecoder.
      rewrite bool_decide_eq_false_2 by (intros Hne; by apply Hne). done.
    + simpl. apply elem_of_app. right. apply list_elem_of_here.
  - intros Hrange Hnone. unfold generate_new_reporter. rewrite bind_run. unfold lift at 1.
    unfold uint64, uint. rewrite bool_decide_eq_true_2 by done. by rewrite Hnone.
Qed.

Lemma records_of_add_fresh r t :
  (∀ x, x ∈ t → launcher_id x ≠ launcher_id r) →
  DLStore.records_of (launcher_id r) (DLStore.add_singleton_record r t) = [r].
Proof.
  intros Hfresh. unfold DLStore.records_of, DLStore.add_singleton_record.
  rewrite filter_app, filter_none, filter_all; [done | |].
  - by intros x ->%list_elem_of_singleton.
  - intros x [Hx _]%elem_of_delete_singleton_record. by apply Hfresh.
Qed.

Lemma records_of_set_confirmed launcher cid h ts t :
  DLStore.records_of launcher (DLStore.set_confirmed cid h ts t)
  = DLStore.set_confirmed cid h ts (DLStore.records_of launcher t).
Proof.
  unfold DLStore.records_of, DLStore.set_confirmed. apply filter_fmap_agree.
  intros x. by case_decide.
Qed.

Lemma get_spendable_singleton_info_genesis launcher s record launcher_coin a :
  DLStore.get_latest_singleton launcher false (singleton_records s) = Some record →
  confirmed record = true →
  parent_name (lineage_proof record) = Some launcher →
  lp_amount (lineage_proof record) = Some a →
  launchers s !! launcher = Some launcher_coin →
  (0 ≤ amount launcher_coin < 2 ^ 64)%Z →
  succeeds (result_of (get_spendable_singleton_info launcher) s)
  ∧ (DLStore.get_singleton_record launcher (singleton_records s) = None →
     get_spendable_singleton_info launcher s
     = (s, inr (record,
                mkLineageProof (Some (parent_coin_info launcher_coin)) None
                  (Some (amount launcher_coin))))).
Proof.
  intros Hlatest Hconf Hparent Hamt Hcoin Hrange.
  assert (∀ parent_record,
    DLStore.get_singleton_record launcher (singleton_records s) = parent_record →
    get_spendable_singleton_info launcher s
    = (s, inr (record,
               match parent_record with
               | Some p => lineage_proof p
               | None => mkLineageProof (Some (parent_coin_info launcher_coin)) None
                           (Some (amount launcher_coin))
               end))) as Hrun.
  { intros parent_record Hp.
    unfold get_spendable_singleton_info. rewrite bind_run. unfold get_state at 1.
    rewrite Hlatest, Hconf. simpl. rewrite Hparent, Hamt, Hp.
    destruct parent_record; [done |].
    rewrite bool_decide_eq_false_2 by (intros Hne; by apply Hne).
    rewrite Hcoin. unfold_monad. unfold uint64, uint.
    by rewrite bool_decide_eq_true_2 by done. }
  split.
  - unfold result_of. by rewrite (Hrun _ eq_refl).
  - intros Hnone. by rewrite (Hrun _ Hnone).
Qed.

(** X4. A reporter created by this wallet becomes spendable once its
    launcher spend is processed.  For a launcher the store held no record
    of: [new_launcher_spend], given the launcher spend that
    [generate_new_reporter] authored, promotes the pending genesis record
    instead of inserting a second one, stores the launcher coin, and
    [get_spendable_singleton_info] then answers with that record, whose
    parent lineage is made of the launcher coin when no record is stored
    under the launcher id. *)
Theorem reporter_is_spendable_after_its_launcher_spend (initial_root : bytes32) (fee h : Z)
    (s s1 : WalletState) (dl_record std_record : TransactionRecord) (launcher : bytes32)
    (sb : SpendBundle) (launcher_cs : CoinSpend) :
  decoder_inverts_encoder env →
  (∀ r, r ∈ singleton_records s → launcher_id r ≠ launcher) →
  generate_new_reporter env initial_root fee s = (s1, inr (dl_record, std_record, launcher)) →
  spend_bundle dl_record = Some sb →
  last (coin_spends sb) = Some launcher_cs →
  ∃ s2 record,
    new_launcher_spend env launcher_cs (Some h) s1 = (s2, inr tt)
    ∧ DLStore.records_of launcher (singleton_records s2) = [record]
    ∧ DLStore.get_latest_singleton launcher false (singleton_records s2) = Some record
    ∧ confirmed record = true ∧ confirmed_at_height record = h
    ∧ timestamp record = get_timestamp_for_height env h
    ∧ generation record = 0%Z ∧ root record = initial_root
    ∧ launchers s2 !! launcher = Some (coin launcher_cs)
    ∧ succeeds (result_of (get_spendable_singleton_info launcher) s2)
    ∧ (DLStore.get_singleton_record launcher (singleton_records s2) = None →
       get_spendable_singleton_info launcher s2
       = (s2, inr (record,
                   mkLineageProof (Some (parent_coin_info (coin launcher_cs))) None
                     (Some 1%Z)))).
Proof.
  intros Hdecoder Hfresh
    (coins & launcher_parent & tx & sb' & _ & _ & _ & _ & _ & -> & _ & Hdl & _ & _
     & _ & _ & _ & ->)%generate_new_reporter_inv.
  rewrite Hdl. intros [= <-]. simpl. rewrite last_snoc. intros [= <-].
  set (inner_puzzle := get_new_puzzle env (derivation_index s)).
  set (spend := launch_spend launcher_parent initial_root inner_puzzle) in *.
  set (pending := reporter_record launcher_parent initial_root inner_puzzle).
  set (launcher := coin_name (coin spend)) in *.
  assert (launcher_id pending = launcher) as Hpl by done.
  assert (DLStore.get_latest_singleton launcher false
            (DLStore.add_singleton_record pending (singleton_records s)) = Some pending)
    as Hlatest.
  { rewrite <-Hpl. apply get_latest_singleton_added. intros x Hx Hl. by apply Hfresh in Hx. }
  set (s1 := with_interest _ _ _).
  assert (observed_height env launcher (Some h) s1 = (s1, inr h)) as Hheight by done.
  pose proof (new_launcher_spend_run spend (Some h) s1 h _ _ _ _ Hheight (Hdecoder _ _ _ _))
    as Hrun.
  cbv zeta in Hrun. fold launcher in Hrun.
  change (singleton_records s1)
    with (DLStore.add_singleton_record pending (singleton_records s)) in Hrun.
  rewrite Hlatest in Hrun.
  rewrite bool_decide_eq_true_2 in Hrun by done. simpl in Hrun.
  set (ts := get_timestamp_for_height env h) in *.
  eexists _, (DLStore.confirm h ts pending). split; [exact Hrun |].
  assert (DLStore.records_of launcher
            (DLStore.set_confirmed (coin_id pending) h ts
               (DLStore.add_singleton_record pending (singleton_records s)))
          = [DLStore.confirm h ts pending]) as Hrecords.
  { rewrite records_of_set_confirmed. rewrite <-Hpl, records_of_add_fresh.
    - unfold DLStore.set_confirmed. simpl. by rewrite decide_True.
    - intros x Hx. by apply Hfresh in Hx. }
  assert (DLStore.get_latest_singleton launcher false
            (DLStore.set_confirmed (coin_id pending) h ts
               (DLStore.add_singleton_record pending (singleton_records s)))
          = Some (DLStore.confirm h ts pending)) as Hlatest2.
  { rewrite get_latest_singleton_set_confirmed, Hlatest. simpl. by rewrite decide_True. }
  assert ((0 ≤ amount (coin spend) < 2 ^ 64)%Z) as Hrange by (simpl; lia).
  destruct (get_spendable_singleton_info_genesis launcher
              (registered env (coin spend)
                 (mkCoin launcher
                    (host_fullpuz_hash (get_tree_hash inner_puzzle) initial_root launcher) 1) h
                 (with_singleton_records (DLStore.set_confirmed (coin_id pending) h ts) s1))
              (DLStore.confirm h ts pending) (coin spend) 1
              Hlatest2 eq_refl eq_refl eq_refl (lookup_insert_eq _ _ _) Hrange)
    as [Hsucceeds Hlineage].
  split; [exact Hrecords |]. split; [exact Hlatest2 |].
  split_and!; try done.
  simpl. apply lookup_insert_eq.
Qed.

(** ** Adopting a launcher *)

Lemma get_launcher_coin_state_inv launcher cs :
  get_launcher_coin_state env launcher = inr cs →
  head (get_coin_state env [launcher]) = Some cs
  ∧ puzzle_hash (cs_coin cs) = leaf_tree_hash SINGLETON_LAUNCHER
  ∧ is_Some (created_height cs) ∧ is_Some (spent_height cs).
Proof.
  unfold get_launcher_coin_state.
  destruct (get_coin_state env [launcher]) as [|cs' rest]; [done |].
  repeat case_bool_decide; try done. intros [= <-]. simpl in *.
  split_and!; [done | | |].
  - by destruct (decide (puzzle_hash (cs_coin cs') = leaf_tree_hash SINGLETON_LAUNCHER)).
  - by destruct (created_height cs').
  - by destruct (spent_height cs').
Qed.

(** X5. The request for the launcher spend survives the action queue.  For
    a launcher that is not stored and for which no spend of that very coin
    is supplied, [track_new_launcher_id] asks the chain for the launcher
    coin: when the chain has no spent launcher coin the call raises and the
    wallet state is untouched; otherwise it files one action and writes
    nothing.  The action names the callback, the launcher id and the height
    at which the launcher was spent, and when the answer arrives
    [new_launcher_spend_response] processes, at the height of the answer,
    the spend of exactly the coin the chain reported (its parent, puzzle
    hash and amount rebuilt from the strings of the action), provided the
    codecs give back what they encode and the coin is well-formed. *)
Theorem launcher_request_survives_the_action_queue (codec : Codec) (launcher : bytes32)
    (spend : option CoinSpend) (height : option Z) (s : WalletState) :
  codec_round_trips codec →
  launchers s !! launcher = None →
  (∀ sp, spend = Some sp → coin_name (coin sp) ≠ launcher) →
  (∀ e, get_launcher_coin_state env launcher = inl e →
        track_new_launcher_id env codec launcher spend height s = (s, inl e))
  ∧ (∀ cs, get_launcher_coin_state env launcher = inr cs →
       ∃ action h,
         track_new_launcher_id env codec launcher spend height s = (s, inr (Some action))
         ∧ act_callback action = "new_launcher_spend_response"
         ∧ act_wallet_id action = wallet_id env
         ∧ act_done action = false
         ∧ act_coin_name (act_data action) = launcher
         ∧ spent_height cs = Some h
         ∧ act_height (act_data action) = Some h
         ∧ (String.length (parent_coin_info (cs_coin cs)) = 32%nat →
            String.length (puzzle_hash (cs_coin cs)) = 32%nat →
            (0 ≤ amount (cs_coin cs) < 2 ^ 64)%Z →
            ∀ response s',
              new_launcher_spend_response env codec (Some action) response s'
              = new_launcher_spend env
                  (mkCoinSpend (cs_coin cs) (psr_puzzle response) (psr_solution response))
                  (Some (psr_height response)) s')).
Proof.
  intros [Hhex Hint] Hunknown Hspend.
  assert (track_new_launcher_id env codec launcher spend height s
          = request_puzzle_solution env codec launcher s) as ->.
  { unfold track_new_launcher_id. rewrite bind_run. unfold get_state at 1.
    unfold LauncherStore.get_launcher. rewrite Hunknown.
    rewrite bool_decide_eq_false_2 by (intros Hne; by apply Hne).
    destruct spend as [sp|]; [| done].
    by rewrite bool_decide_eq_false_2 by by apply Hspend. }
  unfold request_puzzle_solution. rewrite bind_run. unfold lift at 1.
  split.
  - by intros e ->.
  - intros cs Hcs. rewrite Hcs.
    apply get_launcher_coin_state_inv in Hcs as (_ & _ & _ & [h Hh]).
    eexists _, h. split; [reflexivity |]. split_and!; try done.
    intros Hparent Hph Hamt response s'.
    unfold new_launcher_spend_response. simpl.
    rewrite bind_run. unfold lift at 1. rewrite Hhex. unfold to_bytes32.
    rewrite bool_decide_eq_true_2 by done.
    rewrite bind_run. unfold lift at 1. rewrite Hhex. unfold to_bytes32.
    rewrite bool_decide_eq_true_2 by done.
    rewrite bind_run. unfold lift at 1. rewrite Hint. simpl.
    unfold uint64, uint. rewrite bool_decide_eq_true_2 by done.
    by destruct (cs_coin cs).
Qed.

(** X6. Adopting a launcher twice is adopting it once.  A stored launcher
    makes [track_new_launcher_id] log and return; a supplied spend of the
    launcher coin itself is processed as [new_launcher_spend] processes it;
    and when the wallet held nothing of the launcher, a successful call
    with such a spend stores the launcher coin and the confirmed genesis
    record, after which the same call only logs. *)
Theorem track_new_launcher_id_twice_is_once (codec : Codec) (launcher : bytes32)
    (sp : CoinSpend) (height : option Z) (s : WalletState) :
  let already := with_log (LogInfo "Spend of launcher has already been processed") in
  (∀ spend, launchers s !! launcher ≠ None →
     track_new_launcher_id env codec launcher spend height s = (already s, inr None))
  ∧ (launchers s !! launcher = None → coin_name (coin sp) = launcher →
     state_after (track_new_launcher_id env codec launcher (Some sp) height) s
     = state_after (new_launcher_spend env sp height) s
     ∧ result_of (track_new_launcher_id env codec launcher (Some sp) height) s
       = match result_of (new_launcher_spend env sp height) s with
         | inr _ => inr None
         | inl e => inl e
         end)
  ∧ (launchers s !! launcher = None → coin_name (coin sp) = launcher →
     DLStore.get_latest_singleton launcher false (singleton_records s) = None →
     ∀ s1, track_new_launcher_id env codec launcher (Some sp) height s = (s1, inr None) →
       launchers s1 !! launcher = Some (coin sp)
       ∧ (∃ genesis, DLStore.records_of launcher (singleton_records s1) = [genesis]
                     ∧ confirmed genesis = true ∧ generation genesis = 0%Z)
       ∧ track_new_launcher_id env codec launcher (Some sp) height s1
         = (already s1, inr None)).
Proof.
  intros already.
  assert (∀ s spend, launchers s !! launcher ≠ None →
     track_new_launcher_id env codec launcher spend height s = (already s, inr None))
    as Hknown.
  { intros s0 spend Hk. unfold track_new_launcher_id. rewrite bind_run. unfold get_state at 1.
    unfold LauncherStore.get_launcher. by rewrite bool_decide_eq_true_2. }
  assert (launchers s !! launcher = None → coin_name (coin sp) = launcher →
          track_new_launcher_id env codec launcher (Some sp) height s
          = match new_launcher_spend env sp height s with
            | (s', inr _) => (s', inr None)
            | (s', inl e) => (s', inl e)
            end) as Hspend.
  { intros Hunknown Hname. unfold track_new_launcher_id. rewrite bind_run.
    unfold get_state at 1. unfold LauncherStore.get_launcher. rewrite Hunknown.
    rewrite bool_decide_eq_false_2 by (intros Hne; by apply Hne).
    rewrite bool_decide_eq_true_2 by done. rewrite bind_run.
    by destruct (new_launcher_spend env sp height s) as [s' [e|[]]]. }
  split_and!.
  - intros spend. apply Hknown.
  - intros Hunknown Hname. unfold state_after, result_of. rewrite (Hspend Hunknown Hname).
    by destruct (new_launcher_spend env sp height s) as [s' [e|[]]].
  - intros Hunknown Hname Hnone s1. rewrite (Hspend Hunknown Hname).
    destruct (new_launcher_spend env sp height s) as [s' [e|[]]] eqn:Hrun; [done |].
    intros [= <-].
    destruct (observed_height_pure (coin_name (coin sp)) height) as [[e|h] Hheight].
    { unfold new_launcher_spend in Hrun. rewrite bind_run, Hheight in Hrun. done. }
    destruct (launch_solution_to_singleton_info env (solution sp))
      as [e|[[[f a] r] i]] eqn:Hdecode.
    { unfold new_launcher_spend in Hrun. rewrite bind_run, Hheight in Hrun.
      rewrite bind_run in Hrun. unfold lift at 1 in Hrun. by rewrite Hdecode in Hrun. }
    rewrite (new_launcher_spend_run _ _ _ _ _ _ _ _ (Hheight _) Hdecode) in Hrun.
    cbv zeta in Hrun. rewrite Hname, Hnone in Hrun. injection Hrun as <-.
    assert (launchers
              (registered env (coin sp) (mkCoin launcher f a) h
                 (with_singleton_records
                    (DLStore.add_singleton_record (genesis_record env launcher f a r i h)) s))
            !! launcher = Some (coin sp)) as Hrow.
    { simpl. rewrite Hname. apply lookup_insert_eq. }
    split_and!; [exact Hrow | |].
    + exists (genesis_record env launcher f a r i h). split; [| done].
      apply (records_of_add_fresh (genesis_record env launcher f a r i h)).
      intros x Hx. by eapply get_latest_singleton_None.
    + apply Hknown. by rewrite Hrow.
Qed.

(** ** What the wallet owns *)

Lemma get_owned_singletons_run s :
  get_owned_singletons env s
  = (s, inr (omap (owned_latest env (singleton_records s))
               (LauncherStore.get_all_launchers (launchers s)))).
Proof.
  unfold get_owned_singletons. rewrite bind_run. unfold get_state at 1.
  generalize (LauncherStore.get_all_launchers (launchers s)). intros l.
  match goal with |- fold_m ?body l [] s = _ =>
    assert (∀ collected,
      fold_m body l collected s
      = (s, inr (collected ++ omap (owned_latest env (singleton_records s)) l))) as Hloop
  end.
  { induction l as [|x l IH]; intros collected.
    - simpl. by rewrite app_nil_r.
    - cbn [fold_m]. rewrite bind_run, bind_run. unfold get_state at 1.
      cbn [omap list_omap]. unfold owned_latest at 1.
      destruct (DLStore.get_latest_singleton x false (singleton_records s)) as [r|]; simpl;
        [| apply IH].
      destruct (get_derivation_record_for_puzzle_hash env (inner_puzzle_hash r)); simpl;
        [| apply IH].
      unfold mret at 1, M_ret. rewrite IH. by rewrite <-app_assoc. }
  apply Hloop.
Qed.

Lemma NoDup_omap_owned (t : list SingletonRecord) (l : list bytes32) :
  NoDup l → NoDup (omap (owned_latest env t) l).
Proof.
  induction 1 as [|x l Hx Hl IH]; [constructor |]. cbn [omap list_omap].
  destruct (owned_latest env t x) as [r|] eqn:Hr; [| done].
  constructor; [| done]. intros (y & Hy & Hr')%list_elem_of_omap.
  assert (∀ z r, owned_latest env t z = Some r → launcher_id r = z) as Hlauncher.
  { intros z r0. unfold owned_latest.
    destruct (DLStore.get_latest_singleton z false t) as [r1|] eqn:Hlatest; [| done]. simpl.
    destruct (get_derivation_record_for_puzzle_hash _ _); [| done]. simpl. intros [= <-].
    by apply get_latest_singleton_Some in Hlatest as (_ & ? & _). }
  apply Hlauncher in Hr, Hr'. congruence.
Qed.

(** X7. [get_owned_singletons] reads and writes nothing else: it returns,
    once each, exactly the records that are the latest record of a stored
    launcher and whose inner puzzle hash has a derivation record.  A
    launcher row without any record is skipped, and a pending latest
    record counts as owned. *)
Theorem get_owned_singletons_are_the_owned_latest_records (s : WalletState) :
  ∃ owned,
    get_owned_singletons env s = (s, inr owned)
    ∧ NoDup owned
    ∧ ∀ r, r ∈ owned
        ↔ ∃ launcher,
            is_Some (launchers s !! launcher)
            ∧ DLStore.get_latest_singleton launcher false (singleton_records s) = Some r
            ∧ is_Some (get_derivation_record_for_puzzle_hash env (inner_puzzle_hash r)).
Proof.
  eexists. split; [apply get_owned_singletons_run |]. split.
  - apply NoDup_omap_owned. apply NoDup_fst_map_to_list.
  - intros r. rewrite list_elem_of_omap. unfold LauncherStore.get_all_launchers.
    split.
    + intros (launcher & Hin & Howned). exists launcher.
      apply list_elem_of_fmap in Hin as ([l c] & -> & Hin%elem_of_map_to_list).
      unfold owned_latest in Howned. simpl in *.
      destruct (DLStore.get_latest_singleton l false _) as [r'|]; [| done]. simpl in Howned.
      destruct (get_derivation_record_for_puzzle_hash env _) eqn:Hpk; [| done].
      simpl in Howned. injection Howned as ->. by rewrite Hpk.
    + intros (launcher & [c Hc] & Hlatest & [pk Hpk]). exists launcher. split.
      * apply list_elem_of_fmap. exists (launcher, c). split; [done |].
        by apply elem_of_map_to_list.
      * unfold owned_latest. rewrite Hlatest. simpl. by rewrite Hpk.
Qed.

(** ** Stopping *)

(** The ways sync runs. *)
Lemma singleton_removed_run parent_spend height s :
  singleton_removed env parent_spend height s =
    if match_dl_singleton env (puzzle_reveal parent_spend) then
      let seen := with_log (LogInfo "DL singleton removed") s in
      let parent := coin_name (coin parent_spend) in
      match DLStore.get_singleton_record parent (singleton_records s) with
      | None =>
          (with_log (LogWarning "DL wallet received coin it does not have parent for" None)
             seen, inr tt)
      | Some parent_record =>
          match scan env parent_spend with
          | inl e => (seen, inl e)
          | inr BadHint =>
              (with_log (LogWarning "Parent did not hint its child properly" None) seen, inr tt)
          | inr Melted => (with_log (LogWarning "Singleton was melted" None) seen, inr tt)
          | inr (Successor fph amt new_root new_ph) =>
              match uint32 (generation parent_record + 1) with
              | inl e => (seen, inl e)
              | inr _ =>
                  potentially_handle_resubmit env (launcher_id parent_record)
                    (with_successor env
                       (confirmed_successor env parent_record parent fph amt new_root new_ph
                          height)
                       (mkCoin parent fph amt) height s)
              end
          end
      end
    else (s, inr tt).
Proof.
  unfold singleton_removed. destruct (match_dl_singleton env _); [| done].
  rewrite bind_run. unfold log_info, modify at 1. rewrite bind_run. unfold get_state at 1.
  cbv zeta. cbn [singleton_records with_log].
  destruct (DLStore.get_singleton_record _ _) as [parent_record|]; [| done].
  rewrite bind_run. unfold lift at 1. unfold scan.
  destruct (run_with_cost env _ _ ≫= py_iter) as [e|conditions]; [done |].
  rewrite bind_run. unfold lift at 1. cbn [mbind exn_bind].
  destruct (find_successor conditions) as [e|[fph amt new_root new_ph| |]]; try done.
  rewrite bind_run. unfold lift at 1.
  destruct (uint32 _) as [e|gen] eqn:Hgen; [done |].
  apply uint_inv in Hgen as [-> _]. done.
Qed.

Lemma singleton_removed_untracked parent_spend height s :
  DLStore.get_singleton_record (coin_name (coin parent_spend)) (singleton_records s) = None →
  singleton_records (state_after (singleton_removed env parent_spend height) s)
  = singleton_records s
  ∧ result_of (singleton_removed env parent_spend height) s = inr tt.
Proof.
  intros Hnone. unfold state_after, result_of. rewrite singleton_removed_run.
  destruct (match_dl_singleton env _); [| done]. cbv zeta. by rewrite Hnone.
Qed.

(** X8. [stop_tracking_singleton] forgets one launcher and nothing else.
    Afterwards the launcher has no record and no launcher row, so authoring
    for it raises the "not tracked" error and a later spend of one of its
    coins is ignored by sync; the records and the launcher row of every
    other launcher are what they were; and the transaction store, the
    interest lists and the coin store are not touched: transactions that
    were pending for the singleton stay queued. *)
Theorem stop_tracking_singleton_forgets_one_launcher (launcher : bytes32) (s : WalletState) :
  let s' := state_after (stop_tracking_singleton launcher) s in
  stop_tracking_singleton launcher s = (s', inr tt)
  ∧ DLStore.records_of launcher (singleton_records s') = []
  ∧ launchers s' !! launcher = None
  ∧ (∀ only_confirmed,
       DLStore.get_latest_singleton launcher only_confirmed (singleton_records s') = None)
  ∧ (∀ root_hash new_puz_hash new_amount fee coin_announcements puzzle_announcements
       sign add_pending announce,
       create_update_state_spend env launcher root_hash new_puz_hash new_amount fee
         coin_announcements puzzle_announcements sign add_pending announce s'
       = (s', inl (ValueError NotTracked)))
  ∧ (∀ parent_spend height,
       (∀ r, r ∈ singleton_records s → coin_id r = coin_name (coin parent_spend) →
             launcher_id r = launcher) →
       singleton_records (state_after (singleton_removed env parent_spend height) s')
       = singleton_records s'
       ∧ result_of (singleton_removed env parent_spend height) s' = inr tt)
  ∧ (∀ other, other ≠ launcher →
       DLStore.records_of other (singleton_records s')
       = DLStore.records_of other (singleton_records s)
       ∧ launchers s' !! other = launchers s !! other)
  ∧ transactions s' = transactions s
  ∧ interested_puzzle_hashes s' = interested_puzzle_hashes s
  ∧ interested_coin_ids s' = interested_coin_ids s
  ∧ coin_records s' = coin_records s.
Proof.
  intros s'. subst s'. unfold state_after, stop_tracking_singleton. unfold_monad. simpl.
  set (t := LauncherStore.delete_singleton_records_by_launcher_id launcher (singleton_records s)).
  assert (DLStore.records_of launcher t = []) as Hnone.
  { unfold DLStore.records_of, t, LauncherStore.delete_singleton_records_by_launcher_id.
    apply filter_none. by intros x [Hx _]%list_elem_of_filter. }
  assert (∀ only_confirmed, DLStore.get_latest_singleton launcher only_confirmed t = None)
    as Hlatest.
  { intros oc. unfold DLStore.get_latest_singleton. by rewrite Hnone. }
  split_and!; try done.
  - apply lookup_delete_eq.
  - intros. unfold create_update_state_spend, get_spendable_singleton_info.
    rewrite !bind_run. unfold get_state at 1. simpl. fold t. by rewrite Hlatest.
  - intros parent_spend height Hcoin. apply singleton_removed_untracked. simpl. fold t.
    unfold DLStore.get_singleton_record. rewrite filter_none; [done |].
    intros x [Hl Hx]%list_elem_of_filter Hid. apply Hl. by apply Hcoin.
  - intros other Hother. split.
    + unfold DLStore.records_of, t, LauncherStore.delete_singleton_records_by_launcher_id.
      rewrite list_filter_filter. apply filter_agree. intros x _. split; [tauto |].
      intros Hx. split; [done | congruence].
    + simpl. unfold LauncherStore.delete_launcher. by apply lookup_delete_ne.
Qed.

(** ** Authoring, once more *)

Lemma get_spendable_singleton_info_reads launcher s s' res :
  singleton_records s' = singleton_records s → launchers s' = launchers s →
  get_spendable_singleton_info launcher s = (s, res) →
  get_spendable_singleton_info launcher s' = (s', res).
Proof.
  intros Hr Hl. unfold get_spendable_singleton_info. unfold_monad. rewrite Hr, Hl.
  repeat case_match; intros; by simplify_eq.
Qed.

(** X9. Updates cannot be stacked.  When [create_update_state_spend] has
    inserted its pending records, the latest record of the launcher is one
    of them: unconfirmed, of a later generation than the record that was
    spent and carrying the new root; every further authoring call for
    that launcher raises the "currently pending" error and changes
    nothing.  When it was asked not to insert them, the singleton table
    and the launcher rows are what they were and the record stays
    spendable. *)
Theorem pending_update_blocks_further_authoring
    (launcher : bytes32) (root_hash new_puz_hash : option bytes32) (new_amount : option Z)
    (fee : Z) (coin_announcements : option (list Announcement))
    (puzzle_announcements : option nat) (sign add_pending announce : bool)
    (s s' : WalletState) (txs : list TransactionRecord) :
  create_update_state_spend env launcher root_hash new_puz_hash new_amount fee
    coin_announcements puzzle_announcements sign add_pending announce s = (s', inr txs) →
  ∃ latest parent_lineage,
    get_spendable_singleton_info launcher s = (s, inr (latest, parent_lineage))
    ∧ (add_pending = true →
       (∃ pending,
          DLStore.get_latest_singleton launcher false (singleton_records s') = Some pending
          ∧ confirmed pending = false
          ∧ (generation latest < generation pending)%Z
          ∧ root pending = default (root latest) root_hash)
       ∧ ∀ root_hash' new_puz_hash' new_amount' fee' coin_announcements'
           puzzle_announcements' sign' add_pending' announce',
           create_update_state_spend env launcher root_hash' new_puz_hash' new_amount' fee'
             coin_announcements' puzzle_announcements' sign' add_pending' announce' s'
           = (s', inl (ValueError Pending)))
    ∧ (add_pending = false →
       singleton_records s' = singleton_records s
       ∧ launchers s' = launchers s
       ∧ get_spendable_singleton_info launcher s' = (s', inr (latest, parent_lineage))).
Proof.
  intros Hrun.
  apply create_update_state_spend_inv in Hrun
    as ((_ & Hlaunchers & _) & latest & pl & pk & parent & amt & asserted & sig & Hinfo & _
        & _ & _ & _ & _ & _ & _ & Hrecords).
  exists latest, pl. split; [exact Hinfo |].
  pose proof Hinfo as Hinfo'.
  apply get_spendable_singleton_info_inv in Hinfo' as [_ Hinfo'].
  destruct (Hinfo' _ _ eq_refl) as (Hlatest & Hconf & _). clear Hinfo'.
  pose proof Hlatest as (Hin & Hlauncher & Hmax)%get_latest_singleton_Some.
  set (new_root := default (root latest) root_hash) in *.
  set (new_ph := default (get_tree_hash (get_new_puzzle env (derivation_index s)))
                   new_puz_hash) in *.
  set (cur := current_coin launcher latest pk parent amt) in *.
  split.
  - intros ->.
    assert (∃ pending,
      DLStore.get_latest_singleton launcher false (singleton_records s') = Some pending
      ∧ confirmed pending = false
      ∧ (generation latest < generation pending)%Z
      ∧ root pending = new_root) as (pending & Hpending & Hpc & Hpg & Hpr).
    { assert (∃ last_added, last_added ∈ singleton_records s'
                ∧ launcher_id last_added = launcher
                ∧ (generation latest < generation last_added)%Z)
        as (last_added & Hla & Hll & Hlg).
      { rewrite Hrecords. destruct announce; eexists;
          (split; [apply elem_of_add_singleton_record; by left |]); simpl; (split; [done | lia]). }
      destruct (DLStore.get_latest_singleton launcher false (singleton_records s'))
        as [pending|] eqn:Hp;
        [| by eapply get_latest_singleton_None in Hp].
      exists pending. split; [done |].
      apply get_latest_singleton_Some in Hp as (Hpin & Hpl & Hpmax).
      specialize (Hpmax _ Hla Hll).
      assert (pending ∈ singleton_records s → False) as Hnew.
      { intros Hold. specialize (Hmax _ Hold Hpl). lia. }
      rewrite Hrecords in Hpin. destruct announce.
      - apply elem_of_add_singleton_record in Hpin as [-> | [Hpin _]];
          [simpl; repeat split; try done; lia |].
        apply elem_of_add_singleton_record in Hpin as [-> | [Hpin _]];
          [simpl; repeat split; try done; lia | done].
      - apply elem_of_add_singleton_record in Hpin as [-> | [Hpin _]];
          [simpl; repeat split; try done; lia | done]. }
    split; [by exists pending |].
    intros. unfold create_update_state_spend, get_spendable_singleton_info.
    rewrite !bind_run. unfold get_state at 1. rewrite Hpending, Hpc. done.
  - intros ->. split_and!; [done | done |].
    by apply (get_spendable_singleton_info_reads launcher s s').
Qed.

(** ** Offering *)

Lemma get_singleton_record_unique r t :
  NoDup (coin_id <$> t) → r ∈ t → DLStore.get_singleton_record (coin_id r) t = Some r.
Proof.
  unfold DLStore.get_singleton_record. induction t as [|x t IH]; intros Hnd Hr.
  - by apply elem_of_nil in Hr.
  - rewrite fmap_cons in Hnd. apply NoDup_cons in Hnd as [Hx Hnd].
    apply elem_of_cons in Hr as [-> | Hr].
    + by rewrite filter_cons_True.
    + rewrite filter_cons_False; [by apply IH |].
      intros Heq. apply Hx. rewrite Heq. by apply list_elem_of_fmap_2.
Qed.

(** X10. The coin [get_coins_to_offer] returns is the coin of the latest
    record.  For a launcher without record it raises; for a latest record
    without parent name or amount the assertion fails; otherwise it
    returns one coin, whatever [amount] is asked for, and when the latest
    record satisfies the derivation invariant the name of that coin is the
    coin id of the record.  Handed back to [generate_signed_transaction],
    that coin selects the launcher it came from: with coin ids unique in
    the store, the call behaves as the one that names the launcher. *)
Theorem get_coins_to_offer_returns_the_latest_coin (launcher : bytes32) (amount : Z)
    (s : WalletState) :
  let latest := DLStore.get_latest_singleton launcher false (singleton_records s) in
  (latest = None → get_coins_to_offer launcher amount s = (s, inl unknown_launcher))
  ∧ (∀ record, latest = Some record →
       parent_name (lineage_proof record) = None ∨ lp_amount (lineage_proof record) = None →
       get_coins_to_offer launcher amount s = (s, inl AssertionError))
  ∧ (∀ record, latest = Some record → derivation_invariant record →
       ∃ c, get_coins_to_offer launcher amount s = (s, inr [c])
            ∧ coin_name c = coin_id record
            ∧ (NoDup (coin_id <$> singleton_records s) →
               ∀ amounts puzzle_hashes fee coin_announcements puzzle_announcements
                 launcher_arg new_root_hash sign add_pending announce,
                 generate_signed_transaction env amounts puzzle_hashes fee [c]
                   coin_announcements puzzle_announcements launcher_arg new_root_hash
                   sign add_pending announce s
                 = generate_signed_transaction env amounts puzzle_hashes fee []
                     coin_announcements puzzle_announcements (Some launcher) new_root_hash
                     sign add_pending announce s)).
Proof.
  intros latest. subst latest.
  assert (get_coins_to_offer launcher amount s
          = match DLStore.get_latest_singleton launcher false (singleton_records s) with
            | None => (s, inl unknown_launcher)
            | Some record =>
                match parent_name (lineage_proof record), lp_amount (lineage_proof record) with
                | Some parent, Some amt =>
                    (s, inr [mkCoin parent
                               (host_fullpuz_hash (inner_puzzle_hash record) (root record)
                                  launcher) amt])
                | _, _ => (s, inl AssertionError)
                end
            end) as ->.
  { unfold get_coins_to_offer. rewrite bind_run. unfold get_state at 1.
    by repeat case_match. }
  split_and!.
  - by intros ->.
  - intros record -> [Hp | Ha]; [by rewrite Hp |]. rewrite Ha.
    by destruct (parent_name (lineage_proof record)).
  - intros record Hlatest Hinv. rewrite Hlatest.
    apply get_latest_singleton_Some in Hlatest as (Hin & Hlauncher & _).
    unfold derivation_invariant in Hinv.
    destruct (parent_name (lineage_proof record)) as [parent|]; [| done].
    destruct (lp_amount (lineage_proof record)) as [amt|]; [| done].
    eexists. split; [reflexivity |].
    assert (coin_name
              (mkCoin parent
                 (host_fullpuz_hash (inner_puzzle_hash record) (root record) launcher) amt)
            = coin_id record) as Hname.
    { unfold coin_name. simpl. by rewrite Hinv, Hlauncher. }
    split; [exact Hname |].
    intros Hunique. intros. unfold generate_signed_transaction.
    rewrite !bind_run. unfold get_state at 1 2. rewrite Hname.
    rewrite (get_singleton_record_unique _ _ Hunique Hin). unfold launcher_of.
    by rewrite Hlauncher.
Qed.

(** ** Sending *)

(** X11. [generate_signed_transaction] sends one coin to one place.  With
    no coin and no launcher id it raises "not enough info"; with more than
    one coin "one DL coin at a time"; with one coin that has no record
    "not a tracked DL"; and once the launcher is settled, with anything but
    one amount and one puzzle hash "one place at a time".  The coin checks
    come first, and every one of these errors leaves the wallet state
    untouched.  Otherwise the call is [create_update_state_spend] for the
    settled launcher with that puzzle hash and amount; a coin that is given
    overrides a launcher id that is given. *)
Theorem generate_signed_transaction_sends_one_coin_to_one_place
    (amounts : list Z) (puzzle_hashes : list bytes32) (fee : Z) (coins : list Coin)
    (coin_announcements : option (list Announcement)) (puzzle_announcements : option nat)
    (launcher_arg new_root_hash : option bytes32) (sign add_pending announce : bool)
    (s : WalletState) :
  let call :=
    generate_signed_transaction env amounts puzzle_hashes fee coins coin_announcements
      puzzle_announcements launcher_arg new_root_hash sign add_pending announce s in
  (coins = [] → launcher_arg = None → call = (s, inl (ValueError UnknownDLCoin)))
  ∧ ((2 ≤ length coins)%nat → call = (s, inl (ValueError OneCoinAtATime)))
  ∧ (∀ c, coins = [c] →
       DLStore.get_singleton_record (coin_name c) (singleton_records s) = None →
       call = (s, inl (ValueError CoinNotTracked)))
  ∧ (∀ launcher, selected_launcher coins launcher_arg (singleton_records s) launcher →
       (length amounts ≠ 1%nat ∨ length puzzle_hashes ≠ 1%nat →
        call = (s, inl (ValueError OnePlaceAtATime)))
       ∧ (∀ a ph, amounts = [a] → puzzle_hashes = [ph] →
          call = create_update_state_spend env launcher new_root_hash (Some ph) (Some a) fee
                   coin_announcements puzzle_announcements sign add_pending announce s)).
Proof.
  intros call. subst call. unfold generate_signed_transaction. split_and!.
  - by intros -> ->.
  - intros Hlen. by destruct coins as [|c1 [|c2 rest]]; simpl in Hlen; try lia.
  - intros c -> Hnone. rewrite bind_run. unfold get_state at 1. rewrite bind_run.
    by rewrite Hnone.
  - intros launcher Hsel.
    split; [intros Hlen | intros a ph -> ->];
      rewrite bind_run; unfold get_state at 1; rewrite bind_run;
      match goal with |- context [match ?m s with _ => _ end] =>
        assert (m s = (s, inr launcher)) as ->
          by (destruct Hsel as [[-> ->] | (c & record & -> & Hrecord & <-)];
              [done | by rewrite Hrecord])
      end; [| reflexivity].
    destruct amounts as [|a [|a' amounts]], puzzle_hashes as [|ph [|ph' phs]];
      simpl in Hlen; try reflexivity; destruct Hlen; done.
Qed.

(** ** Sync, when no successor is found *)

(** X12. What the scan of sync makes of a malformed successor.  The
    conditions before it being none of a successor, a CREATE_COIN
    condition with an odd amount and a 32-byte puzzle hash is reported as
    "did not hint" when it has no memo list, an empty one (the empty atom)
    or one too short to hold the root or the inner puzzle hash; a hinted root that is not 32
    bytes long raises the size error of [bytes32], and so does a puzzle
    hash that is not 32 bytes long; a CREATE_COIN condition without amount
    raises [IndexError]: only the two memo lookups are guarded.  Whatever
    follows the condition is not looked at. *)
Theorem scan_reports_only_missing_memos (before rest more : list pyval)
    (fph ab : bytes) :
  Forall not_a_successor before →
  (int_from_bytes ab `mod` 2 = 1)%Z → (int_from_bytes ab < 2 ^ 64)%Z →
  String.length fph = 32%nat →
  find_successor (before ++ create_coin_condition fph ab [] :: rest) = inr BadHint
  ∧ find_successor
      (before ++ create_coin_condition fph ab (PBytes EmptyString :: more) :: rest)
    = inr BadHint
  ∧ (∀ m0, find_successor (before ++ create_coin_condition fph ab (PList [m0] :: more) :: rest)
           = inr BadHint)
  ∧ (∀ m0 r, String.length r = 32%nat →
       find_successor
         (before ++ create_coin_condition fph ab (PList [m0; PBytes r] :: more) :: rest)
       = inr BadHint)
  ∧ (∀ m0 r memos, String.length r ≠ 32%nat →
       find_successor
         (before ++ create_coin_condition fph ab (PList (m0 :: PBytes r :: memos) :: more)
            :: rest)
       = inl (ValueError BadSizedBytes))
  ∧ (∀ short hints, String.length short ≠ 32%nat →
       find_successor (before ++ create_coin_condition short ab hints :: rest)
       = inl (ValueError BadSizedBytes))
  ∧ (∀ ph, find_successor (before ++ PList [PBytes CREATE_COIN; ph] :: rest) = inl IndexError).
Proof.
  intros Hbefore Hodd Hrange Hfph. pose proof (int_from_bytes_nonneg ab).
  split_and!; intros; rewrite find_successor_skip_all by done; simpl;
    unfold mbind, exn_bind, py_bytes32, to_bytes32, uint64, uint; simpl;
    repeat (case_bool_decide; simpl; try done; try lia); reflexivity.
Qed.

(** X13. Sync stores nothing unless it finds a successor.  A spend whose
    puzzle is no data layer singleton is ignored altogether; for a coin
    without record, for a melt and for a successor that is not hinted, a
    warning is logged and the call returns; an exception of the evaluator
    or of the scan escapes [singleton_removed].  In all these cases every
    store of the wallet is what it was. *)
Theorem singleton_removed_stores_nothing_without_successor (parent_spend : CoinSpend)
    (height : Z) (s : WalletState) :
  let s' := state_after (singleton_removed env parent_spend height) s in
  let result := result_of (singleton_removed env parent_spend height) s in
  let tracked :=
    DLStore.get_singleton_record (coin_name (coin parent_spend)) (singleton_records s) in
  (match_dl_singleton env (puzzle_reveal parent_spend) = false → s' = s ∧ result = inr tt)
  ∧ (match_dl_singleton env (puzzle_reveal parent_spend) = true →
     (tracked = None → same_stores s s' ∧ result = inr tt)
     ∧ (tracked ≠ None →
        (∀ e, scan env parent_spend = inl e → same_stores s s' ∧ result = inl e)
        ∧ (scan env parent_spend = inr BadHint ∨ scan env parent_spend = inr Melted →
           same_stores s s' ∧ result = inr tt
           ∧ ∃ warning, last (log s') = Some (LogWarning warning None)))).
Proof.
  intros s' result tracked. subst s' result tracked. unfold state_after, result_of.
  rewrite singleton_removed_run. split.
  - by intros ->.
  - intros ->. cbv zeta. split.
    + intros ->. by repeat split.
    + intros Htracked.
      destruct (DLStore.get_singleton_record _ _) as [parent_record|]; [| done]. split.
      * intros e ->. by repeat split.
      * intros [-> | ->]; (split; [by repeat split |]); (split; [done |]);
          eexists; simpl; by rewrite last_snoc.
Qed.

(** ** The solution that is authored *)

Lemma UpdateRoot_not_in_make_solution r primaries announcements asserted_coin asserted_puzzle :
  UpdateRoot r ∉ make_solution primaries announcements asserted_coin asserted_puzzle.
Proof.
  unfold make_solution. rewrite !elem_of_app.
  intros [Hin | [Hin | [Hin | Hin]]]; apply list_elem_of_fmap in Hin as (x & Hx & _);
    [by destruct x as [[??]?] | done..].
Qed.

(** X14. The root is updated only when it changes.  In the inner solution
    of the spend [create_update_state_spend] authors, the root update
    condition (opcode -24) is present exactly when a root is asked for
    that differs from the root of the latest record; it then comes first
    and carries the new root.  The create-coin condition always carries
    the launcher id, the root in force after the spend and the new inner
    puzzle hash as memos, which is what sync reads back. *)
Theorem root_update_is_authored_iff_the_root_changes
    (launcher : bytes32) (root_hash new_puz_hash : option bytes32) (new_amount : option Z)
    (fee : Z) (coin_announcements : option (list Announcement))
    (puzzle_announcements : option nat) (sign add_pending announce : bool)
    (s s' : WalletState) (txs : list TransactionRecord) :
  create_update_state_spend env launcher root_hash new_puz_hash new_amount fee
    coin_announcements puzzle_announcements sign add_pending announce s = (s', inr txs) →
  ∃ latest dl_tx sb outer lineage amt conditions,
    DLStore.get_latest_singleton launcher false (singleton_records s) = Some latest
    ∧ head txs = Some dl_tx
    ∧ spend_bundle dl_tx = Some sb
    ∧ head (coin_spends sb) = Some outer
    ∧ solution outer = SingletonSolution lineage amt (Some conditions)
    ∧ (∀ r, UpdateRoot r ∈ conditions ↔ root_hash = Some r ∧ r ≠ root latest)
    ∧ (∀ r, UpdateRoot r ∈ conditions → head conditions = Some (UpdateRoot r))
    ∧ ∃ ph a, CreateCoin ph a
                [launcher; default (root latest) root_hash;
                 default (get_tree_hash (get_new_puzzle env (derivation_index s))) new_puz_hash]
              ∈ conditions.
Proof.
  intros Hrun.
  apply create_update_state_spend_inv in Hrun
    as (_ & latest & pl & pk & parent & amt & asserted & sig & Hinfo & _ & _ & _ & _ & _
        & _ & (populated & tx_memos & _ & _ & Htxs) & _).
  apply get_spendable_singleton_info_inv in Hinfo as [_ Hinfo].
  destruct (Hinfo _ _ eq_refl) as (Hlatest & _).
  set (new_root := default (root latest) root_hash) in *.
  set (new_ph := default (get_tree_hash (get_new_puzzle env (derivation_index s)))
                   new_puz_hash) in *.
  set (conditions := authored_conditions launcher new_root new_ph amt latest new_amount fee
                       announce coin_announcements asserted) in *.
  assert (∃ dl_tx sb outer,
            head txs = Some dl_tx ∧ spend_bundle dl_tx = Some sb
            ∧ head (coin_spends sb) = Some outer
            ∧ solution outer = SingletonSolution pl amt (Some conditions))
    as (dl_tx & sb & outer & Hhead & Hsb & Houter & Hsolution).
  { set (spent := mkCoinSpend (current_coin launcher latest pk parent amt)
                     (HostFullPuz (PuzzleForPk pk) (root latest) launcher)
                     (SingletonSolution pl amt (Some conditions))).
    case_bool_decide;
      [destruct Htxs as (chia_tx & chia_sb & funding_ph & _ & _ & ->) | subst txs];
      eexists _, _, spent;
      (split_and!; [reflexivity | reflexivity | by destruct announce | reflexivity]). }
  exists latest, dl_tx, sb, outer, pl, amt, conditions.
  split_and!; try done.
  - intros r. subst conditions. unfold authored_conditions.
    rewrite elem_of_app. split.
    + intros [Hin | Hin]; [| by apply UpdateRoot_not_in_make_solution in Hin].
      destruct (bool_decide (new_root ≠ root latest)) eqn:Hne;
        [| by apply elem_of_nil in Hin].
      apply bool_decide_eq_true in Hne.
      apply list_elem_of_singleton in Hin as [= ->]. subst new_root.
      destruct root_hash as [r'|]; [done |]. by simpl in Hne.
    + intros [-> Hne]. left. subst new_root. simpl.
      rewrite bool_decide_eq_true_2 by done. apply list_elem_of_here.
  - intros r. subst conditions. unfold authored_conditions.
    destruct (bool_decide (new_root ≠ root latest)); simpl.
    + intros [[= ->] | Hin]%elem_of_cons; [done |].
      by apply UpdateRoot_not_in_make_solution in Hin.
    + intros Hin. by apply UpdateRoot_not_in_make_solution in Hin.
  - subst conditions. unfold authored_conditions, make_solution. eexists _, _.
    apply elem_of_app. right. simpl. apply list_elem_of_here.
Qed.

(** ** When authoring succeeds *)

(** X15. What suffices for [create_update_state_spend] to return.  When the
    spendable information of the launcher resolves, the inner puzzle hash
    of the latest record has a derivation record, the next generation (the
    next two with the announce step) fits 32 bits and the amount 64 bits,
    the standard wallet finds the secret key of the current inner puzzle,
    the signer signs when asked to, the memos of a bundle can be computed,
    the standard wallet funds the fee when there is one, and a caller's
    announcement object is a list when it is appended to, the call returns
    its transactions. *)
Theorem create_update_state_spend_returns
    (launcher : bytes32) (root_hash new_puz_hash : option bytes32) (new_amount : option Z)
    (fee : Z) (coin_announcements : option (list Announcement))
    (puzzle_announcements : option nat) (sign add_pending announce : bool)
    (s : WalletState) (latest : SingletonRecord) (parent_lineage : LineageProof) (amt : Z)
    (pubkey : bytes) :
  get_spendable_singleton_info launcher s = (s, inr (latest, parent_lineage)) →
  get_derivation_record_for_puzzle_hash env (inner_puzzle_hash latest) = Some pubkey →
  lp_amount (lineage_proof latest) = Some amt →
  (0 ≤ amt < 2 ^ 64)%Z →
  (0 ≤ generation latest)%Z →
  (generation latest + (if announce then 2 else 1) < 2 ^ 32)%Z →
  key_is_populated env pubkey →
  (sign = true → signer_signs env) →
  memos_are_computed env →
  ((0 < fee)%Z → standard_wallet_funds env) →
  announcements_object_ready puzzle_announcements announce (heap s) →
  ∃ s' txs,
    create_update_state_spend env launcher root_hash new_puz_hash new_amount fee
      coin_announcements puzzle_announcements sign add_pending announce s = (s', inr txs).
Proof.
  intros Hinfo Hpk' Hamt Hrange Hgen0 Hgen [key Hkey] Hsign Hmemos Hfund Hobj.
  pose proof Hinfo as Hinfo'.
  apply get_spendable_singleton_info_inv in Hinfo' as [_ Hinfo'].
  destruct (Hinfo' _ _ eq_refl) as (_ & _ & [parent Hparent] & _). clear Hinfo'.
  rename pubkey into pk.
  unfold create_update_state_spend. rewrite bind_run, Hinfo. cbv beta iota zeta.
  rewrite Hpk'. rewrite bind_run.
  match goal with |- context [match ?m s with _ => _ end] =>
    assert (∃ s1 new_ph, m s = (s1, inr new_ph) ∧ heap s1 = heap s) as (s1 & new_ph & -> & Hh1)
  end.
  { destruct new_puz_hash; simpl; eexists _, _; by split. }
  rewrite Hparent, Hamt. rewrite bind_run. unfold lift at 1.
  unfold uint32 at 1, uint. rewrite bool_decide_eq_true_2 by (destruct announce; lia).
  rewrite bind_run.
  match goal with |- context [match ?m s1 with _ => _ end] =>
    assert (∃ s2 x, m s1 = (s2, inr x)) as (s2 & [[asserted rec] second] & ->)
  end.
  { destruct announce.
    - rewrite bind_run.
      match goal with |- context [match ?m s1 with _ => _ end] =>
        assert (∃ s2 items, m s1 = (s2, inr items)) as (s2 & items & ->)
      end.
      { destruct puzzle_announcements as [ref|]; [| by eexists _, _].
        destruct (Hobj ref eq_refl) as [items Hitems]. unfold append_announcement.
        rewrite Hh1, Hitems. by eexists _, _. }
      unfold_monad. unfold uint32, uint.
      rewrite !bool_decide_eq_true_2 by (simpl; lia). by eexists _, _.
    - rewrite bind_run.
      match goal with |- context [match ?m s1 with _ => _ end] =>
        assert (∃ items, m s1 = (s1, inr items)) as (items & ->)
      end.
      { destruct puzzle_announcements as [ref|]; [| by eexists].
        destruct (Hobj ref eq_refl) as [obj Hobj']. rewrite bind_run.
        unfold read_announcements. rewrite Hh1, Hobj'. destruct obj; by eexists. }
      unfold_monad. by eexists _, _. }
  cbv beta iota zeta. rewrite bind_run. unfold lift at 1.
  rewrite Hkey. rewrite bind_run.
  match goal with |- context [match ?m s2 with _ => _ end] =>
    assert (∃ sb, m s2 = (s2, inr sb)) as (sb & ->)
  end.
  { destruct sign; [| by eexists]. unfold sign_spend. unfold_monad.
    match goal with |- context [sign_coin_spends env ?cs] =>
      destruct (Hsign eq_refl cs) as [sig ->]
    end. by eexists. }
  rewrite bind_run. unfold lift at 1. unfold uint64 at 1, uint.
  rewrite bool_decide_eq_true_2 by done.
  rewrite bind_run. unfold lift at 1.
  match goal with |- context [compute_memos env ?b] =>
    destruct (Hmemos b) as [tx_memos ->]
  end.
  rewrite bind_run.
  match goal with |- context [match ?m s2 with _ => _ end] =>
    assert (∃ s3 txs, m s2 = (s3, inr txs)) as (s3 & txs & ->)
  end.
  { case_bool_decide as Hfee; [| by eexists _, _].
    rewrite bind_run. unfold create_tandem_xch_tx, fresh_puzzlehash.
    rewrite bind_run, bind_run. unfold lift at 1.
    match goal with |- context [std_generate_signed_transaction env ?req] =>
      destruct (Hfund Hfee req) as (tx & bundle & -> & Hbundle)
    end.
    rewrite Hbundle. unfold_monad. by eexists _, _. }
  rewrite bind_run.
  match goal with |- context [match ?m s3 with _ => _ end] =>
    assert (∃ s4, m s3 = (s4, inr tt)) as (s4 & ->)
  end.
  { destruct add_pending; [| by eexists]. destruct second; unfold_monad; by eexists. }
  unfold_monad. by eexists _, _.
Qed.

(** ** Fees *)

(** X16. How a fee is paid.  With a positive fee a successful
    [create_update_state_spend] returns two transactions.  The second is
    the answer of the standard wallet to a request for a transaction of
    amount zero paying that fee and asserting the coin announcement `$` of
    the very coin the first spend spends, and its bundle has been taken
    away; the first carries the singleton spends followed by the spends of
    the funding bundle, while its removals and additions are still those
    of the singleton spends alone; and the inner solution of the spent
    coin creates the coin announcement `$`. *)
Theorem fee_is_paid_by_a_transaction_bound_to_the_spend
    (launcher : bytes32) (root_hash new_puz_hash : option bytes32) (new_amount : option Z)
    (fee : Z) (coin_announcements : option (list Announcement))
    (puzzle_announcements : option nat) (sign add_pending announce : bool)
    (s s' : WalletState) (txs : list TransactionRecord) :
  (0 < fee)%Z →
  create_update_state_spend env launcher root_hash new_puz_hash new_amount fee
    coin_announcements puzzle_announcements sign add_pending announce s = (s', inr txs) →
  ∃ dl_tx chia_tx chia_sb own outer ph,
    txs = [dl_tx; with_spend_bundle None chia_tx]
    ∧ std_generate_signed_transaction env
        (mkStdTxRequest 0 ph fee None None
           (Some [mkAnnouncement (coin_name (coin outer)) dollar]) None)
      = inr (Some chia_tx)
    ∧ spend_bundle chia_tx = Some chia_sb
    ∧ spend_bundle dl_tx = Some (aggregate own chia_sb)
    ∧ head (coin_spends own) = Some outer
    ∧ length (coin_spends own) = (if announce then 2%nat else 1%nat)
    ∧ removals dl_tx = coin <$> coin_spends own
    ∧ additions dl_tx = bundle_additions env own
    ∧ fee_amount dl_tx = fee
    ∧ ∃ lineage amt conditions,
        solution outer = SingletonSolution lineage amt (Some conditions)
        ∧ CreateCoinAnnouncement dollar ∈ conditions.
Proof.
  intros Hfee Hrun.
  apply create_update_state_spend_inv in Hrun
    as (_ & latest & pl & pk & parent & amt & asserted & sig & _ & _ & _ & _ & _ & _ & _
        & (populated & tx_memos & _ & _ & Htxs) & _).
  rewrite bool_decide_eq_true_2 in Htxs by done.
  set (new_root := default (root latest) root_hash) in *.
  set (new_ph := default (get_tree_hash (get_new_puzzle env (derivation_index s)))
                   new_puz_hash) in *.
  set (cur := current_coin launcher latest pk parent amt) in *.
  set (outer := mkCoinSpend cur (HostFullPuz (PuzzleForPk pk) (root latest) launcher) _) in *.
  destruct Htxs as (chia_tx & chia_sb & funding_ph & Hrequest & Hbundle & ->).
  eexists _, chia_tx, chia_sb, _, outer, funding_ph.
  split_and!; [reflexivity | exact Hrequest | exact Hbundle | reflexivity | .. ].
  - by destruct announce.
  - by destruct announce.
  - reflexivity.
  - reflexivity.
  - reflexivity.
  - eexists _, _, _. split; [reflexivity |].
    unfold authored_conditions. rewrite (bool_decide_eq_true_2 (0 < fee)%Z) by done.
    assert (∀ primaries asserted_coin asserted_puzzle,
              CreateCoinAnnouncement dollar
              ∈ make_solution primaries (Some [dollar]) asserted_coin asserted_puzzle)
      as Hannounced.
    { intros. unfold make_solution. rewrite !elem_of_app. right. left.
      apply list_elem_of_here. }
    case_bool_decide; [apply list_elem_of_further |]; apply Hannounced.
Qed.

(** ** From authoring to sync *)

Lemma get_singleton_record_add_ne cid r t :
  cid ≠ coin_id r →
  DLStore.get_singleton_record cid (DLStore.add_singleton_record r t)
  = DLStore.get_singleton_record cid t.
Proof.
  intros Hne. unfold DLStore.get_singleton_record, DLStore.add_singleton_record,
    DLStore.delete_singleton_record.
  rewrite filter_app, list_filter_filter.
  rewrite (filter_none _ [r]) by (intros x ->%list_elem_of_singleton; congruence).
  rewrite app_nil_r. f_equal. apply filter_agree. intros x _. split; [tauto |].
  intros Hx. split; [done | congruence].
Qed.

Lemma potentially_handle_resubmit_nothing_pending launcher s :
  DLStore.get_unconfirmed_singletons launcher (singleton_records s) = [] →
  potentially_handle_resubmit env launcher s = (s, inr tt).
Proof.
  intros Hnone. rewrite potentially_handle_resubmit_run. unfold pending_of.
  by rewrite Hnone.
Qed.

(** X17. The spend the wallet authors confirms the record the wallet
    queued.  Take a store with unique coin ids in which the latest record
    of the launcher satisfies the derivation invariant and nothing is
    pending, and a successful [create_update_state_spend] without the
    announce step that inserts its pending record and keeps the amount.
    When the evaluator reports, for the authored spend, the successor its
    solution creates (the full puzzle hash of the new inner puzzle hash and
    root, the amount, and both as hints), [singleton_removed] on that
    spend returns, and
    afterwards the latest record of the launcher is confirmed at the given
    height, one generation after the record that was spent, with the root
    and the inner puzzle hash that were authored and the coin id of the
    pending record, which it has replaced: nothing is pending any more. *)
Theorem authored_spend_confirms_its_pending_record
    (launcher : bytes32) (root_hash : option bytes32) (new_ph : bytes32)
    (new_amount : option Z) (fee : Z) (coin_announcements : option (list Announcement))
    (puzzle_announcements : option nat) (sign : bool) (height : Z)
    (s s' : WalletState) (txs : list TransactionRecord)
    (latest : SingletonRecord) (amt : Z) (dl_tx : TransactionRecord) (sb : SpendBundle)
    (outer : CoinSpend) :
  let new_root := default (root latest) root_hash in
  let successor_id :=
    coin_hash (coin_id latest) (host_fullpuz_hash new_ph new_root launcher) amt in
  keys_consistent env →
  NoDup (coin_id <$> singleton_records s) →
  DLStore.get_unconfirmed_singletons launcher (singleton_records s) = [] →
  DLStore.get_latest_singleton launcher false (singleton_records s) = Some latest →
  derivation_invariant latest →
  lp_amount (lineage_proof latest) = Some amt →
  default amt new_amount = amt →
  (∀ r, r ∈ singleton_records s → coin_id r ≠ successor_id) →
  create_update_state_spend env launcher root_hash (Some new_ph) new_amount fee
    coin_announcements puzzle_announcements sign true false s = (s', inr txs) →
  head txs = Some dl_tx → spend_bundle dl_tx = Some sb → head (coin_spends sb) = Some outer →
  match_dl_singleton env (puzzle_reveal outer) = true →
  scan env outer
  = inr (Successor (host_fullpuz_hash new_ph new_root launcher) (default amt new_amount)
           new_root new_ph) →
  ∃ pending s'' successor,
    DLStore.get_latest_singleton launcher false (singleton_records s') = Some pending
    ∧ confirmed pending = false
    ∧ singleton_removed env outer height s' = (s'', inr tt)
    ∧ DLStore.get_latest_singleton launcher false (singleton_records s'') = Some successor
    ∧ coin_id successor = coin_id pending
    ∧ confirmed successor = true
    ∧ confirmed_at_height successor = height
    ∧ generation successor = (generation latest + 1)%Z
    ∧ root successor = new_root
    ∧ inner_puzzle_hash successor = new_ph
    ∧ parent_name (lineage_proof successor) = Some (coin_id latest)
    ∧ DLStore.get_unconfirmed_singletons launcher (singleton_records s'') = [].
Proof.
  intros new_root successor_id Hkeys Hunique Hnone Hlatest Hinv Hamt Hsame Hfresh Hrun
    Hhead Hsb Houter Hmatch Hscan. rewrite Hsame in Hscan.
  apply create_update_state_spend_inv in Hrun
    as (_ & latest' & pl & pk & parent & amt' & asserted & sig & Hinfo & Hpk & Hparent
        & Hamt' & Hgen & _ & _ & (populated & tx_memos & _ & _ & Htxs) & Hrecords).
  apply get_spendable_singleton_info_inv in Hinfo as [_ Hinfo].
  destruct (Hinfo _ _ eq_refl) as (Hlatest' & Hconf & _). clear Hinfo.
  rewrite Hlatest in Hlatest'. injection Hlatest' as <-.
  rewrite Hamt in Hamt'. injection Hamt' as <-.
  pose proof Hlatest as (Hin & Hlauncher & Hmax)%get_latest_singleton_Some.
  cbn [default] in *. fold new_root in Hrecords, Htxs.
  set (cur := current_coin launcher latest pk parent amt) in *.
  assert (coin_name cur = coin_id latest) as Hcur by by apply (coin_name_current_coin env).
  set (pending := successor_record launcher new_root new_ph amt latest cur) in *.
  assert (coin_id pending = successor_id) as Hpid.
  { unfold pending, successor_record, pending_record. simpl. by rewrite Hcur. }
  assert (coin (outer) = cur
          ∧ puzzle_reveal outer = HostFullPuz (PuzzleForPk pk) (root latest) launcher)
    as [Hcoin Hpuzzle].
  { case_bool_decide;
      [destruct Htxs as (chia_tx & chia_sb & funding_ph & _ & _ & ->) | subst txs];
      simpl in Hhead; injection Hhead as <-; simpl in Hsb; injection Hsb as <-;
      simpl in Houter; by injection Houter as <-. }
  clear Htxs.
  (* the pending record is the latest *)
  assert (DLStore.get_latest_singleton launcher false (singleton_records s') = Some pending)
    as Hpending.
  { rewrite Hrecords.
    apply (get_latest_singleton_added pending). intros x Hx Hxl _.
    specialize (Hmax x Hx Hxl). simpl. lia. }
  (* sync finds the record of the spent coin *)
  assert (DLStore.get_singleton_record (coin_name (coin outer)) (singleton_records s')
          = Some latest) as Hparent_record.
  { rewrite Hcoin, Hcur, Hrecords, get_singleton_record_add_ne.
    - by apply get_singleton_record_unique.
    - intros Heq. apply (Hfresh latest Hin). by rewrite Heq. }
  set (confirmed_record :=
         confirmed_successor env latest (coin_name (coin outer))
           (host_fullpuz_hash new_ph new_root launcher) amt new_root new_ph height).
  assert (coin_id confirmed_record = coin_id pending) as Hcid.
  { rewrite Hpid. unfold confirmed_record, confirmed_successor. simpl.
    by rewrite Hcoin, Hcur. }
  set (synced := with_successor env confirmed_record
                   (mkCoin (coin_name (coin outer))
                      (host_fullpuz_hash new_ph new_root launcher) amt) height s').
  assert (singleton_records synced
          = DLStore.add_singleton_record confirmed_record
              (DLStore.add_singleton_record pending (singleton_records s))) as Hsynced.
  { unfold synced. simpl. by rewrite Hrecords. }
  assert (DLStore.get_unconfirmed_singletons launcher (singleton_records synced) = [])
    as Hnone'.
  { apply elem_of_nil_inv. intros x (Hx & Hxl & Hxc)%elem_of_get_unconfirmed_singletons.
    rewrite Hsynced in Hx.
    apply elem_of_add_singleton_record in Hx as [-> | [Hx Hxid]]; [done |].
    apply elem_of_add_singleton_record in Hx as [-> | [Hx _]]; [by rewrite Hcid in Hxid |].
    assert (x ∈ DLStore.get_unconfirmed_singletons launcher (singleton_records s)) as Hx'
      by by apply elem_of_get_unconfirmed_singletons.
    rewrite Hnone in Hx'. by apply elem_of_nil in Hx'. }
  exists pending, synced, confirmed_record.
  split_and!; try done.
  - rewrite singleton_removed_run, Hmatch. cbv zeta. rewrite Hparent_record, Hscan.
    unfold uint32, uint. rewrite bool_decide_eq_true_2 by done.
    rewrite Hlauncher. by apply potentially_handle_resubmit_nothing_pending.
  - rewrite Hsynced.
    assert (launcher_id confirmed_record = launcher) as Hcl by done.
    rewrite <-Hcl at 1.
    apply get_latest_singleton_added. rewrite Hcl. intros x Hx Hxl Hxid.
    apply elem_of_add_singleton_record in Hx as [-> | [Hx _]]; [by rewrite Hcid in Hxid |].
    specialize (Hmax x Hx Hxl). simpl. lia.
  - simpl. by rewrite Hcoin, Hcur.
Qed.

(** ** When authoring fails late *)

(** X18. A call that fails may already have changed the caller's list.
    With the announce step and a caller-supplied list, the root
    announcement is appended before the secret key is looked up and the
    spend is signed: when the signer raises, [create_update_state_spend]
    raises that exception (the one of the key lookup when that raises
    first) and inserts no record, yet the caller's list holds the
    announcement. *)
Theorem failed_signing_leaves_the_announcement_appended
    (launcher : bytes32) (root_hash new_puz_hash : option bytes32) (new_amount : option Z)
    (fee : Z) (coin_announcements : option (list Announcement)) (ref : nat)
    (add_pending : bool) (s : WalletState) (latest : SingletonRecord)
    (parent_lineage : LineageProof) (old : list Announcement) (pubkey : bytes) (e : exn) :
  get_spendable_singleton_info launcher s = (s, inr (latest, parent_lineage)) →
  get_derivation_record_for_puzzle_hash env (inner_puzzle_hash latest) = Some pubkey →
  (0 ≤ generation latest)%Z → (generation latest + 2 < 2 ^ 32)%Z →
  heap s !! ref = Some (PyList old) →
  (∀ spends, sign_coin_spends env spends = inl e) →
  ∃ s' root_announce,
    create_update_state_spend env launcher root_hash new_puz_hash new_amount fee
      coin_announcements (Some ref) true add_pending true s
    = (s', inl match hack_populate_secret_key_for_puzzle_hash env
                       (get_tree_hash (PuzzleForPk pubkey)) with
               | inl key_error => key_error
               | inr _ => e
               end)
    ∧ singleton_records s' = singleton_records s
    ∧ heap s' !! ref = Some (PyList (old ++ [root_announce]))
    ∧ message root_announce = dollar.
Proof.
  intros Hinfo Hpk' Hgen0 Hgen Hobj Hsign. rename pubkey into pk.
  pose proof Hinfo as Hinfo'.
  apply get_spendable_singleton_info_inv in Hinfo' as [_ Hinfo'].
  destruct (Hinfo' _ _ eq_refl) as (_ & _ & [parent Hparent] & [amt Hamt]). clear Hinfo'.
  unfold create_update_state_spend. rewrite bind_run, Hinfo. cbv beta iota zeta.
  rewrite Hpk'. rewrite bind_run.
  match goal with |- context [match ?m s with _ => _ end] =>
    assert (∃ s1 new_ph, m s = (s1, inr new_ph) ∧ heap s1 = heap s
                         ∧ singleton_records s1 = singleton_records s)
      as (s1 & new_ph & -> & Hh1 & Hr1)
  end.
  { destruct new_puz_hash; simpl; eexists _, _; by split. }
  rewrite Hparent, Hamt. rewrite bind_run. unfold lift at 1.
  unfold uint32 at 1, uint. rewrite bool_decide_eq_true_2 by lia.
  rewrite bind_run, bind_run. unfold append_announcement at 1.
  rewrite Hh1, Hobj. rewrite bind_run. unfold lift at 1.
  unfold uint32 at 1, uint. rewrite bool_decide_eq_true_2 by lia.
  rewrite bind_run. unfold lift at 1. unfold uint32 at 1, uint.
  rewrite bool_decide_eq_true_2 by (simpl; lia).
  unfold mret at 1, M_ret. cbv beta iota zeta. rewrite bind_run. unfold lift at 1.
  destruct (hack_populate_secret_key_for_puzzle_hash env (get_tree_hash (PuzzleForPk pk)))
    as [key_error|key].
  - eexists _, (mkAnnouncement _ dollar). split; [reflexivity |].
    split_and!; [exact Hr1 | | reflexivity].
    simpl. by rewrite lookup_insert_eq.
  - rewrite bind_run.
    unfold sign_spend at 1. rewrite bind_run. unfold lift at 1. rewrite Hsign.
    eexists _, (mkAnnouncement _ dollar). split; [reflexivity |].
    split_and!; [exact Hr1 | | reflexivity].
    simpl. by rewrite lookup_insert_eq.
Qed.

(** ** The height of a launcher spend *)

(** X19. Without a height, [new_launcher_spend] asks the chain for the
    launcher coin and looks at the first coin state only.  It raises, and
    leaves the wallet state untouched, when the chain returns no state,
    when the coin has not the launcher puzzle hash, when it has no created
    height and when it has no spent height, in that order; otherwise it
    behaves as the call that is given the spent height. *)
Theorem new_launcher_spend_asks_the_chain_for_the_height (launcher_spend : CoinSpend)
    (s : WalletState) :
  let launcher := coin_name (coin launcher_spend) in
  let call := new_launcher_spend env launcher_spend None s in
  let raises e := call = (s, inl (ValueError (Collaborator (launcher_error_text e)))) in
  (get_coin_state env [launcher] = [] → raises NotAValidCoin)
  ∧ (∀ cs rest, get_coin_state env [launcher] = cs :: rest →
       (puzzle_hash (cs_coin cs) ≠ leaf_tree_hash SINGLETON_LAUNCHER → raises NotALauncher)
       ∧ (puzzle_hash (cs_coin cs) = leaf_tree_hash SINGLETON_LAUNCHER →
          (created_height cs = None → raises NotCreated)
          ∧ (created_height cs ≠ None →
             (spent_height cs = None → raises NotSpent)
             ∧ (∀ h, spent_height cs = Some h →
                  call = new_launcher_spend env launcher_spend (Some h) s)))).
Proof.
  intros launcher call raises. subst call raises launcher. cbv beta.
  unfold new_launcher_spend, observed_height, get_launcher_coin_state.
  split.
  - intros ->. by rewrite !bind_run.
  - intros cs rest ->. split.
    + intros Hph. rewrite !bind_run. unfold lift at 1.
      by rewrite bool_decide_eq_true_2.
    + intros Hph. rewrite (bool_decide_eq_false_2 (puzzle_hash (cs_coin cs) ≠ _))
        by (intros Hne; by apply Hne).
      split.
      * intros Hc. rewrite !bind_run. unfold lift at 1.
        by rewrite bool_decide_eq_true_2.
      * intros Hc. rewrite (bool_decide_eq_false_2 (created_height cs = None)) by done.
        split.
        -- intros Hs. rewrite !bind_run. unfold lift at 1.
           by rewrite bool_decide_eq_true_2.
        -- intros h Hs. rewrite (bool_decide_eq_false_2 (spent_height cs = None))
             by by rewrite Hs.
           rewrite !bind_run. unfold lift at 1. by rewrite Hs.
Qed.

(** ** Rebasing one pending update *)

Lemma singleton_records_queue txs s : singleton_records (queue txs s) = singleton_records s.
Proof. revert s. induction txs as [|tx txs IH]; intros s; [done |]. simpl. by rewrite IH. Qed.

Lemma transactions_queue_keeps_names txs s n :
  n ∈ name <$> transactions s ∨ n ∈ name <$> txs →
  n ∈ name <$> transactions (queue txs s).
Proof.
  revert s. induction txs as [|tx txs IH]; intros s.
  - intros [Hn | Hn]; [done | by apply elem_of_nil in Hn].
  - intros Hn. simpl. apply IH. rewrite fmap_cons, elem_of_cons in Hn.
    destruct (decide (n = name tx)) as [-> | Hne].
    + left. simpl. unfold TxStore.add_transaction_record. rewrite fmap_app, elem_of_app.
      right. apply list_elem_of_here.
    + destruct Hn as [Hn | [Hn | Hn]]; [| done | by right].
      left. simpl. unfold TxStore.add_transaction_record, TxStore.delete_transaction_record.
      rewrite fmap_app, elem_of_app. left.
      apply list_elem_of_fmap in Hn as (tx' & -> & Htx').
      apply list_elem_of_fmap_2. apply list_elem_of_filter. split; [done | done].
Qed.

(** X20. The rebase of one pending update.  The detector finds one pending
    record, a fork, a stored parent and no confirmed record of the branch
    with another root; the transaction that authored the pending record is
    stored under the name of its parent and lists the pending coin among
    its additions.  When authoring the same root again succeeds on the
    cleared state, the detector returns with the new transactions queued:
    the old pending record is gone, and the latest record of the launcher
    is a new pending record that carries the root of the old one, one
    generation after the confirmed head it now extends. *)
Theorem one_pending_update_is_rebased_onto_the_confirmed_head
    (launcher : bytes32) (s s1 : WalletState) (p : SingletonRecord) (first_parent : bytes32)
    (t : TransactionRecord) (fee : Z) (txs : list TransactionRecord) :
  pending_of launcher s = [p] →
  same_records [p] (branch_of launcher p s) = false →
  parent_name (lineage_proof p) = Some first_parent →
  root_changed (DLStore.get_singleton_record first_parent (singleton_records s))
    (branch_of launcher p s) = false →
  invalidated_dl_txs launcher s = [t] →
  existsb (λ c, bool_decide (coin_name c = coin_id p)) (additions t) = true →
  uint64 (match spend_bundle t with
          | Some sb => bundle_fees env sb
          | None => 0%Z
          end) = inr fee →
  create_update_state_spend env launcher (Some (root p)) None None fee None None
    true true false (cleared_state env launcher s) = (s1, inr txs) →
  potentially_handle_resubmit env launcher s = (queue txs s1, inr tt)
  ∧ ∃ head rebased,
      DLStore.get_latest_singleton launcher false
        (singleton_records (cleared_state env launcher s)) = Some head
      ∧ confirmed head = true
      ∧ DLStore.get_latest_singleton launcher false (singleton_records (queue txs s1))
        = Some rebased
      ∧ confirmed rebased = false
      ∧ root rebased = root p
      ∧ generation rebased = (generation head + 1)%Z
      ∧ parent_name (lineage_proof rebased) = Some (coin_id head)
      ∧ (∀ r, r ∈ singleton_records (queue txs s1) → coin_id r = coin_id p → r = rebased)
      ∧ (∀ tx, tx ∈ txs → name tx ∈ name <$> transactions (queue txs s1)).
Proof.
  intros Hpending Hfork Hparent Hroot Hdl Hadditions Hfee Hauthor.
  split.
  - rewrite potentially_handle_resubmit_run, Hpending, Hfork, Hparent, Hroot.
    unfold rebase_attempt, try_except, rebase. rewrite Hpending, Hdl.
    rewrite bind_run. cbn [fold_m]. rewrite !bind_run. rewrite Hadditions.
    rewrite bind_run. unfold lift at 1. rewrite Hfee. rewrite bind_run, Hauthor.
    unfold mret at 1 2 3, M_ret. cbv beta iota. rewrite for_each_modify. done.
  - apply create_update_state_spend_inv in Hauthor
      as (_ & head & pl & pk & parent & amt & asserted & sig & Hinfo & _ & _ & _ & Hgen & _
          & _ & _ & Hrecords).
    apply get_spendable_singleton_info_inv in Hinfo as [_ Hinfo].
    destruct (Hinfo _ _ eq_refl) as (Hhead & Hconf & _). clear Hinfo.
    pose proof Hhead as (Hin & Hlauncher & Hmax)%get_latest_singleton_Some.
    cbn [default] in Hrecords.
    set (cleared := cleared_state env launcher s) in *.
    set (rebased := successor_record launcher (root p)
                      (get_tree_hash (get_new_puzzle env (derivation_index cleared))) amt head
                      (current_coin launcher head pk parent amt)) in *.
    exists head, rebased. rewrite singleton_records_queue, Hrecords.
    split_and!; try done.
    + apply (get_latest_singleton_added rebased). intros x Hx Hxl _.
      specialize (Hmax x Hx Hxl). simpl. lia.
    + intros r [-> | [Hr _]]%elem_of_add_singleton_record Hid; [done |]. exfalso.
      unfold cleared, cleared_state in Hr. simpl in Hr.
      apply list_elem_of_filter in Hr as [Hr _]. apply Hr. rewrite Hid, Hpending.
      apply list_elem_of_here.
    + intros tx Htx. apply transactions_queue_keeps_names. right.
      by apply list_elem_of_fmap_2.
Qed.

End MoreProperties.

(** * The properties on the concrete instance *)

#[local] Existing Instance Example.hashing.

Lemma example_keys_consistent : keys_consistent Example.env.
Proof.
  intros ph pk Hpk.
  change (head (filter (λ k, leaf_tree_hash (PuzzleForPk k) = ph) Example.keys) = Some pk)
    in Hpk.
  apply head_Some_elem_of, list_elem_of_filter in Hpk as [Hpk _]. exact Hpk.
Qed.

(** ** C1 *)

(** A parent spend whose memos name a root the coin does not have: the
    record sync inserts has a coin id that is not derived from its fields. *)
Lemma derivation_invariant_broken_by_misleading_hint :
  Forall derivation_invariant (singleton_records Example.genesis_state)
  ∧ ¬ Forall derivation_invariant
        (singleton_records
           (state_after (singleton_removed Example.env Example.misleading_spend 12)
              Example.genesis_state)).
Proof.
  split.
  - apply (bool_decide_eq_true_1 _). vm_compute. reflexivity.
  - apply (bool_decide_eq_false_1 _). vm_compute. reflexivity.
Qed.

Lemma derivation_invariant_preserved_witness :
  Forall derivation_invariant
    (singleton_records
       (state_after
          (create_update_state_spend Example.env Example.launcher (Some Example.R1) None
             (Some 3%Z) 0 None None true true true)
          Example.genesis_state)).
Proof.
  refine (proj1 (proj2 (derivation_invariant_preserved Example.env Example.genesis_state
                          example_keys_consistent _))
            Example.launcher (Some Example.R1) None (Some 3%Z) 0%Z None None true true true).
  apply (bool_decide_eq_true_1 _). vm_compute. reflexivity.
Defined.

(** ** C2 *)

Lemma singleton_removed_follows_first_odd_create_coin_witness :
  singleton_removed Example.env Example.competing_spend 12 Example.pending_state
  = potentially_handle_resubmit Example.env Example.launcher Example.forked_state.
Proof.
  pose proof (singleton_removed_follows_first_odd_create_coin Example.env
                Example.competing_spend 12 Example.pending_state Example.genesis
                [create_coin_condition (puzzle_hash Example.competing_coin)
                   (Example.int_to_bytes 8 1)
                   [PList [PBytes Example.launcher; PBytes Example.R0;
                           PBytes (Example.owner_hash "key-2")]]])
    as Hsync.
  destruct Hsync as [Hfound _]; [vm_compute; reflexivity.. |].
  specialize (Hfound [] [] (puzzle_hash Example.competing_coin) (Example.int_to_bytes 8 1)
                (PBytes Example.launcher) Example.R0 (Example.owner_hash "key-2") [] []
                eq_refl).
  destruct Hfound as [Hrun _].
  - constructor.
  - vm_compute. reflexivity.
  - vm_compute. reflexivity.
  - vm_compute. reflexivity.
  - vm_compute. reflexivity.
  - vm_compute. reflexivity.
  - vm_compute. split; [discriminate | reflexivity].
  - exact Hrun.
Defined.

(** ** C3 *)

(** An even amount and a zero amount are accepted. *)
Lemma even_and_zero_amounts_are_accepted :
  succeeds
    (result_of
       (generate_signed_transaction Example.env [2%Z] [Example.owner_hash "key-1"] 0 []
          None None (Some Example.launcher) (Some Example.R1) true true false)
       Example.genesis_state)
  ∧ succeeds
      (result_of
         (create_update_state_spend Example.env Example.launcher (Some Example.R1) None
            (Some 0%Z) 0 None None true true false)
         Example.genesis_state).
Proof. split; vm_compute; exact I. Qed.

Lemma new_amount_is_written_unchecked_witness :
  creates_coin_of_amount
    (returned []
       (result_of
          (generate_signed_transaction Example.env [2%Z] [Example.owner_hash "key-1"] 0 []
             None None (Some Example.launcher) (Some Example.R1) true true false)
          Example.genesis_state))
    2.
Proof.
  destruct (proj2 (new_amount_is_written_unchecked Example.env Example.launcher
                     (Some Example.R1) None None 0 None None true true false [2%Z]
                     [Example.owner_hash "key-1"] [] (Some Example.launcher)
                     Example.genesis_state
                     (state_after
                        (generate_signed_transaction Example.env [2%Z]
                           [Example.owner_hash "key-1"] 0 [] None None
                           (Some Example.launcher) (Some Example.R1) true true false)
                        Example.genesis_state)
                     (returned []
                        (result_of
                           (generate_signed_transaction Example.env [2%Z]
                              [Example.owner_hash "key-1"] 0 [] None None
                              (Some Example.launcher) (Some Example.R1) true true false)
                           Example.genesis_state))))
    as (a & Ha & Hcreates).
  - vm_compute. reflexivity.
  - injection Ha as <-. exact Hcreates.
Defined.

(** ** C6 *)

Lemma create_update_state_spend_precondition_errors_witness :
  create_update_state_spend Example.env Example.launcher None None None 0 None None
    true true false Example.empty_state
  = (Example.empty_state, inl (ValueError NotTracked))
  ∧ create_update_state_spend Example.env Example.launcher None None None 0 None None
      true true false Example.pending_state
    = (Example.pending_state, inl (ValueError Pending))
  ∧ create_update_state_spend Example.env (Example.digest ["other"]) None None None 0 None
      None true true false Example.orphan_state
    = (Example.orphan_state, inl (ValueError InsufficientLineage))
  ∧ create_update_state_spend Example.env Example.reporter_launcher None None None 0 None
      None true true false Example.handed_over_state
    = (Example.handed_over_state, inl (ValueError ParentNotFound))
  ∧ create_update_state_spend Example.env Example.launcher None None None 0 None None
      true true false Example.unowned_state
    = (Example.unowned_state, inl (ValueError NotOwned)).
Proof.
  split_and!.
  - apply (create_update_state_spend_precondition_errors Example.env Example.launcher None
             None None 0 None None true true false Example.empty_state).
    vm_compute. reflexivity.
  - eapply (create_update_state_spend_precondition_errors Example.env Example.launcher None
              None None 0 None None true true false Example.pending_state).
    + vm_compute. reflexivity.
    + reflexivity.
  - eapply (create_update_state_spend_precondition_errors Example.env
              (Example.digest ["other"]) None None None 0 None None true true false
              Example.orphan_state).
    + vm_compute. reflexivity.
    + reflexivity.
    + left. reflexivity.
  - refine (proj1 (proj1 (proj2 (proj2 (proj2
              (create_update_state_spend_precondition_errors Example.env
                 Example.reporter_launcher None None None 0 None None true true false
                 Example.handed_over_state)))
              Example.handed_over_record (coin_name Example.reporter_genesis_coin) 1%Z
              _ _ _ _) _) _).
    + vm_compute. reflexivity.
    + reflexivity.
    + vm_compute. reflexivity.
    + reflexivity.
    + vm_compute. reflexivity.
    + vm_compute. discriminate.
  - refine (proj2 (proj2 (proj2 (proj2
              (create_update_state_spend_precondition_errors Example.env Example.launcher
                 None None None 0 None None true true false Example.unowned_state)))
              Example.unowned_record Example.launcher 1%Z _ _ _ _) _ _).
    + vm_compute. reflexivity.
    + reflexivity.
    + vm_compute. reflexivity.
    + reflexivity.
    + right. split; [reflexivity |]. exists Example.launcher_coin.
      split; [vm_compute; reflexivity | vm_compute; split; [discriminate | reflexivity]].
    + vm_compute. reflexivity.
Defined.

(** C6, on the code.  A reporter is created, and its first spend, which
    hands the singleton to a stranger, is synced before the launcher spend
    is processed.  The latest record of the launcher is then confirmed and
    has parent name and amount, and its inner puzzle hash has no derivation
    record; yet the call does not raise the "no permission" error: the
    parent record is gone, and the call raises "parent not found". *)
Lemma missing_parent_is_reported_before_missing_permission :
  let s := Example.handed_over_state in
  let r := Example.handed_over_record in
  s = state_after (singleton_removed Example.env Example.handover_spend 11)
        (state_after (generate_new_reporter Example.env Example.R0 0) Example.empty_state)
  ∧ DLStore.get_latest_singleton Example.reporter_launcher false (singleton_records s) = Some r
  ∧ confirmed r = true
  ∧ is_Some (parent_name (lineage_proof r)) ∧ is_Some (lp_amount (lineage_proof r))
  ∧ get_derivation_record_for_puzzle_hash Example.env (inner_puzzle_hash r) = None
  ∧ create_update_state_spend Example.env Example.reporter_launcher None None None 0 None
      None true true false s
    = (s, inl (ValueError ParentNotFound)).
Proof.
  split_and!.
  - vm_compute. reflexivity.
  - vm_compute. reflexivity.
  - reflexivity.
  - by eexists.
  - by eexists.
  - vm_compute. reflexivity.
  - vm_compute. reflexivity.
Qed.

(** ** C4 *)


(** ** C5 *)

(** C5, on the code.  The wallet holds the confirmed genesis record, the
    two pending records of an announced update and their transaction; sync
    then confirms a competing first generation with the same root.  The
    first re-authoring succeeds and inserts a pending record of generation
    2; the second raises because that record is pending.  The handler
    logs the warning with its cause and deletes the coin ids of the old
    pending records, which are gone already: the record authored during the
    attempt stays, and no transaction goes with it. *)
Lemma rebase_failure_keeps_the_record_it_authored :
  let before := Example.forked_state in
  let after := state_after (potentially_handle_resubmit Example.env Example.launcher) before in
  ((λ r, (generation r, confirmed r, root r)) <$> singleton_records before
   = [(0%Z, true, Example.R0); (2%Z, false, Example.R1); (1%Z, false, Example.R1);
      (1%Z, true, Example.R0)])
  ∧ ((λ r, (generation r, confirmed r, root r)) <$> singleton_records after
     = [(0%Z, true, Example.R0); (1%Z, true, Example.R0); (2%Z, false, Example.R1)])
  ∧ Forall (λ r, confirmed r = false → r ∉ singleton_records before) (singleton_records after)
  ∧ last (log after)
    = Some (LogWarning "Something went wrong during attempted DL resubmit"
              (Some (ValueError Pending)))
  ∧ transactions after = [].
Proof.
  split_and!.
  - vm_compute. reflexivity.
  - vm_compute. reflexivity.
  - apply (bool_decide_eq_true_1 _). vm_compute. reflexivity.
  - vm_compute. reflexivity.
  - vm_compute. reflexivity.
Qed.

(** ** C7 *)

Lemma fork_detector_is_idempotent_witness :
  let once :=
    state_after (potentially_handle_resubmit Example.env Example.launcher)
      Example.forked_state in
  let twice := state_after (potentially_handle_resubmit Example.env Example.launcher) once in
  singleton_records twice = singleton_records once
  ∧ transactions twice = transactions once
  ∧ potentially_handle_resubmit Example.env Example.launcher Example.genesis_state
    = (Example.genesis_state, inr tt).
Proof.
  intros once twice.
  pose proof (fork_detector_is_idempotent Example.env Example.launcher Example.forked_state)
    as (Hrecords & Htxs & _).
  pose proof (fork_detector_is_idempotent Example.env Example.launcher Example.genesis_state)
    as (_ & _ & Hnone & _).
  split_and!; [exact Hrecords | exact Htxs |].
  apply Hnone. vm_compute. reflexivity.
Defined.

(** ** C8 *)

(** The first spend of a reporter is synced before its launcher spend is
    processed.  No unconfirmed record has the coin id of the genesis
    successor then, and the launcher spend inserts no record either: the
    latest record of the launcher is confirmed, so the spend counts as
    processed. *)
Lemma launcher_spend_after_first_sync_inserts_nothing :
  let genesis_id := coin_name Example.reporter_genesis_coin in
  let before := Example.reporter_synced_state in
  let after :=
    state_after (new_launcher_spend Example.env Example.reporter_launcher_spend (Some 10%Z))
      before in
  DLStore.get_singleton_record genesis_id (singleton_records before) = None
  ∧ DLStore.get_singleton_record genesis_id (singleton_records after) = None
  ∧ Forall (λ r, generation r ≠ 0%Z) (singleton_records after)
  ∧ singleton_records after = singleton_records before.
Proof.
  split_and!.
  - vm_compute. reflexivity.
  - vm_compute. reflexivity.
  - apply (bool_decide_eq_true_1 _). vm_compute. reflexivity.
  - vm_compute. reflexivity.
Qed.

Lemma new_launcher_spend_cases_witness :
  singleton_records Example.genesis_state
  = DLStore.add_singleton_record Example.genesis (singleton_records Example.empty_state)
  ∧ generation Example.genesis = 0%Z ∧ confirmed Example.genesis = true.
Proof.
  refine (proj1 (proj2 (new_launcher_spend_cases Example.env Example.launcher_spend
                          (Some 10%Z) 10%Z Example.empty_state
                          (puzzle_hash Example.genesis_coin) 1 Example.R0
                          (Example.owner_hash "key-0") _ _)) _).
  - reflexivity.
  - vm_compute. reflexivity.
  - vm_compute. reflexivity.
Defined.

(** ** C9 *)

(** With a fee the bundle of the authored transaction holds three coin
    spends: the two singleton spends and the spend that pays the fee. *)
Lemma fee_brings_a_third_coin_spend :
  let call :=
    create_update_state_spend Example.env Example.launcher (Some Example.R1) None None 5
      None None true true true in
  succeeds (result_of call Example.genesis_state)
  ∧ (length ∘ coin_spends
       <$> (head (returned [] (result_of call Example.genesis_state)) ≫= spend_bundle))
    = Some 3%nat.
Proof. split; [vm_compute; exact I | vm_compute; reflexivity]. Qed.

Lemma announce_builds_two_records_and_two_spends_witness :
  (∃ dl_tx sb outer second,
     head (returned [] Example.announced.2) = Some dl_tx
     ∧ spend_bundle dl_tx = Some sb
     ∧ coin_spends sb = [outer; second]
     ∧ parent_coin_info (coin second) = coin_name (coin outer))
  ∧ ∃ dl_tx chia_tx chia_sb sb outer second,
      returned [] Example.announced_with_fee.2 = [dl_tx; with_spend_bundle None chia_tx]
      ∧ spend_bundle chia_tx = Some chia_sb
      ∧ spend_bundle dl_tx = Some sb
      ∧ coin_spends sb = [outer; second] ++ coin_spends chia_sb
      ∧ coin_name (coin outer) = coin_id Example.genesis.
Proof.
  split.
  - destruct (announce_builds_two_records_and_two_spends Example.env Example.launcher
                (Some Example.R1) None None 0 None None true true Example.genesis_state
                Example.announced.1 (returned [] Example.announced.2))
      as (latest & ephemeral & final & outer & second & dl_tx & sb & funding & lineage & amt
          & conditions & _ & _ & _ & _ & _ & _ & _ & _ & Hhead & Hsb & Hspends & Hfee
          & Hparent & _).
    + vm_compute. reflexivity.
    + exists dl_tx, sb, outer, second. destruct Hfee as [-> _]; [done |].
      rewrite app_nil_r in Hspends.
      split; [exact Hhead |]. split; [exact Hsb |]. split; [exact Hspends | exact Hparent].
  - destruct (announce_builds_two_records_and_two_spends Example.env Example.launcher
                (Some Example.R1) None None 5 None None true true Example.genesis_state
                Example.announced_with_fee.1 (returned [] Example.announced_with_fee.2))
      as (latest & ephemeral & final & outer & second & dl_tx & sb & funding & lineage & amt
          & conditions & Hlatest & _ & _ & _ & _ & _ & _ & _ & _ & Hsb & Hspends & _ & _
          & Hfunded & _ & _ & _ & _ & Hcoin & _).
    + vm_compute. reflexivity.
    + destruct Hfunded as (chia_tx & chia_sb & funding_ph & _ & Hbundle & -> & Htxs);
        [reflexivity |].
      vm_compute in Hlatest. injection Hlatest as <-.
      exists dl_tx, chia_tx, chia_sb, sb, outer, second.
      split; [exact Htxs |]. split; [exact Hbundle |]. split; [exact Hsb |].
      split; [exact Hspends |].
      apply (Hcoin example_keys_consistent).
      apply (bool_decide_eq_true_1 _). vm_compute. reflexivity.
Defined.

(** ** C10 *)

(** The caller's list holds one announcement before the call and two after
    it. *)
Lemma callers_list_is_changed_by_the_call :
  let call :=
    create_update_state_spend Example.env Example.launcher (Some Example.R1) None None 0
      None (Some 0%nat) true true true in
  let after := state_after call Example.state_with_callers_list in
  succeeds (result_of call Example.state_with_callers_list)
  ∧ heap Example.state_with_callers_list !! 0%nat
    = Some (PyList [Example.callers_announcement])
  ∧ (match heap after !! 0%nat with
     | Some (PyList items) => (message <$> items) = ["ok"; "$"]
     | _ => False
     end)
  ∧ heap after !! 0%nat ≠ heap Example.state_with_callers_list !! 0%nat.
Proof.
  split_and!.
  - vm_compute. exact I.
  - vm_compute. reflexivity.
  - vm_compute. reflexivity.
  - vm_compute. discriminate.
Qed.

Lemma caller_announcements_are_extended_in_place_witness :
  ∃ root_announce,
    message root_announce = dollar
    ∧ heap (state_after
              (create_update_state_spend Example.env Example.launcher (Some Example.R1) None
                 None 0 None (Some 0%nat) true true true)
              Example.state_with_callers_list)
      = <[0%nat := PyList ([Example.callers_announcement] ++ [root_announce])]>
          (heap Example.state_with_callers_list).
Proof.
  destruct (caller_announcements_are_extended_in_place Example.env Example.launcher
              (Some Example.R1) None None 0 None 0%nat true true
              Example.state_with_callers_list
              (state_after
                 (create_update_state_spend Example.env Example.launcher (Some Example.R1)
                    None None 0 None (Some 0%nat) true true true)
                 Example.state_with_callers_list)
              (returned []
                 (result_of
                    (create_update_state_spend Example.env Example.launcher
                       (Some Example.R1) None None 0 None (Some 0%nat) true true true)
                    Example.state_with_callers_list)))
    as (old & root_announce & Hold & Hmessage & Hheap & _).
  - vm_compute. reflexivity.
  - exists root_announce. split; [exact Hmessage |].
    assert (old = [Example.callers_announcement]) as ->; [| exact Hheap].
    revert Hold. vm_compute. congruence.
Defined.

(** * The further properties on concrete inputs *)

(** ** The codecs *)

Lemma hex_of_byte_round_trip (c : Ascii.ascii) (rest : list Ascii.ascii) :
  Scenarios.strip_0x (Scenarios.hex_of_byte c ++ rest) = Scenarios.hex_of_byte c ++ rest
  ∧ Scenarios.bytes_of_hex (Scenarios.hex_of_byte c ++ rest)
    = (bytes ← Scenarios.bytes_of_hex rest; Some (c :: bytes)).
Proof.
  destruct c as [[] [] [] [] [] [] [] []]; split; reflexivity.
Qed.

Lemma bytes_of_hex_round_trip (l : list Ascii.ascii) :
  Scenarios.bytes_of_hex (l ≫= Scenarios.hex_of_byte) = Some l.
Proof.
  induction l as [|c l IH]; [done |]. rewrite bind_cons.
  rewrite (proj2 (hex_of_byte_round_trip c _)), IH. done.
Qed.

Lemma strip_0x_hex (l : list Ascii.ascii) :
  Scenarios.strip_0x (l ≫= Scenarios.hex_of_byte) = l ≫= Scenarios.hex_of_byte.
Proof.
  destruct l as [|c l]; [done |]. rewrite bind_cons.
  apply (proj1 (hex_of_byte_round_trip c _)).
Qed.

Lemma string_of_list_ascii_of_string (s : string) :
  String.string_of_list_ascii (String.list_ascii_of_string s) = s.
Proof. induction s as [|c s IH]; [done |]. simpl. by rewrite IH. Qed.

Lemma list_ascii_of_string_of_list (l : list Ascii.ascii) :
  String.list_ascii_of_string (String.string_of_list_ascii l) = l.
Proof. induction l as [|c l IH]; [done |]. simpl. by rewrite IH. Qed.

Lemma scenario_codec_round_trips : codec_round_trips Scenarios.codec.
Proof.
  split.
  - intros b. simpl. unfold Scenarios.bytes32_of_hex, Scenarios.hex_of_bytes.
    rewrite list_ascii_of_string_of_list, strip_0x_hex, bytes_of_hex_round_trip.
    by rewrite string_of_list_ascii_of_string.
  - intros n. simpl. unfold Scenarios.int_of_decimal, Scenarios.decimal_of_int.
    rewrite DecimalString.NilZero.isi.
    + by rewrite DecimalZ.of_to.
    + destruct n as [|p|p]; [done | | done]. simpl. intros [= Hp].
      by apply DecimalPos.Unsigned.to_uint_nonnil in Hp.
    + destruct n as [|p|p]; [done | done |]. simpl. intros [= Hp].
      by apply DecimalPos.Unsigned.to_uint_nonnil in Hp.
Qed.

Lemma example_decoder_inverts_encoder : decoder_inverts_encoder Example.env.
Proof. by intros f a r i. Qed.

Lemma example_signer_signs : signer_signs Example.env.
Proof. intros spends. by eexists. Qed.

Lemma example_standard_wallet_funds : standard_wallet_funds Example.env.
Proof. intros req. eexists _, _. split; reflexivity. Qed.

Lemma example_memos_are_computed : memos_are_computed Example.env.
Proof. intros bundle. by eexists. Qed.

(** ** Launching *)

(** The launcher spend of scenario 1, processed twice. *)
Lemma new_launcher_spend_twice_is_once_witness :
  new_launcher_spend Example.env Example.launcher_spend (Some 10%Z) Example.genesis_state
  = (with_log (LogInfo "Spend of launcher has already been processed") Example.genesis_state,
     inr tt).
Proof.
  apply (new_launcher_spend_twice_is_once Example.env Example.launcher_spend (Some 10%Z)
           Example.empty_state).
  vm_compute. reflexivity.
Defined.

(** The reporter of the example wallet: its launcher spend is recognised. *)
Lemma generate_new_reporter_launch_is_recognised_witness :
  ∃ sb launcher_cs inner_puzhash,
    spend_bundle Scenarios.reporter_dl = Some sb
    ∧ last (coin_spends sb) = Some launcher_cs
    ∧ coin_name (coin launcher_cs) = Example.reporter_launcher
    ∧ match_dl_launcher Example.env launcher_cs = inr (true, Some inner_puzhash).
Proof.
  destruct (proj1 (generate_new_reporter_launch_is_recognised Example.env Example.R0 0
                     Example.empty_state Scenarios.reporter_state Scenarios.reporter_dl
                     Scenarios.reporter_std Example.reporter_launcher
                     example_decoder_inverts_encoder))
    as (sb & funding & launcher_cs & record & Hsb & Hspends & _ & Hname & _ & Hmatch & _).
  { vm_compute. reflexivity. }
  exists sb, launcher_cs, (inner_puzzle_hash record).
  split; [exact Hsb |]. split; [by rewrite Hspends, last_snoc |].
  split; [exact Hname | exact Hmatch].
Defined.

(** The reporter of the example wallet, its launcher spend processed at
    height 10. *)
Lemma reporter_is_spendable_after_its_launcher_spend_witness :
  ∃ launcher_cs s2 record,
    last (coin_spends Scenarios.reporter_bundle) = Some launcher_cs
    ∧ new_launcher_spend Example.env launcher_cs (Some 10%Z) Scenarios.reporter_state
      = (s2, inr tt)
    ∧ DLStore.records_of Example.reporter_launcher (singleton_records s2) = [record]
    ∧ confirmed record = true
    ∧ succeeds (result_of (get_spendable_singleton_info Example.reporter_launcher) s2).
Proof.
  destruct (reporter_is_spendable_after_its_launcher_spend Example.env Example.R0 0 10
              Example.empty_state Scenarios.reporter_state Scenarios.reporter_dl
              Scenarios.reporter_std Example.reporter_launcher Scenarios.reporter_bundle
              Scenarios.reporter_launch example_decoder_inverts_encoder)
    as (s2 & record & Hrun & Hrecords & _ & Hconfirmed & _ & _ & _ & _ & _ & Hspendable & _).
  - intros r Hr. by apply elem_of_nil in Hr.
  - vm_compute. reflexivity.
  - reflexivity.
  - vm_compute. reflexivity.
  - exists Scenarios.reporter_launch, s2, record.
    split; [reflexivity |]. split; [exact Hrun |]. split; [exact Hrecords |].
    split; [exact Hconfirmed | exact Hspendable].
Defined.

(** A chain that knows the spent launcher coin of scenario 1, and a wallet
    that does not know the launcher yet. *)
Lemma launcher_request_survives_the_action_queue_witness :
  ∃ action,
    track_new_launcher_id Scenarios.chain_env Scenarios.codec Example.launcher None None
      Example.empty_state
    = (Example.empty_state, inr (Some action))
    ∧ act_height (act_data action) = Some 10%Z
    ∧ ∀ response s,
        new_launcher_spend_response Scenarios.chain_env Scenarios.codec (Some action)
          response s
        = new_launcher_spend Scenarios.chain_env
            (mkCoinSpend Example.launcher_coin (psr_puzzle response) (psr_solution response))
            (Some (psr_height response)) s.
Proof.
  destruct (proj2 (launcher_request_survives_the_action_queue Scenarios.chain_env
                     Scenarios.codec Example.launcher None None Example.empty_state
                     scenario_codec_round_trips (lookup_empty _) (λ sp Hsp, ltac:(done)))
              (mkCoinState Example.launcher_coin (Some 9%Z) (Some 10%Z)))
    as (action & h & Hrun & _ & _ & _ & _ & Hh & Hact & Hresponse).
  { vm_compute. reflexivity. }
  exists action. split; [exact Hrun |]. split.
  - rewrite Hact, <-Hh. reflexivity.
  - intros response s. apply Hresponse; [reflexivity | reflexivity | simpl; lia].
Defined.

(** ** Authoring *)

(** Scenario 2 once its pending record is stored: a second update is
    refused. *)
Lemma pending_update_blocks_further_authoring_witness :
  create_update_state_spend Example.env Example.launcher (Some Example.R0) None None 0
    None None true true false Scenarios.updated.1
  = (Scenarios.updated.1, inl (ValueError Pending)).
Proof.
  destruct (pending_update_blocks_further_authoring Example.env Example.launcher
              (Some Example.R1) (Some (Example.owner_hash "key-1")) None 0 None None
              true true false Example.genesis_state Scenarios.updated.1 Scenarios.updated_txs)
    as (latest & parent_lineage & _ & Hpending & _).
  { vm_compute. reflexivity. }
  apply (Hpending eq_refl).
Defined.

(** A CREATE_COIN condition of amount 1 without memos. *)
Lemma scan_reports_only_missing_memos_witness :
  find_successor [create_coin_condition Example.R0 (Example.int_to_bytes 8 1) []]
  = inr BadHint.
Proof.
  refine (proj1 (scan_reports_only_missing_memos [] [] [] Example.R0
                   (Example.int_to_bytes 8 1) _ _ _ _)).
  - constructor.
  - vm_compute. reflexivity.
  - vm_compute. reflexivity.
  - reflexivity.
Defined.

(** Scenario 2 changes the root: the inner solution starts with the root
    update. *)
Lemma root_update_is_authored_iff_the_root_changes_witness :
  ∃ lineage amt conditions,
    solution Scenarios.update_spend = SingletonSolution lineage amt (Some conditions)
    ∧ head conditions = Some (UpdateRoot Example.R1).
Proof.
  destruct (root_update_is_authored_iff_the_root_changes Example.env Example.launcher
              (Some Example.R1) (Some (Example.owner_hash "key-1")) None 0 None None
              true true false Example.genesis_state Scenarios.updated.1 Scenarios.updated_txs)
    as (latest & dl_tx & sb & outer & lineage & amt & conditions & Hlatest & Htx & Hsb
        & Houter & Hsolution & Hiff & Hfirst & _).
  { vm_compute. reflexivity. }
  injection Htx as <-. injection Hsb as <-. injection Houter as <-.
  injection Hlatest as <-.
  exists lineage, amt, conditions. split; [exact Hsolution |].
  apply Hfirst, Hiff. split; [reflexivity |]. vm_compute. discriminate.
Defined.

(** Scenario 2 with a fee of 5 meets every condition. *)
Lemma create_update_state_spend_returns_witness :
  ∃ s' txs,
    create_update_state_spend Example.env Example.launcher (Some Example.R1)
      (Some (Example.owner_hash "key-1")) None 5 None None true true false
      Example.genesis_state
    = (s', inr txs).
Proof.
  apply (create_update_state_spend_returns Example.env Example.launcher (Some Example.R1)
           (Some (Example.owner_hash "key-1")) None 5 None None true true false
           Example.genesis_state Example.genesis
           (mkLineageProof (Some (parent_coin_info Example.launcher_coin)) None (Some 1%Z))
           1 "key-0").
  - vm_compute. reflexivity.
  - vm_compute. reflexivity.
  - reflexivity.
  - lia.
  - vm_compute. discriminate.
  - vm_compute. reflexivity.
  - exists "key-0". vm_compute. reflexivity.
  - intros _. exact example_signer_signs.
  - exact example_memos_are_computed.
  - intros _. exact example_standard_wallet_funds.
  - done.
Defined.

(** Scenario 2 with a fee of 5: two transactions, the second without its
    bundle. *)
Lemma fee_is_paid_by_a_transaction_bound_to_the_spend_witness :
  ∃ dl_tx chia_tx,
    Scenarios.funded_txs = [dl_tx; with_spend_bundle None chia_tx]
    ∧ fee_amount dl_tx = 5%Z.
Proof.
  destruct (fee_is_paid_by_a_transaction_bound_to_the_spend Example.env Example.launcher
              (Some Example.R1) (Some (Example.owner_hash "key-1")) None 5 None None
              true true false Example.genesis_state Scenarios.funded.1 Scenarios.funded_txs)
    as (dl_tx & chia_tx & _ & _ & _ & _ & Htxs & _ & _ & _ & _ & _ & _ & _ & Hfee & _).
  { lia. }
  { vm_compute. reflexivity. }
  exists dl_tx, chia_tx. split; [exact Htxs | exact Hfee].
Defined.

(** ** Authoring, then sync *)

(** Scenario 2 queued, then its spend seen on chain at height 12. *)
Lemma authored_spend_confirms_its_pending_record_witness :
  ∃ s'' successor,
    singleton_removed Example.env Scenarios.update_spend 12 Scenarios.updated.1
    = (s'', inr tt)
    ∧ DLStore.get_latest_singleton Example.launcher false (singleton_records s'')
      = Some successor
    ∧ confirmed successor = true
    ∧ root successor = Example.R1
    ∧ DLStore.get_unconfirmed_singletons Example.launcher (singleton_records s'') = [].
Proof.
  destruct (authored_spend_confirms_its_pending_record Example.env Example.launcher
              (Some Example.R1) (Example.owner_hash "key-1") None 0 None None true 12
              Example.genesis_state Scenarios.updated.1 Scenarios.updated_txs
              Example.genesis 1 Scenarios.update_tx Scenarios.update_bundle
              Scenarios.update_spend example_keys_consistent)
    as (pending & s'' & successor & _ & _ & Hrun & Hlatest & _ & Hconfirmed & _ & _ & Hroot
        & _ & _ & Hnone).
  - apply (bool_decide_eq_true_1 _). vm_compute. reflexivity.
  - vm_compute. reflexivity.
  - vm_compute. reflexivity.
  - apply (bool_decide_eq_true_1 _). vm_compute. reflexivity.
  - reflexivity.
  - reflexivity.
  - apply Forall_forall. apply (bool_decide_eq_true_1 _). vm_compute. reflexivity.
  - vm_compute. reflexivity.
  - reflexivity.
  - reflexivity.
  - reflexivity.
  - vm_compute. reflexivity.
  - vm_compute. reflexivity.
  - exists s'', successor.
    split; [exact Hrun |]. split; [exact Hlatest |]. split; [exact Hconfirmed |].
    split; [exact Hroot | exact Hnone].
Defined.

(** ** A signer that refuses *)

(** Scenario 4 with a wallet that holds no secret key: the call raises and
    the list of the caller has grown. *)
Lemma failed_signing_leaves_the_announcement_appended_witness :
  ∃ s' root_announce,
    create_update_state_spend Scenarios.refusing_env Example.launcher (Some Example.R1)
      None None 0 None (Some 0%nat) true true true Example.state_with_callers_list
    = (s', inl Scenarios.no_key)
    ∧ heap s' !! 0%nat = Some (PyList ([Example.callers_announcement] ++ [root_announce])).
Proof.
  destruct (failed_signing_leaves_the_announcement_appended Scenarios.refusing_env
              Example.launcher (Some Example.R1) None None 0 None 0%nat true
              Example.state_with_callers_list Example.genesis
              (mkLineageProof (Some (parent_coin_info Example.launcher_coin)) None
                 (Some 1%Z))
              [Example.callers_announcement] "key-0" Scenarios.no_key)
    as (s' & root_announce & Hrun & _ & Hheap & _).
  - vm_compute. reflexivity.
  - vm_compute. reflexivity.
  - vm_compute. discriminate.
  - vm_compute. reflexivity.
  - vm_compute. reflexivity.
  - intros spends. reflexivity.
  - exists s', root_announce. split; [exact Hrun | exact Hheap].
Defined.

(** ** The rebase *)

(** Scenario 5 with the update of scenario 2 pending: the detector authors
    it again on top of the competing record. *)
Lemma one_pending_update_is_rebased_onto_the_confirmed_head_witness :
  potentially_handle_resubmit Example.env Example.launcher Scenarios.overtaken_state
  = (queue Scenarios.rebased_txs Scenarios.rebased.1, inr tt).
Proof.
  apply (one_pending_update_is_rebased_onto_the_confirmed_head Example.env Example.launcher
           Scenarios.overtaken_state Scenarios.rebased.1 Scenarios.overtaken_record
           (coin_id Example.genesis) Scenarios.update_tx 0 Scenarios.rebased_txs).
  - vm_compute. reflexivity.
  - vm_compute. reflexivity.
  - vm_compute. reflexivity.
  - vm_compute. reflexivity.
  - vm_compute. reflexivity.
  - vm_compute. reflexivity.
  - vm_compute. reflexivity.
  - vm_compute. reflexivity.
Defined.

(** ** The branches of the case analyses *)

(** The launcher spend of scenario 1 is accepted. *)
Lemma match_dl_launcher_accepts_sound_launches_witness :
  match_dl_launcher Example.env Example.launcher_spend
  = inr (true, Some (Example.owner_hash "key-0")).
Proof.
  apply (proj1 (match_dl_launcher_accepts_sound_launches Example.env Example.launcher_spend)).
  split; [reflexivity |].
  exists (puzzle_hash Example.genesis_coin), 1%Z, Example.R0.
  split; [vm_compute; reflexivity |]. split; vm_compute; reflexivity.
Defined.

(** Adopting the launcher of scenario 1 with its spend, twice. *)
Lemma track_new_launcher_id_twice_is_once_witness :
  track_new_launcher_id Example.env Scenarios.codec Example.launcher
    (Some Example.launcher_spend) (Some 10%Z) Example.genesis_state
  = (with_log (LogInfo "Spend of launcher has already been processed") Example.genesis_state,
     inr None).
Proof.
  refine (proj2 (proj2 (proj2 (proj2 (track_new_launcher_id_twice_is_once Example.env
            Scenarios.codec Example.launcher Example.launcher_spend (Some 10%Z)
            Example.empty_state)) (lookup_empty _) _ _ Example.genesis_state _))).
  - vm_compute. reflexivity.
  - reflexivity.
  - vm_compute. reflexivity.
Defined.

(** The coin offered for the launcher of scenario 1 is the genesis coin. *)
Lemma get_coins_to_offer_returns_the_latest_coin_witness :
  ∃ c, get_coins_to_offer Example.launcher 1 Example.genesis_state
       = (Example.genesis_state, inr [c])
       ∧ coin_name c = coin_id Example.genesis.
Proof.
  destruct (proj2 (proj2 (get_coins_to_offer_returns_the_latest_coin Example.env
                            Example.launcher 1 Example.genesis_state)) Example.genesis)
    as (c & Hrun & Hname & _).
  - vm_compute. reflexivity.
  - apply (bool_decide_eq_true_1 _). vm_compute. reflexivity.
  - exists c. split; [exact Hrun | exact Hname].
Defined.

(** A melt of the genesis coin of scenario 1 is logged and stores nothing. *)
Lemma singleton_removed_stores_nothing_without_successor_witness :
  same_stores Example.genesis_state
    (state_after (singleton_removed Example.env Example.melting_spend 12)
       Example.genesis_state)
  ∧ result_of (singleton_removed Example.env Example.melting_spend 12) Example.genesis_state
    = inr tt.
Proof.
  assert (match_dl_singleton Example.env (puzzle_reveal Example.melting_spend) = true)
    as Hmatch by (vm_compute; reflexivity).
  assert (DLStore.get_singleton_record (coin_name (coin Example.melting_spend))
            (singleton_records Example.genesis_state) ≠ None)
    as Htracked by (vm_compute; discriminate).
  assert (scan Example.env Example.melting_spend = inr Melted)
    as Hscan by (vm_compute; reflexivity).
  destruct (proj2 (proj2 (proj2 (singleton_removed_stores_nothing_without_successor
                                   Example.env Example.melting_spend 12
                                   Example.genesis_state) Hmatch) Htracked)
              (or_intror Hscan))
    as (Hsame & Hresult & _).
  split; [exact Hsame | exact Hresult].
Defined.

(** The chain of scenario 1 supplies the height 10. *)
Lemma new_launcher_spend_asks_the_chain_for_the_height_witness :
  new_launcher_spend Scenarios.chain_env Example.launcher_spend None Example.empty_state
  = new_launcher_spend Scenarios.chain_env Example.launcher_spend (Some 10%Z)
      Example.empty_state.
Proof.
  refine (proj2 (proj2 (proj2 (proj2 (new_launcher_spend_asks_the_chain_for_the_height
            Scenarios.chain_env Example.launcher_spend Example.empty_state)
            (mkCoinState Example.launcher_coin (Some 9%Z) (Some 10%Z)) [] _) _) _) 10%Z
            eq_refl).
  - vm_compute. reflexivity.
  - vm_compute. reflexivity.
  - vm_compute. discriminate.
Defined.
